(** * Most-recent flight status per flight key: a model of [task2.py]

    The development embeds [src/task2.py] (function [most_recent_flights_csv]
    and its helper [_parse_time_flex]) and proves properties of the
    timestamp resolution and of the reduction to one row per flight key.

    Conventions.
    - Python [str] values are [string]s; every character is read as a code
      point below 256.
    - A pandas [Timestamp] is an integer number of nanoseconds since the
      epoch ([Z]); [NaT] and [pd.NA] are [None].
    - Library calls are modelled from their documented behaviour:
      [datetime.strptime] through the regular expressions that [_strptime]
      builds for a format, [re] through a backtracking matcher.  The
      pandas calls that read text, the dtype inference of [pd.read_csv]
      and [pd.to_datetime], are parameters of the pipeline ([Pandas]); a
      boolean [.loc] is modelled with its alignment check.
    - Instants are unbounded integers: the end of the [datetime64[ns]]
      range (2262-04-11T23:47:16.854775807), past which pandas raises,
      is outside the model. *)

From Stdlib Require Import String Ascii List ZArith Lia Bool Arith Sorted.
From Stdlib Require Import OrdersEx RelationClasses.
Import ListNotations.

Local Open Scope string_scope.
Local Open Scope Z_scope.

(* ===================================================================== *)
(** ** Characters and strings *)
(* ===================================================================== *)

Module Str.

(** [str.isspace] on a single code point below 256. *)
Definition is_space (c : ascii) : bool :=
  let n := N_of_ascii c in
  ((9 <=? n) && (n <=? 13) || (28 <=? n) && (n <=? 32)
   || (n =? 133) || (n =? 160))%N.

Definition is_digit (c : ascii) : bool :=
  let n := N_of_ascii c in ((48 <=? n) && (n <=? 57))%N.

(** [str.lower] on a single code point below 256. *)
Definition lower_char (c : ascii) : ascii :=
  let n := N_of_ascii c in
  if ((65 <=? n) && (n <=? 90)
      || (192 <=? n) && (n <=? 222) && negb (n =? 215))%N
  then ascii_of_N (n + 32) else c.

Fixpoint lower (s : string) : string :=
  match s with
  | EmptyString => EmptyString
  | String c s' => String (lower_char c) (lower s')
  end.

Fixpoint lstrip (s : string) : string :=
  match s with
  | EmptyString => EmptyString
  | String c s' => if is_space c then lstrip s' else s
  end.

Fixpoint rstrip (s : string) : string :=
  match s with
  | EmptyString => EmptyString
  | String c s' =>
      match rstrip s' with
      | EmptyString => if is_space c then EmptyString else String c EmptyString
      | t => String c t
      end
  end.

(** [s.strip()] *)
Definition strip (s : string) : string := rstrip (lstrip s).

Definition is_empty (s : string) : bool :=
  match s with EmptyString => true | _ => false end.

(** [x in xs] for a list of strings. *)
Definition isin (x : string) (xs : list string) : bool :=
  existsb (String.eqb x) xs.

(** [int(s)] for a string of decimal digits. *)
Fixpoint int_acc (acc : Z) (s : string) : Z :=
  match s with
  | EmptyString => acc
  | String c s' => int_acc (10 * acc + (Z.of_N (N_of_ascii c) - 48)) s'
  end.

Definition int (s : string) : Z := int_acc 0 s.

End Str.

(* ===================================================================== *)
(** ** Regular expressions ([re]) *)
(* ===================================================================== *)

Module Re.

(** The fragment of [re] syntax used by [_DATE_RE] and by [_strptime]. *)
Inductive regex : Type :=
| Eps                                   (* empty pattern *)
| Chr (p : ascii -> bool)               (* one character of a class *)
| Seq (r1 r2 : regex)                   (* r1 r2 *)
| Alt (r1 r2 : regex)                   (* r1|r2, left alternative first *)
| Plus (p : ascii -> bool)              (* [p]+, greedy *)
| Grp (name : ascii) (r : regex).       (* (?P<name>r) *)

(** [groupdict()] of a match. *)
Definition groupdict := list (ascii * string).

Fixpoint get (name : ascii) (g : groupdict) : option string :=
  match g with
  | [] => None
  | (n, v) :: g' => if Ascii.eqb n name then Some v else get name g'
  end.

(** The part of [s] consumed when [rest] is what remains of it. *)
Definition consumed (s rest : string) : string :=
  substring 0 (String.length s - String.length rest) s.

Section Backtracking.
Context {A : Type}.

(** Greedy repetition: the longest run first, then shorter ones. *)
Fixpoint plus_bt (p : ascii -> bool) (s : string)
         (k : string -> option A) : option A :=
  match s with
  | EmptyString => None
  | String c s' =>
      if p c then
        match plus_bt p s' k with
        | Some a => Some a
        | None => k s'
        end
      else None
  end.

(** Backtracking match of [r] at the start of [s]; [k] is the rest of
    the pattern.  The first success in priority order is returned. *)
Fixpoint bt (r : regex) (s : string) (g : groupdict)
         (k : string -> groupdict -> option A) : option A :=
  match r with
  | Eps => k s g
  | Chr p =>
      match s with
      | String c s' => if p c then k s' g else None
      | EmptyString => None
      end
  | Seq r1 r2 => bt r1 s g (fun s' g' => bt r2 s' g' k)
  | Alt r1 r2 =>
      match bt r1 s g k with
      | Some a => Some a
      | None => bt r2 s g k
      end
  | Plus p => plus_bt p s (fun s' => k s' g)
  | Grp n r1 => bt r1 s g (fun s' g' => k s' ((n, consumed s s') :: g'))
  end.
End Backtracking.

(** [r.match(s)]: the end offset of the match and its groups. *)
Definition rmatch (r : regex) (s : string) : option (nat * groupdict) :=
  bt r s [] (fun s' g => Some ((String.length s - String.length s')%nat, g)).

(** [bool(r.search(s))]: a match starting at some offset of [s]. *)
Fixpoint search (r : regex) (s : string) : bool :=
  match rmatch r s with
  | Some _ => true
  | None =>
      match s with
      | EmptyString => false
      | String _ s' => search r s'
      end
  end.

Definition digit : regex := Chr Str.is_digit.

Definition range (lo hi : ascii) : regex :=
  Chr (fun c => (N_of_ascii lo <=? N_of_ascii c)%N
                && (N_of_ascii c <=? N_of_ascii hi)%N).

Definition lit (c : ascii) : regex := Chr (Ascii.eqb c).

(** A literal under [re.IGNORECASE]. *)
Definition lit_i (c : ascii) : regex :=
  Chr (fun x => Ascii.eqb (Str.lower_char x) (Str.lower_char c)).

(** [r{n}] *)
Fixpoint rep (n : nat) (r : regex) : regex :=
  match n with
  | O => Eps
  | S n' => Seq r (rep n' r)
  end.

(** [r{1,2}], greedy *)
Definition rep12 (r : regex) : regex := Seq r (Alt r Eps).

End Re.

(* ===================================================================== *)
(** ** [datetime.strptime] for clock-time formats *)
(* ===================================================================== *)

(** [datetime.time] (hour, minute, second). *)
Record time : Type := mk_time { hour : Z; minute : Z; second : Z }.

Module Strptime.
Import Re.

(** The regular expression of one format directive, as in
    [_strptime.TimeRE]. *)
Definition directive (d : ascii) : option regex :=
  match d with
  | "H"%char =>
      Some (Grp "H" (Alt (Seq (lit "2") (range "0" "3"))
                    (Alt (Seq (range "0" "1") digit) digit)))
  | "I"%char =>
      Some (Grp "I" (Alt (Seq (lit "1") (range "0" "2"))
                    (Alt (Seq (lit "0") (range "1" "9")) (range "1" "9"))))
  | "M"%char =>
      Some (Grp "M" (Alt (Seq (range "0" "5") digit) digit))
  | "S"%char =>
      Some (Grp "S" (Alt (Seq (lit "6") (range "0" "1"))
                    (Alt (Seq (range "0" "5") digit) digit)))
  | "p"%char =>
      Some (Grp "p" (Alt (Seq (lit_i "a") (lit_i "m"))
                         (Seq (lit_i "p") (lit_i "m"))))
  | _ => None
  end.

Definition starts_with_space (s : string) : bool :=
  match s with
  | String c _ => Str.is_space c
  | EmptyString => false
  end.

(** [TimeRE.pattern]: directives become their expressions, a run of
    white space becomes [\s+], any other character stands for itself.
    [None] is a directive outside the fragment. *)
Fixpoint pattern (fmt : string) : option regex :=
  match fmt with
  | EmptyString => Some Eps
  | String "%" (String d rest) =>
      match directive d, pattern rest with
      | Some r, Some rs => Some (Seq r rs)
      | _, _ => None
      end
  | String c rest =>
      match pattern rest with
      | None => None
      | Some rs =>
          if Str.is_space c then
            if starts_with_space rest then Some rs
            else Some (Seq (Plus Str.is_space) rs)
          else Some (Seq (lit_i c) rs)
      end
  end.

Definition group_int (name : ascii) (g : groupdict) : option Z :=
  option_map Str.int (get name g).

(** The hour of a match: [%H] verbatim, [%I] adjusted by [%p]. *)
Definition found_hour (g : groupdict) : Z :=
  match group_int "H" g with
  | Some h => h
  | None =>
      match group_int "I" g with
      | None => 0
      | Some h =>
          let ampm := match get "p" g with
                      | Some p => Str.lower p
                      | None => EmptyString
                      end in
          if Str.isin ampm [EmptyString; "am"] then (if h =? 12 then 0 else h)
          else if String.eqb ampm "pm" then (if h =? 12 then h else h + 12)
          else h
      end
  end.

Definition found_or_zero (name : ascii) (g : groupdict) : Z :=
  match group_int name g with
  | Some v => v
  | None => 0
  end.

(** [datetime.strptime(data, fmt).time()]; [None] stands for the
    [ValueError] raised when [data] does not match [fmt], when
    unconverted data remains, or when a field is out of range for
    [datetime]. *)
Definition strptime (data fmt : string) : option time :=
  match pattern fmt with
  | None => None
  | Some r =>
      match rmatch r data with
      | None => None
      | Some (stop, found) =>
          if negb (Nat.eqb stop (String.length data)) then None
          else
            let h := found_hour found in
            let m := found_or_zero "M" found in
            let s := found_or_zero "S" found in
            if (0 <=? h) && (h <? 24) && (0 <=? m) && (m <? 60)
               && (0 <=? s) && (s <? 60)
            then Some (mk_time h m s)
            else None
      end
  end.

End Strptime.

(* ===================================================================== *)
(** ** [_parse_time_flex] *)
(* ===================================================================== *)

(** The formats tried by [_parse_time_flex], in the order of the source. *)
Definition time_formats : list string :=
  ["%H:%M:%S"; "%H:%M"; "%I:%M:%S %p"; "%I:%M %p"].

(** The [for fmt in ...: try ... except ValueError: continue] loop. *)
Fixpoint try_formats (s : string) (fmts : list string) : option time :=
  match fmts with
  | [] => None
  | fmt :: rest =>
      match Strptime.strptime s fmt with
      | Some t => Some t
      | None => try_formats s rest
      end
  end.

Definition _parse_time_flex (s : option string) : option time :=
  match s with
  | None => None
  | Some s0 =>
      let s1 := Str.strip s0 in
      if Str.is_empty s1 then None else try_formats s1 time_formats
  end.

(* ===================================================================== *)
(** ** Timestamps *)
(* ===================================================================== *)

(** A [datetime64[ns]] cell: nanoseconds since the epoch, or [NaT]. *)
Definition datetime64 : Type := option Z.

Definition NaT : datetime64 := None.

Definition NS_PER_SECOND : Z := 1000000000.
Definition NS_PER_DAY : Z := 86400 * NS_PER_SECOND.

(** [Series.dt.normalize()]: the time of day is set to midnight. *)
Definition normalize (t : datetime64) : datetime64 :=
  option_map (fun ns => ns - ns mod NS_PER_DAY) t.

(** The time of day of an instant, in nanoseconds after midnight. *)
Definition time_of_day (ns : Z) : Z := ns mod NS_PER_DAY.

(** [timedelta(hours=t.hour, minutes=t.minute, seconds=t.second)] *)
Definition timedelta (t : time) : Z :=
  (hour t * 3600 + minute t * 60 + second t) * NS_PER_SECOND.

(** [flight_dt + td] on one cell: [NaT] is absorbing.  The sum is taken
    in [Z]; pandas raises when it leaves the [datetime64[ns]] range, which
    can only happen for a flight date on the last day of that range. *)
Definition add_timedelta (d : datetime64) (td : Z) : datetime64 :=
  option_map (fun ns => ns + td) d.

(* ===================================================================== *)
(** ** [_DATE_RE] *)
(* ===================================================================== *)

Definition date_sep : Re.regex :=
  Re.Chr (fun c => Ascii.eqb c "-" || Ascii.eqb c "/").

(** [(?:\d{4}[-/]\d{2}[-/]\d{2})|(?:\d{1,2}[-/]\d{1,2}[-/]\d{4})] *)
Definition _DATE_RE : Re.regex :=
  Re.Alt
    (Re.Seq (Re.rep 4 Re.digit)
       (Re.Seq date_sep (Re.Seq (Re.rep 2 Re.digit)
          (Re.Seq date_sep (Re.rep 2 Re.digit)))))
    (Re.Seq (Re.rep12 Re.digit)
       (Re.Seq date_sep (Re.Seq (Re.rep12 Re.digit)
          (Re.Seq date_sep (Re.rep 4 Re.digit))))).

(* ===================================================================== *)
(** ** Data model *)
(* ===================================================================== *)

(** The CSV file as the tokenizer of [pd.read_csv] sees it: a header and
    rows of text fields, one field per column.  With
    [keep_default_na=False] no field is read as missing. *)
Record Csv : Type := mk_csv {
  columns : list string;
  data : list (list string)
}.

Fixpoint index_of (c : string) (cols : list string) : option nat :=
  match cols with
  | [] => None
  | c' :: cols' =>
      if String.eqb c' c then Some O
      else option_map S (index_of c cols')
  end.

(** [row[c]] for a row of the file. *)
Definition field (cols : list string) (row : list string) (c : string)
  : string :=
  match index_of c cols with
  | Some i => nth i row EmptyString
  | None => EmptyString
  end.

(** A row of the working data frame from step 3 on.  [index] is the label
    given by [read_csv] (the position of the row in the file), [lastupdt]
    is [None] where the cell is [pd.NA], [carrier_code] is [None] when the
    file has no such column and is otherwise the cell as [read_csv] typed
    it, written as [str] writes it; [lastupdt_parsed] is the column added
    in step 8. *)
Record Row : Type := mk_row {
  index : nat;
  flightkey : string;
  flightnum : string;
  flight_dt : datetime64;
  orig_arpt : string;
  dest_arpt : string;
  flightstatus : string;
  lastupdt : option string;
  carrier_code : option string;
  lastupdt_parsed : datetime64
}.

Definition set_lastupdt (v : option string) (r : Row) : Row :=
  mk_row (index r) (flightkey r) (flightnum r) (flight_dt r) (orig_arpt r)
         (dest_arpt r) (flightstatus r) v (carrier_code r)
         (lastupdt_parsed r).

Definition set_lastupdt_parsed (v : datetime64) (r : Row) : Row :=
  mk_row (index r) (flightkey r) (flightnum r) (flight_dt r) (orig_arpt r)
         (dest_arpt r) (flightstatus r) (lastupdt r) (carrier_code r) v.

(** A row of the returned frame ([lastupdt_parsed] renamed [lastupdt]). *)
Record OutRow : Type := mk_out {
  out_flightkey : string;
  out_flightnum : string;
  out_flight_dt : datetime64;
  out_orig_arpt : string;
  out_dest_arpt : string;
  out_flightstatus : string;
  out_lastupdt : datetime64;
  out_carrier_code : option string
}.

Record OutFrame : Type := mk_frame {
  out_columns : list string;
  out_rows : list OutRow
}.

(** A line written to [sys.stderr]. *)
Inductive info : Type :=
| Dropped (n : nat).
    (* "[info] Dropped n row(s) with missing/unparseable time-only lastupdt." *)

(** The exceptions of the pipeline, the [ValueError]s told apart by their
    message. *)
Inductive error : Type :=
| MissingColumns (missing_cols : list string)
    (* "Missing required columns: ..." *)
| DateParseError
    (* raised by pd.to_datetime(df["flight_dt"], errors="raise") *)
| BlankLastupdt
    (* "Blank 'lastupdt' values found." *)
| UnparseableLastupdt (bad_vals : list string)
    (* "Unparseable/missing time-only 'lastupdt' values: ..." *)
| IndexingError (log : list info).
    (* pandas.errors.IndexingError, "Unalignable boolean Series provided
       as indexer", raised by a boolean .loc after [log] went to stderr *)

Inductive result (A : Type) : Type :=
| Ok (a : A)
| Err (e : error).

Arguments Ok {A} a.
Arguments Err {A} e.

Definition bind {A B : Type} (m : result A) (f : A -> result B) : result B :=
  match m with
  | Ok a => f a
  | Err e => Err e
  end.

Notation "x <- m ;; k" := (bind m (fun x => k))
  (at level 61, m at next level, right associativity).

Fixpoint mapM {A B : Type} (f : A -> result B) (l : list A)
  : result (list B) :=
  match l with
  | [] => Ok []
  | a :: l' => b <- f a ;; bs <- mapM f l' ;; Ok (b :: bs)
  end.

(** [Series.unique()]: first occurrences, in order of appearance. *)
Fixpoint unique_from (seen : list string) (l : list string) : list string :=
  match l with
  | [] => []
  | x :: l' =>
      if Str.isin x seen then unique_from seen l'
      else x :: unique_from (x :: seen) l'
  end.

Definition unique (l : list string) : list string := unique_from [] l.

Definition is_none {A : Type} (o : option A) : bool :=
  match o with None => true | Some _ => false end.

Definition notna {A : Type} (o : option A) : bool := negb (is_none o).

(* ===================================================================== *)
(** ** [most_recent_flights_csv] *)
(* ===================================================================== *)

Definition required : list string :=
  ["flightkey"; "flightnum"; "flight_dt"; "orig_arpt"; "dest_arpt";
   "flightstatus"; "lastupdt"].

(** The tokens of the [isin] test of step 4: the empty string, [NA],
    [N/A], [null] and [None]. *)
Definition blank_tokens : list string :=
  [EmptyString; "NA"; "N/A"; "null"; "None"].

(** The frame right after [pd.read_csv]: every row of the file under its
    index label. *)
Definition read_csv (csv : Csv) : list (nat * list string) :=
  combine (seq 0 (length (data csv))) (data csv).

(** Step 1, the mask on [fk], the stripped flight key: [fk] is not empty
    and [fk.str.lower()] is not ["flightkey"]. *)
Definition keep_row (cols : list string) (r : nat * list string) : bool :=
  let fk := Str.strip (field cols (snd r) "flightkey") in
  negb (String.eqb fk EmptyString)
  && negb (String.eqb (Str.lower fk) "flightkey").

(** Step 1.  With [keep_default_na=False] no cell read from the file is
    missing, so [dropna(how="all")] removes nothing. *)
Definition load (csv : Csv) : list (nat * list string) :=
  let df := read_csv csv in
  if Str.isin "flightkey" (columns csv) then filter (keep_row (columns csv)) df
  else df.

(** Step 2. *)
Definition validate (cols : list string) : result unit :=
  let missing_cols := filter (fun c => negb (Str.isin c cols)) required in
  match missing_cols with
  | [] => Ok tt
  | _ => Err (MissingColumns missing_cols)
  end.

(** Step 4, the mask [blank_like] (and the mask of the assignment that
    follows the policy). *)
Definition blank_like (r : Row) : bool :=
  match lastupdt r with
  | Some s => Str.isin s blank_tokens
  | None => false
  end.

(** The string of a [lastupdt] cell. *)
Definition lastupdt_str (r : Row) : string :=
  match lastupdt r with
  | Some s => s
  | None => EmptyString
  end.

(** Step 5. *)
Definition has_date (r : Row) : bool :=
  match lastupdt r with
  | Some s => Re.search _DATE_RE s
  | None => false
  end.

Definition no_date (r : Row) : bool :=
  negb (has_date r) && notna (lastupdt r).

(** Step 7, [times = df.loc[no_date, "lastupdt"].map(_parse_time_flex)]. *)
Definition parsed_time (r : Row) : option time := _parse_time_flex (lastupdt r).

(** Step 7, [bad_mask] seen from the frame: a time-only row whose time
    is missing. *)
Definition bad_mask (r : Row) : bool := no_date r && is_none (parsed_time r).

Definition midnight : time := mk_time 0 0 0.

(** Step 9, the order of [sort_values(["flightkey", "lastupdt_parsed"],
    ascending=[True, False])] on the second key: descending, [NaT] last. *)
Definition ts_before (a b : datetime64) : bool :=
  match a, b with
  | Some x, Some y => y <=? x
  | Some _, None => true
  | None, Some _ => false
  | None, None => true
  end.

Definition row_le (x y : Row) : bool :=
  match String_as_OT.compare (flightkey x) (flightkey y) with
  | Lt => true
  | Gt => false
  | Eq => ts_before (lastupdt_parsed x) (lastupdt_parsed y)
  end.

(** A stable sort: a row goes in front of the rows it does not follow, and
    the rows of the frame are inserted from the last one to the first. *)
Fixpoint insert_row (x : Row) (l : list Row) : list Row :=
  match l with
  | [] => [x]
  | y :: l' => if row_le x y then x :: l else y :: insert_row x l'
  end.

Definition sort_values (df : list Row) : list Row :=
  fold_right insert_row [] df.

(** [drop_duplicates(subset=["flightkey"], keep="first")] *)
Fixpoint drop_duplicates_from (seen : list string) (df : list Row)
  : list Row :=
  match df with
  | [] => []
  | r :: df' =>
      if Str.isin (flightkey r) seen then drop_duplicates_from seen df'
      else r :: drop_duplicates_from (flightkey r :: seen) df'
  end.

Definition drop_duplicates (df : list Row) : list Row :=
  drop_duplicates_from [] df.

(** Step 10. *)
Definition project_row (r : Row) : OutRow :=
  mk_out (flightkey r) (flightnum r) (flight_dt r) (orig_arpt r)
         (dest_arpt r) (flightstatus r) (lastupdt_parsed r) (carrier_code r).

Definition project (cols : list string) (latest : list Row) : OutFrame :=
  mk_frame
    (["flightkey"; "flightnum"; "flight_dt"; "orig_arpt"; "dest_arpt";
      "flightstatus"; "lastupdt"]
     ++ (if Str.isin "carrier_code" cols then ["carrier_code"] else []))
    (map project_row latest).

(** The pandas calls that turn text into values, taken as given.  Each
    of them works on a whole column: [read_csv] infers the dtype of a
    column outside its [dtype] dict from all the cells of the file, and
    [pd.to_datetime] parses a column of strings with one format, inferred
    from the column.  A call is given here by its result on one cell,
    with the column it belongs to as context.
    - [astype_str file_col s] is [str(v)] for the value [v] that
      [read_csv] gives the text [s] in a column outside the [dtype] dict
      whose cells have the texts [file_col]: [s] itself when the column
      keeps dtype [object], the number or boolean written anew when the
      column is typed numeric or boolean.
    - [read_flight_dt file_col col s] is the result of
      [pd.to_datetime(..., errors="raise")] on the cell read from the text
      [s], in the column [flight_dt] that [read_csv] typed from the texts
      [file_col] and of which the rows with the texts [col] are left.
    - [to_datetime col s] is the result of [pd.to_datetime] on the cell
      [s] of a column of strings [col].
    A result is [None] when the cell cannot be parsed as a cell of this
    column (an exception under [errors="raise"], [NaT] under
    [errors="coerce"]), [Some NaT] for a null cell, [Some (Some ns)] for
    an instant. *)
Record Pandas : Type := mk_pandas {
  astype_str : list string -> string -> string;
  read_flight_dt : list string -> list string -> string -> option datetime64;
  to_datetime : list string -> string -> option datetime64
}.

(** One cell under [errors="raise"] and under [errors="coerce"]. *)
Definition to_datetime_raise (parse : string -> option datetime64)
           (s : string) : result datetime64 :=
  match parse s with
  | Some t => Ok t
  | None => Err DateParseError
  end.

Definition to_datetime_coerce (parse : string -> option datetime64)
           (s : string) : datetime64 :=
  match parse s with
  | Some t => t
  | None => NaT
  end.

(** The texts of column [c]: in the whole file, and in the rows that step
    1 keeps. *)
Definition file_column (csv : Csv) (c : string) : list string :=
  map (fun fields => field (columns csv) fields c) (data csv).

Definition kept_column (csv : Csv) (c : string) : list string :=
  map (fun r => field (columns csv) (snd r) c) (load csv).

(** [df.loc[has_date, "lastupdt"]], the column given to [pd.to_datetime]
    in step 6. *)
Definition dated_column (df : list Row) : list string :=
  map lastupdt_str (filter has_date df).

(** [s.loc[mask]] with a boolean Series [mask]: pandas aligns [mask] with
    the index of [s], and raises [IndexingError] when a label of [s] is
    missing from the index of [mask]. *)
Definition alignable (labels mask_labels : list nat) : bool :=
  forallb (fun i => existsb (Nat.eqb i) mask_labels) labels.

Section Pipeline.

Variable pd : Pandas.

(** Steps 3 and 4 on one row: [flight_dt] parsed and normalized,
    [lastupdt] turned into a string and stripped.  The five columns of
    the [dtype] dict keep the text of the file; [lastupdt] and
    [carrier_code], which [read_csv] types itself, are held as the text of
    the typed value. *)
Definition typed_row (csv : Csv) (r : nat * list string) : result Row :=
  let cols := columns csv in
  let f := field cols (snd r) in
  d <- to_datetime_raise
         (read_flight_dt pd (file_column csv "flight_dt")
                         (kept_column csv "flight_dt"))
         (f "flight_dt") ;;
  Ok (mk_row (fst r) (f "flightkey") (f "flightnum") (normalize d)
             (f "orig_arpt") (f "dest_arpt") (f "flightstatus")
             (Some (Str.strip
                      (astype_str pd (file_column csv "lastupdt")
                                  (f "lastupdt"))))
             (if Str.isin "carrier_code" cols
              then Some (astype_str pd (file_column csv "carrier_code")
                                    (f "carrier_code"))
              else None)
             NaT).

(** Steps 1 to 4, up to the mask [blank_like]. *)
Definition load_validate (csv : Csv) : result (list Row) :=
  let df := load csv in
  _ <- validate (columns csv) ;;
  mapM (typed_row csv) df.

(** Step 4, the policy on blank cells, then blank cells set to [pd.NA]. *)
Definition handle_blanks (on_missing : string) (df : list Row)
  : result (list Row) :=
  df1 <-
    (if String.eqb on_missing "midnight" then
       Ok (map (fun r => if blank_like r
                         then set_lastupdt (Some "00:00:00") r else r) df)
     else if String.eqb on_missing "drop" then
       Ok (filter (fun r => negb (blank_like r)) df)
     else if String.eqb on_missing "error" then
       if existsb blank_like df then Err BlankLastupdt else Ok df
     else Ok df) ;;
  Ok (map (fun r => if blank_like r then set_lastupdt None r else r) df1).

(** Step 6, [last_with_date]. *)
Definition last_with_date (df : list Row) (r : Row) : datetime64 :=
  if existsb has_date df then
    if has_date r then
      match lastupdt r with
      | Some s => to_datetime_coerce (to_datetime pd (dated_column df)) s
      | None => NaT
      end
    else NaT
  else NaT.

(** Step 7, [last_from_time] on a time-only row, given its time. *)
Definition last_from_time (times : Row -> option time) (r : Row)
  : datetime64 :=
  match times r with
  | Some t => add_timedelta (flight_dt r) (timedelta t)
  | None => NaT
  end.

(** Step 8: [lastupdt_parsed] is [last_with_date], overwritten on the
    time-only rows by [last_from_time]. *)
Definition merge (times : Row -> option time) (df : list Row) : list Row :=
  map (fun r =>
         set_lastupdt_parsed
           (if no_date r then last_from_time times r
            else last_with_date df r) r) df.

(** The end of step 7 and step 8 (lines 128 to 135) on the frame [df]
    with the masks of [df]: [last_from_time], which carries the index
    [labels] that the frame had when step 7 began, is indexed with the
    mask [no_date], at line 130 when the mask holds a row and at line 135
    in any case.  [log] is what step 7 has written to [sys.stderr]. *)
Definition fill_and_merge (labels : list nat) (times : Row -> option time)
           (df : list Row) (log : list info)
  : result (list Row * list info) :=
  if alignable labels (map index df) then
    Ok (if existsb no_date df then merge times df
        else merge (fun _ => None) df, log)
  else Err (IndexingError log).

(** Steps 5 to 8: the frame with [lastupdt_parsed], and what was written
    to [sys.stderr]. *)
Definition resolve_times (on_missing : string) (df : list Row)
  : result (list Row * list info) :=
  let labels := map index df in
  if existsb no_date df then
    if existsb bad_mask df then
      let bad_vals :=
        firstn 5 (unique (map lastupdt_str (filter bad_mask df))) in
      if String.eqb on_missing "error" then
        Err (UnparseableLastupdt bad_vals)
      else if String.eqb on_missing "midnight" then
        fill_and_merge labels
          (fun r => if bad_mask r then Some midnight else parsed_time r)
          df []
      else
        let dropped := length (filter bad_mask df) in
        let df' := filter (fun r => negb (bad_mask r)) df in
        fill_and_merge labels parsed_time df' [Dropped dropped]
    else fill_and_merge labels parsed_time df []
  else fill_and_merge labels (fun _ => None) df [].

(** Steps 1 to 8: the resolved batch. *)
Definition resolve (csv : Csv) (on_missing : string)
  : result (list Row * list info) :=
  df <- load_validate csv ;;
  df1 <- handle_blanks on_missing df ;;
  resolve_times on_missing df1.

(** Step 9. *)
Definition reduce (df : list Row) : list Row :=
  drop_duplicates (sort_values df).

Definition most_recent_flights_csv (csv : Csv) (on_missing : string)
  : result (OutFrame * list info) :=
  r <- resolve csv on_missing ;;
  Ok (project (columns csv) (reduce (fst r)), snd r).

End Pipeline.

(* ===================================================================== *)
(** ** A reference instance of the date parser *)
(* ===================================================================== *)

(** The pipeline is run below on the inputs of the test suite.  For that
    the parameter [pd] is instantiated for files whose columns
    [flight_dt], [lastupdt] and [carrier_code] keep dtype [object] (each
    of them holds a cell that is no number and no boolean) and whose dates
    are written [YYYY-MM-DD], optionally followed by a space and
    [HH:MM:SS].  As [pd.to_datetime] does, the parser takes the format of
    a column from its first cell that is not empty, and a cell written in
    the other layout does not parse in that column; when the first cell is
    no date, no format is inferred and each cell is parsed on its own. *)
Module Iso.
Import Re.

Definition is_leap (y : Z) : bool :=
  (y mod 4 =? 0) && (negb (y mod 100 =? 0) || (y mod 400 =? 0)).

Definition days_in_month (y m : Z) : Z :=
  if m =? 2 then (if is_leap y then 29 else 28)
  else if (m =? 4) || (m =? 6) || (m =? 9) || (m =? 11) then 30
  else 31.

(** Days from 1970-01-01 to the civil date [y]-[m]-[d]. *)
Definition days_from_civil (y m d : Z) : Z :=
  let y' := if m <=? 2 then y - 1 else y in
  let era := y' / 400 in
  let yoe := y' - era * 400 in
  let doy := (153 * (if 2 <? m then m - 3 else m + 9) + 2) / 5 + d - 1 in
  let doe := yoe * 365 + yoe / 4 - yoe / 100 + doy in
  era * 146097 + doe - 719468.

(** The instant [y]-[m]-[d]T[hh]:[mm]:[ss]. *)
Definition instant (y m d hh mm ss : Z) : Z :=
  days_from_civil y m d * NS_PER_DAY
  + (hh * 3600 + mm * 60 + ss) * NS_PER_SECOND.

Definition iso_regex : regex :=
  Seq (Grp "Y" (rep 4 digit))
    (Seq (lit "-") (Seq (Grp "m" (rep 2 digit))
      (Seq (lit "-") (Seq (Grp "d" (rep 2 digit))
        (Alt
           (Seq (lit " ")
              (Seq (Grp "H" (rep 2 digit))
                (Seq (lit ":") (Seq (Grp "M" (rep 2 digit))
                  (Seq (lit ":") (Grp "S" (rep 2 digit)))))))
           Eps))))).

(** The two layouts: [%Y-%m-%d] and [%Y-%m-%d %H:%M:%S]. *)
Inductive layout : Type := DateOnly | DateTime.

Definition layout_eqb (a b : layout) : bool :=
  match a, b with
  | DateOnly, DateOnly | DateTime, DateTime => true
  | _, _ => false
  end.

Definition num (name : ascii) (g : groupdict) : Z :=
  match get name g with
  | Some v => Str.int v
  | None => 0
  end.

(** The layout and the instant of a string that is a date. *)
Definition parse (s : string) : option (layout * Z) :=
  match rmatch iso_regex s with
  | None => None
  | Some (stop, g) =>
      if negb (Nat.eqb stop (String.length s)) then None
      else
        let y := num "Y" g in
        let m := num "m" g in
        let d := num "d" g in
        let hh := num "H" g in
        let mm := num "M" g in
        let ss := num "S" g in
        if (1 <=? y) && (1 <=? m) && (m <=? 12)
           && (1 <=? d) && (d <=? days_in_month y m)
           && (hh <? 24) && (mm <? 60) && (ss <? 60)
        then Some (match get "H" g with
                   | Some _ => DateTime
                   | None => DateOnly
                   end,
                   instant y m d hh mm ss)
        else None
  end.

(** The format inferred for a column: the layout of its first cell that
    is not empty, when that cell is a date. *)
Definition guess_format (col : list string) : option layout :=
  match filter (fun s => negb (Str.is_empty s)) col with
  | s :: _ => option_map fst (parse s)
  | [] => None
  end.

Definition to_datetime (col : list string) (s : string)
  : option datetime64 :=
  if Str.is_empty s then Some NaT
  else
    match parse s with
    | None => None
    | Some (l, ns) =>
        match guess_format col with
        | Some l' => if layout_eqb l l' then Some (Some ns) else None
        | None => Some (Some ns)
        end
    end.

Definition pandas : Pandas :=
  mk_pandas (fun _ s => s) (fun _ col s => to_datetime col s) to_datetime.

End Iso.

(* ===================================================================== *)
(** ** The inputs of the test suite *)
(* ===================================================================== *)

Module Tests.

Definition header : list string := required.

Definition full_timestamps : Csv :=
  mk_csv header
    [["K1"; "100"; "2019-01-01"; "ATL"; "TPA"; "Boarding";
      "2019-01-01 19:48:00"];
     ["K1"; "100"; "2019-01-01"; "ATL"; "TPA"; "In"; "2019-01-01 19:49:00"];
     ["K2"; "200"; "2019-01-02"; "ATL"; "DFW"; "Boarding";
      "2019-01-02 10:00:00"]].

Definition time_only : Csv :=
  mk_csv header
    [["K3"; "300"; "2019-01-03"; "ATL"; "ORD"; "Boarding"; "07:30:00 PM"];
     ["K3"; "300"; "2019-01-03"; "ATL"; "ORD"; "In"; "08:30:00 PM"]].

Definition missing_time : Csv :=
  mk_csv header
    [["K4"; "400"; "2019-01-04"; "ATL"; "SEA"; "Boarding"; EmptyString];
     ["K4"; "400"; "2019-01-04"; "ATL"; "SEA"; "In"; "08:45:00 PM"]].

Definition blank_only : Csv :=
  mk_csv header
    [["K5"; "500"; "2019-01-05"; "ATL"; "RDU"; "Boarding"; EmptyString]].

Definition duplicate_header : Csv :=
  mk_csv header
    [header;
     ["K6"; "600"; "2019-01-06"; "ATL"; "JFK"; "Boarding"; "19:00:00"]].

(** A date-shaped update field that is no date (month 13). *)
Definition bad_date : Csv :=
  mk_csv header
    [["K7"; "700"; "2019-01-07"; "ATL"; "BOS"; "Boarding";
      "2019-13-45 10:00:00"]].

(** A time-only update field that is no clock time, twice, and one that
    is. *)
Definition bad_times : Csv :=
  mk_csv header
    [["K8"; "800"; "2019-01-08"; "ATL"; "MIA"; "Boarding"; "soon"];
     ["K8"; "800"; "2019-01-08"; "ATL"; "MIA"; "Delayed"; "soon"];
     ["K9"; "900"; "2019-01-09"; "ATL"; "LAX"; "In"; "25:00"];
     ["K9"; "900"; "2019-01-09"; "ATL"; "LAX"; "In"; "7:05 pm"]].

(** Two rows of one key with the same instant. *)
Definition tied : Csv :=
  mk_csv header
    [["K1"; "100"; "2019-01-01"; "ATL"; "TPA"; "Boarding"; "19:48"];
     ["K1"; "100"; "2019-01-01"; "ATL"; "TPA"; "In"; "2019-01-01 19:48:00"];
     ["K1"; "100"; "2019-01-01"; "ATL"; "TPA"; "Out"; "10:00"]].

Definition run (csv : Csv) (on_missing : string) : result OutFrame :=
  r <- most_recent_flights_csv Iso.pandas csv on_missing ;; Ok (fst r).

(** The loaded rows and the resolved batch of a run ([[]] on error). *)
Definition loaded (csv : Csv) : list Row :=
  match load_validate Iso.pandas csv with
  | Ok df => df
  | Err _ => []
  end.

Definition batch (csv : Csv) (on_missing : string) : list Row :=
  match resolve Iso.pandas csv on_missing with
  | Ok (b, _) => b
  | Err _ => []
  end.

Definition log (csv : Csv) (on_missing : string) : list info :=
  match resolve Iso.pandas csv on_missing with
  | Ok (_, l) => l
  | Err _ => []
  end.

Definition output (csv : Csv) (on_missing : string) : OutFrame :=
  match run csv on_missing with
  | Ok f => f
  | Err _ => mk_frame [] []
  end.

Definition no_row : Row :=
  mk_row 0 EmptyString EmptyString NaT EmptyString EmptyString EmptyString
         None None NaT.

(** The loaded row at position [i]. *)
Definition row (csv : Csv) (i : nat) : Row := nth i (loaded csv) no_row.

Definition keys_and_updates (r : result OutFrame)
  : option (list (string * string * datetime64)) :=
  match r with
  | Ok f => Some (map (fun o => (out_flightkey o, out_flightstatus o,
                                 out_lastupdt o)) (out_rows f))
  | Err _ => None
  end.

End Tests.

(* ===================================================================== *)
(** ** Notions used in the statements *)
(* ===================================================================== *)

(** A list whose labels grow strictly from left to right. *)
Definition increasing {A : Type} (ix : A -> nat) (l : list A) : Prop :=
  StronglySorted (fun a b => (ix a < ix b)%nat) l.

(** *** The resolver, row by row

    The frame operations of steps 4 to 8 act on each row on its own; the
    definitions below give that action, and [resolve_rowwise] shows that
    the pipeline computes it. *)

(** Step 4 on one row: is it kept, and what becomes of its [lastupdt]. *)
Definition passes_blanks (on_missing : string) (r : Row) : bool :=
  negb (String.eqb on_missing "drop") || negb (blank_like r).

Definition after_blanks (on_missing : string) (r : Row) : Row :=
  if blank_like r then
    if String.eqb on_missing "midnight" then set_lastupdt (Some "00:00:00") r
    else set_lastupdt None r
  else r.

(** Step 7 on one row: is it kept. *)
Definition passes_times (on_missing : string) (r : Row) : bool :=
  String.eqb on_missing "midnight" || negb (bad_mask r).

(** Steps 6 to 8 on one row: the value of [lastupdt_parsed], with
    [parse] the parser of the cells of the dated column. *)
Definition resolved_value (parse : string -> option datetime64)
           (on_missing : string) (r : Row) : datetime64 :=
  if no_date r then
    match parsed_time r with
    | Some t => add_timedelta (flight_dt r) (timedelta t)
    | None =>
        if String.eqb on_missing "midnight"
        then add_timedelta (flight_dt r) (timedelta midnight)
        else NaT
    end
  else if has_date r then
    match lastupdt r with
    | Some s => to_datetime_coerce parse s
    | None => NaT
    end
  else NaT.

Definition survives (on_missing : string) (r : Row) : bool :=
  passes_blanks on_missing r
  && passes_times on_missing (after_blanks on_missing r).

Definition resolved_row (parse : string -> option datetime64)
           (on_missing : string) (r : Row) : Row :=
  let r1 := after_blanks on_missing r in
  set_lastupdt_parsed (resolved_value parse on_missing r1) r1.

(** The parser of the dated cells of a run: [pd.to_datetime] on the column
    of the update fields of the loaded rows [df] that hold a date. *)
Definition dated_parser (pd : Pandas) (df : list Row)
  : string -> option datetime64 :=
  to_datetime pd (dated_column df).

(** The parser of the cells of the column [flight_dt] of a file. *)
Definition flight_dt_parser (pd : Pandas) (csv : Csv)
  : string -> option datetime64 :=
  read_flight_dt pd (file_column csv "flight_dt")
                 (kept_column csv "flight_dt").

(** [str] of the cells of a column of the file that [read_csv] has typed
    by inference. *)
Definition column_str (pd : Pandas) (csv : Csv) (c : string)
  : string -> string :=
  astype_str pd (file_column csv c).

(** [a] is a strictly earlier instant than [b], or [a] is [NaT] and [b]
    is not. *)
Definition ts_lt (a b : datetime64) : Prop := ts_before a b = false.

(** The order of the instants, read off the integers: [a] is no later
    than [b], an absent instant being earlier than every instant. *)
Definition no_later (a b : datetime64) : Prop :=
  match a, b with
  | None, _ => True
  | Some _, None => False
  | Some x, Some y => x <= y
  end.

(** The first row of a frame with flight key [k]. *)
Definition find_key (k : string) (df : list Row) : option Row :=
  find (fun r => String.eqb (flightkey r) k) df.

(** The frame is in the order of [sort_values]. *)
Definition sorted_rows (df : list Row) : Prop :=
  StronglySorted (fun a b => row_le a b = true) df.

(** A date cell with zeroed time of day. *)
Definition at_midnight (d : datetime64) : Prop :=
  forall ns, d = Some ns -> time_of_day ns = 0.

(** The flight key of a row that step 1 keeps: not blank, and not the
    name of its column. *)
Definition data_key (k : string) : Prop :=
  Str.strip k <> EmptyString /\ Str.lower (Str.strip k) <> "flightkey".

Fixpoint string_forall (P : ascii -> bool) (s : string) : bool :=
  match s with
  | EmptyString => true
  | String c s' => P c && string_forall P s'
  end.

(** A string of white space only, the empty string included. *)
Definition all_space (s : string) : Prop := string_forall Str.is_space s = true.

(** The small letters [a] to [z], and the capital of one. *)
Definition is_small (c : ascii) : bool :=
  ((97 <=? N_of_ascii c) && (N_of_ascii c <=? 122))%N.

Definition capital (c : ascii) : ascii := ascii_of_N (N_of_ascii c - 32).

(** [s] spells [name], each letter small or capital. *)
Fixpoint spells (s name : string) : Prop :=
  match s, name with
  | EmptyString, EmptyString => True
  | String c s', String n name' =>
      (c = n \/ c = capital n) /\ spells s' name'
  | _, _ => False
  end.

(** [k] is the column name [name] in some letter case, with white space
    around it or not (letters and white space of code points below 256,
    as everywhere in this model). *)
Definition header_name (name k : string) : Prop :=
  exists pre core post,
    k = pre ++ core ++ post
    /\ all_space pre /\ all_space post /\ spells core name.

(** The [ValueError]s that report a missing or unparseable [lastupdt]. *)
Definition missing_timestamp_error (e : error) : Prop :=
  e = BlankLastupdt \/ exists bad_vals, e = UnparseableLastupdt bad_vals.

(** The raw values that the message of an error shows. *)
Definition error_samples (e : error) : list string :=
  match e with
  | UnparseableLastupdt bad_vals => bad_vals
  | _ => []
  end.

(** An update field that is date-shaped and that [pd.to_datetime] does not
    turn into an instant. *)
Definition malformed_date (parse : string -> option datetime64)
           (r : Row) : Prop :=
  has_date r = true
  /\ to_datetime_coerce parse (lastupdt_str r) = NaT.

(** The reading of the specification under which a date-shaped update
    field that fails parsing is handled like a missing one. *)
Definition malformed_date_follows_policy : Prop :=
  forall (pd : Pandas) (csv : Csv) (df : list Row) (r0 : Row),
    load_validate pd csv = Ok df ->
    In r0 df ->
    malformed_date (dated_parser pd df) r0 ->
    (forall batch log,
        resolve pd csv "drop" = Ok (batch, log) ->
        forall r, In r batch -> index r <> index r0)
    /\ (forall batch log,
          resolve pd csv "midnight" = Ok (batch, log) ->
          exists r, In r batch /\ index r = index r0
                    /\ lastupdt_parsed r = flight_dt r0)
    /\ (exists e,
          most_recent_flights_csv pd csv "error" = Err e
          /\ missing_timestamp_error e).

(** The reading of the specification under which ['error'] reports every
    blank-like or unparseable update field, date-shaped ones included. *)
Definition error_policy_reports_every_bad_field : Prop :=
  forall (pd : Pandas) (csv : Csv) (df : list Row),
    load_validate pd csv = Ok df ->
    (exists r0, In r0 df
                /\ (blank_like r0 = true \/ bad_mask r0 = true
                    \/ malformed_date (dated_parser pd df) r0)) ->
    exists e,
      most_recent_flights_csv pd csv "error" = Err e
      /\ missing_timestamp_error e
      /\ (length (error_samples e) <= 5)%nat
      /\ NoDup (error_samples e)
      /\ forall v, In v (error_samples e) ->
            exists r, In r df /\ lastupdt_str r = v
                      /\ (blank_like r = true \/ bad_mask r = true
                          \/ malformed_date (dated_parser pd df) r).

(* ===================================================================== *)
(** ** Notions used in the further properties *)
(* ===================================================================== *)

(** The required columns that a header lacks, in the order of
    [required]. *)
Definition missing_required (cols : list string) : list string :=
  filter (fun c => negb (Str.isin c cols)) required.

(** The columns of the returned frame. *)
Definition output_columns (cols : list string) : list string :=
  (required
   ++ (if Str.isin "carrier_code" cols then ["carrier_code"] else []))%list.

(** The language of a regular expression: the strings it can consume. *)
Inductive re_matches : Re.regex -> string -> Prop :=
| M_Eps : re_matches Re.Eps EmptyString
| M_Chr (p : ascii -> bool) (c : ascii) :
    p c = true -> re_matches (Re.Chr p) (String c EmptyString)
| M_Seq (r1 r2 : Re.regex) (s1 s2 : string) :
    re_matches r1 s1 -> re_matches r2 s2 ->
    re_matches (Re.Seq r1 r2) (s1 ++ s2)
| M_AltL (r1 r2 : Re.regex) (s : string) :
    re_matches r1 s -> re_matches (Re.Alt r1 r2) s
| M_AltR (r1 r2 : Re.regex) (s : string) :
    re_matches r2 s -> re_matches (Re.Alt r1 r2) s
| M_PlusOne (p : ascii -> bool) (c : ascii) :
    p c = true -> re_matches (Re.Plus p) (String c EmptyString)
| M_PlusMore (p : ascii -> bool) (c : ascii) (s : string) :
    p c = true -> re_matches (Re.Plus p) s ->
    re_matches (Re.Plus p) (String c s)
| M_Grp (n : ascii) (r : Re.regex) (s : string) :
    re_matches r s -> re_matches (Re.Grp n r) s.

(** The 256 characters. *)
Definition all_ascii : list ascii := map ascii_of_nat (seq 0 256).

(** Every character class of [r] lies inside [P]. *)
Fixpoint only_chars (P : ascii -> bool) (r : Re.regex) : bool :=
  match r with
  | Re.Eps => true
  | Re.Chr p | Re.Plus p => forallb (fun c => implb (p c) (P c)) all_ascii
  | Re.Seq r1 r2 | Re.Alt r1 r2 => only_chars P r1 && only_chars P r2
  | Re.Grp _ r1 => only_chars P r1
  end.

(** Every string of [r] holds a character of [Q]. *)
Fixpoint needs_char (Q : ascii -> bool) (r : Re.regex) : bool :=
  match r with
  | Re.Eps => false
  | Re.Chr p | Re.Plus p => forallb (fun c => implb (p c) (Q c)) all_ascii
  | Re.Seq r1 r2 => needs_char Q r1 || needs_char Q r2
  | Re.Alt r1 r2 => needs_char Q r1 && needs_char Q r2
  | Re.Grp _ r1 => needs_char Q r1
  end.

Fixpoint string_exists (Q : ascii -> bool) (s : string) : bool :=
  match s with
  | EmptyString => false
  | String c s' => Q c || string_exists Q s'
  end.

(** The separators of [_DATE_RE]: [-] and [/]. *)
Definition is_date_sep (c : ascii) : bool :=
  Ascii.eqb c "-" || Ascii.eqb c "/".

(** A string of exactly [n] decimal digits. *)
Definition is_digits (n : nat) (s : string) : bool :=
  string_forall Str.is_digit s && Nat.eqb (String.length s) n.

(** A date written year first, and one written year last. *)
Definition date_ymd (y m d : string) (sep1 sep2 : ascii) : string :=
  y ++ String sep1 (m ++ String sep2 d).

Definition date_mdy (m d y : string) (sep1 sep2 : ascii) : string :=
  m ++ String sep1 (d ++ String sep2 y).

(** *** Clock strings *)

Definition digit_char (d : Z) : ascii := ascii_of_N (48 + Z.to_N d).

(** [n] below 100 written with two digits. *)
Definition two_digits (n : Z) : string :=
  String (digit_char (n / 10)) (String (digit_char (n mod 10)) EmptyString).

(** [n] below 100 written without a leading zero. *)
Definition no_padding (n : Z) : string :=
  if n <? 10 then String (digit_char n) EmptyString else two_digits n.

(** [HH:MM:SS] and [HH:MM]. *)
Definition clock24 (h m s : Z) : string :=
  two_digits h ++ ":" ++ two_digits m ++ ":" ++ two_digits s.

Definition clock24_short (h m : Z) : string :=
  two_digits h ++ ":" ++ two_digits m.

(** [H:MM xM], the hour padded or not. *)
Definition clock12_short (hour_text : Z -> string) (h m : Z)
           (meridiem : string) : string :=
  hour_text h ++ ":" ++ two_digits m ++ " " ++ meridiem.

(** [H:MM:SS xM], the hour padded or not. *)
Definition clock12 (hour_text : Z -> string) (h m s : Z)
           (meridiem : string) : string :=
  hour_text h ++ ":" ++ two_digits m ++ ":" ++ two_digits s
  ++ " " ++ meridiem.

(** The hour of the day of a 12-hour clock reading. *)
Definition hour_of_12 (h : Z) (pm : bool) : Z :=
  (if h =? 12 then 0 else h) + (if pm then 12 else 0).

(** The integers from 0 below [n]. *)
Definition upto (n : nat) : list Z := map Z.of_nat (seq 0 n).

Definition time_eqb (a b : option time) : bool :=
  match a, b with
  | Some x, Some y =>
      (hour x =? hour y) && (minute x =? minute y) && (second x =? second y)
  | None, None => true
  | _, _ => false
  end.

(** A time of the day. *)
Definition valid_time (t : time) : Prop :=
  0 <= hour t < 24 /\ 0 <= minute t < 60 /\ 0 <= second t < 60.

(** *** Further inputs *)

Module Cases.

(** A file without the columns [flight_dt] and [lastupdt]. *)
Definition two_columns_short : Csv :=
  mk_csv ["flightkey"; "flightnum"; "orig_arpt"; "dest_arpt"; "flightstatus"]
    [["K1"; "100"; "ATL"; "TPA"; "Boarding"]].

(** A file whose second row has no flight date to parse, and whose first
    row repeats the header. *)
Definition bad_flight_date : Csv :=
  mk_csv required
    [required;
     ["K1"; "100"; "2019-01-01"; "ATL"; "TPA"; "Boarding"; "19:48"];
     ["K2"; "200"; "someday"; "ATL"; "DFW"; "Boarding"; "10:00"]].

(** A file with a [carrier_code] column, rows to skip, blank and bad
    update fields. *)
Definition mixed : Csv :=
  mk_csv ["carrier_code"; "flightkey"; "flightnum"; "flight_dt"; "orig_arpt";
          "dest_arpt"; "flightstatus"; "lastupdt"]
    [["DL"; "K2"; "200"; "2019-01-02"; "ATL"; "DFW"; "Boarding"; "10:00"];
     ["DL"; " "; "201"; "2019-01-02"; "ATL"; "DFW"; "Boarding"; "11:00"];
     ["DL"; "K1"; "100"; "2019-01-01"; "ATL"; "TPA"; "Boarding"; "N/A"];
     ["DL"; "K1"; "100"; "2019-01-01"; "ATL"; "TPA"; "In"; "7:49 pm"];
     ["DL"; "K3"; "300"; "2019-01-03"; "ATL"; "ORD"; "Boarding"; "later"];
     ["DL"; "K2"; "200"; "2019-01-02"; "ATL"; "DFW"; "Out";
      "2019-01-02 09:00:00"];
     ["DL"; "K4"; "400"; "2019-01-04"; "ATL"; "SEA"; "Boarding"; "null"]].

(** A file whose flight dates are all dates, the second one written with
    a time of day. *)
Definition two_layouts : Csv :=
  mk_csv required
    [["K1"; "100"; "2019-01-01"; "ATL"; "TPA"; "Boarding"; "19:48"];
     ["K2"; "200"; "2019-01-02 10:00:00"; "ATL"; "DFW"; "Boarding"; "10:00"]].

(** A file whose update fields are dates, the second one written without
    a time of day. *)
Definition dated_two_layouts : Csv :=
  mk_csv required
    [["K1"; "100"; "2019-01-01"; "ATL"; "TPA"; "Boarding";
      "2019-01-01 19:48:00"];
     ["K2"; "200"; "2019-01-02"; "ATL"; "DFW"; "Boarding"; "2019-01-02"]].

(** A file with blank update fields: the only row of K1, and one of the
    rows of K2. *)
Definition blanks : Csv :=
  mk_csv required
    [["K1"; "100"; "2019-01-01"; "ATL"; "TPA"; "Boarding"; "NA"];
     ["K2"; "200"; "2019-01-02"; "ATL"; "DFW"; "Boarding"; EmptyString];
     ["K2"; "200"; "2019-01-02"; "ATL"; "DFW"; "In"; "08:45"]].

(** Five rows of K1 and two of K2, out of time order: the latest update
    of K1 is on its second and third rows, which tie; its fourth row has a
    date-shaped update that is no date; both rows of K2 have one. *)
Definition latest_in_the_middle : Csv :=
  mk_csv required
    [["K1"; "100"; "2019-01-01"; "ATL"; "TPA"; "Boarding"; "10:00"];
     ["K2"; "200"; "2019-01-02"; "ATL"; "DFW"; "Boarding";
      "2019-13-45 10:00:00"];
     ["K1"; "100"; "2019-01-01"; "ATL"; "TPA"; "Delayed"; "19:48"];
     ["K1"; "100"; "2019-01-01"; "ATL"; "TPA"; "In"; "7:48 PM"];
     ["K2"; "200"; "2019-01-02"; "ATL"; "DFW"; "In"; "2019-13-45 10:00:00"];
     ["K1"; "100"; "2019-01-01"; "ATL"; "TPA"; "Out"; "2019-13-45 10:00:00"];
     ["K1"; "100"; "2019-01-01"; "ATL"; "TPA"; "Late"; "12:00"]].

(** A file with stray rows: the header again, padded and in another
    letter case; a row of empty fields; a row of blanks; a row with a
    blank flight key and data; then three rows to keep, one with a padded
    key and one with a key that begins like the column name. *)
Definition stray_rows : Csv :=
  mk_csv required
    [[" FlightKey "; "FlightNum"; "Flight_Dt"; "Orig_Arpt"; "Dest_Arpt";
      "FlightStatus"; "LastUpdt"];
     ["FLIGHTKEY"; "FLIGHTNUM"; "FLIGHT_DT"; "ORIG_ARPT"; "DEST_ARPT";
      "FLIGHTSTATUS"; "LASTUPDT"];
     [EmptyString; EmptyString; EmptyString; EmptyString; EmptyString;
      EmptyString; EmptyString];
     ["  "; " "; " "; " "; " "; " "; " "];
     [" "; "201"; "2019-01-02"; "ATL"; "DFW"; "Boarding"; "11:00"];
     ["K6"; "600"; "2019-01-06"; "ATL"; "JFK"; "Boarding"; "19:00:00"];
     [" k7 "; "700"; "2019-01-07"; "ATL"; "BOS"; "Boarding"; "20:00:00"];
     ["flightkeys"; "800"; "2019-01-08"; "ATL"; "MIA"; "In"; "21:00:00"]].

(** A file of rows without a usable flight key. *)
Definition no_data : Csv :=
  mk_csv required [required; [" "; "1"; "x"; "ATL"; "TPA"; "In"; "10:00"]].

End Cases.

(** The rows that ['drop'] removes in step 7 and counts on [sys.stderr]:
    not blank-like, without a date pattern, and parsing as no clock time. *)
Definition time_only_drops (df : list Row) : nat :=
  length (filter (fun r => negb (blank_like r) && bad_mask r) df).

(** A character that is no separator of [_DATE_RE]. *)
Definition not_date_sep (c : ascii) : bool := negb (is_date_sep c).

(** Every character class of the pattern of [fmt] lies inside [P]. *)
Definition format_only_chars (P : ascii -> bool) (fmt : string) : bool :=
  match Strptime.pattern fmt with
  | Some r => only_chars P r
  | None => true
  end.

(** The regex of a directive of [Strptime.directive]. *)
Definition dir_re (d : ascii) : Re.regex :=
  match Strptime.directive d with
  | Some r => r
  | None => Re.Eps
  end.

(** The number of characters of [s] in [Q]. *)
Fixpoint string_count (Q : ascii -> bool) (s : string) : nat :=
  match s with
  | EmptyString => O
  | String c s' => ((if Q c then 1 else 0) + string_count Q s')%nat
  end.

(** A lower bound on the number of characters in [Q] of any string that
    [r] matches. *)
Fixpoint min_chars (Q : ascii -> bool) (r : Re.regex) : nat :=
  match r with
  | Re.Eps => O
  | Re.Chr p | Re.Plus p =>
      if forallb (fun c => implb (p c) (Q c)) all_ascii then 1%nat else O
  | Re.Seq r1 r2 => (min_chars Q r1 + min_chars Q r2)%nat
  | Re.Alt r1 r2 => Nat.min (min_chars Q r1) (min_chars Q r2)
  | Re.Grp _ r1 => min_chars Q r1
  end.

Definition format_min_chars (Q : ascii -> bool) (fmt : string) : nat :=
  match Strptime.pattern fmt with
  | Some r => min_chars Q r
  | None => O
  end.

Definition is_colon (c : ascii) : bool := Ascii.eqb c ":".

Definition digit_or_colon (c : ascii) : bool :=
  Str.is_digit c || is_colon c.

(* ===================================================================== *)
(** ** The test suite, run on the model *)
(* ===================================================================== *)

Example test_full_timestamp_picks_latest :
  Tests.keys_and_updates (Tests.run Tests.full_timestamps "drop")
  = Some [("K1", "In", Some (Iso.instant 2019 1 1 19 49 0));
          ("K2", "Boarding", Some (Iso.instant 2019 1 2 10 0 0))].
Proof. vm_compute. reflexivity. Qed.

Example test_time_only_is_attached_to_flight_dt :
  Tests.keys_and_updates (Tests.run Tests.time_only "drop")
  = Some [("K3", "In", Some (Iso.instant 2019 1 3 20 30 0))].
Proof. vm_compute. reflexivity. Qed.

Example test_missing_time_dropped_by_default :
  Tests.keys_and_updates (Tests.run Tests.missing_time "drop")
  = Some [("K4", "In", Some (Iso.instant 2019 1 4 20 45 0))].
Proof. vm_compute. reflexivity. Qed.

Example test_missing_time_midnight_policy_keeps_row :
  Tests.keys_and_updates (Tests.run Tests.blank_only "midnight")
  = Some [("K5", "Boarding", Some (Iso.instant 2019 1 5 0 0 0))].
Proof. vm_compute. reflexivity. Qed.

Example test_duplicate_header_row_is_removed :
  Tests.keys_and_updates (Tests.run Tests.duplicate_header "drop")
  = Some [("K6", "Boarding", Some (Iso.instant 2019 1 6 19 0 0))].
Proof. vm_compute. reflexivity. Qed.


(* ===================================================================== *)
(** ** Lists, results and index labels *)
(* ===================================================================== *)

Lemma bind_ok {A B : Type} (m : result A) (f : A -> result B) (b : B) :
  bind m f = Ok b -> exists a, m = Ok a /\ f a = Ok b.
Proof.
  destruct m as [a | e]; simpl; intros H.
  - exists a. split; [reflexivity | exact H].
  - discriminate H.
Qed.

Lemma mapM_Forall2 {A B : Type} (f : A -> result B) :
  forall l l', mapM f l = Ok l' -> Forall2 (fun a b => f a = Ok b) l l'.
Proof.
  induction l as [| a l IH]; simpl; intros l' H.
  - inversion H. constructor.
  - apply bind_ok in H. destruct H as [b [Hb H]].
    apply bind_ok in H. destruct H as [bs [Hbs H]].
    inversion H; subst. constructor; [exact Hb | apply IH; exact Hbs].
Qed.

Lemma Forall2_in_r {A B : Type} (R : A -> B -> Prop) :
  forall l l', Forall2 R l l' ->
  forall b, In b l' -> exists a, In a l /\ R a b.
Proof.
  induction 1 as [| x y l l' Hxy _ IH]; intros b Hb.
  - destruct Hb.
  - destruct Hb as [<- | Hb].
    + exists x. split; [left; reflexivity | exact Hxy].
    + destruct (IH b Hb) as [a [Ha Hab]]. exists a.
      split; [right |]; assumption.
Qed.

Lemma increasing_filter {A : Type} (ix : A -> nat) (p : A -> bool) :
  forall l, increasing ix l -> increasing ix (filter p l).
Proof.
  induction l as [| a l IH]; simpl; intros H.
  - constructor.
  - inversion H as [| ? ? Hl Ha]; subst.
    destruct (p a).
    + constructor; [apply IH; exact Hl |].
      rewrite Forall_forall in *. intros x Hx.
      apply filter_In in Hx. apply Ha, Hx.
    + apply IH; exact Hl.
Qed.

Lemma increasing_Forall2 {A B : Type} (ix : A -> nat) (jx : B -> nat)
      (R : A -> B -> Prop) :
  (forall a b, R a b -> ix a = jx b) ->
  forall l l', Forall2 R l l' -> increasing ix l -> increasing jx l'.
Proof.
  intros HR. induction 1 as [| x y l l' Hxy HF IH]; intros H.
  - constructor.
  - inversion H as [| ? ? Hl Hx]; subst.
    constructor; [apply IH; exact Hl |].
    rewrite Forall_forall in *. intros b Hb.
    destruct (Forall2_in_r _ _ _ HF b Hb) as [a [Ha Hab]].
    rewrite <- (HR _ _ Hxy), <- (HR _ _ Hab). apply Hx, Ha.
Qed.

Lemma increasing_split {A : Type} (ix : A -> nat) :
  forall l1 r l2, increasing ix (l1 ++ r :: l2) ->
  (forall x, In x l1 -> (ix x < ix r)%nat)
  /\ (forall x, In x l2 -> (ix r < ix x)%nat).
Proof.
  induction l1 as [| a l1 IH]; simpl; intros r l2 H.
  - inversion H as [| ? ? _ Hr]; subst. rewrite Forall_forall in Hr.
    split; [intros x [] | exact Hr].
  - inversion H as [| ? ? Hl Ha]; subst.
    destruct (IH r l2 Hl) as [H1 H2]. rewrite Forall_forall in Ha.
    split; [| exact H2].
    intros x [<- | Hx]; [| apply H1; exact Hx].
    apply Ha. apply in_or_app. right. left. reflexivity.
Qed.

Lemma increasing_unique {A : Type} (ix : A -> nat) :
  forall l x y, increasing ix l -> In x l -> In y l -> ix x = ix y -> x = y.
Proof.
  induction l as [| a l IH]; simpl; intros x y H Hx Hy E.
  - destruct Hx.
  - inversion H as [| ? ? Hl Ha]; subst. rewrite Forall_forall in Ha.
    destruct Hx as [<- | Hx], Hy as [<- | Hy].
    + reflexivity.
    + specialize (Ha _ Hy). lia.
    + specialize (Ha _ Hx). lia.
    + apply (IH x y Hl Hx Hy E).
Qed.

Lemma combine_seq_in {A : Type} :
  forall (l : list A) (a i : nat) (x : A),
    In (i, x) (combine (seq a (length l)) l)
    <-> (a <= i)%nat /\ nth_error l (i - a) = Some x.
Proof.
  induction l as [| y l IH]; simpl; intros a i x.
  - split; [intros [] | intros [_ H]]. destruct (i - a)%nat; discriminate H.
  - rewrite IH. split.
    + intros [H | [Hle H]].
      * inversion H; subst. rewrite Nat.sub_diag. split; [lia | reflexivity].
      * split; [lia |]. replace (i - a)%nat with (S (i - S a)) by lia. exact H.
    + intros [Hle H]. destruct (Nat.eq_dec a i) as [-> | Hne].
      * rewrite Nat.sub_diag in H. simpl in H. inversion H. left. reflexivity.
      * right. split; [lia |].
        replace (i - a)%nat with (S (i - S a)) in H by lia. exact H.
Qed.

Lemma combine_seq_increasing {A : Type} :
  forall (l : list A) (a : nat),
    increasing fst (combine (seq a (length l)) l).
Proof.
  induction l as [| y l IH]; simpl; intros a.
  - constructor.
  - constructor; [apply IH |].
    rewrite Forall_forall. intros [i x] H.
    apply combine_seq_in in H. simpl. lia.
Qed.

(* ===================================================================== *)
(** ** The resolver computes the row-wise description *)
(* ===================================================================== *)

Lemma filter_all {A : Type} (p : A -> bool) :
  forall l, (forall x, In x l -> p x = true) -> filter p l = l.
Proof.
  induction l as [| a l IH]; simpl; intros H; [reflexivity |].
  rewrite (H a (or_introl eq_refl)). f_equal. apply IH.
  intros x Hx. apply H. right. exact Hx.
Qed.

Lemma filter_none {A : Type} (p : A -> bool) :
  forall l, (forall x, In x l -> p x = false) -> filter p l = [].
Proof.
  induction l as [| a l IH]; simpl; intros H; [reflexivity |].
  rewrite (H a (or_introl eq_refl)). apply IH.
  intros x Hx. apply H. right. exact Hx.
Qed.

Lemma filter_map_swap {A B : Type} (p : B -> bool) (g : A -> B) :
  forall l, filter p (map g l) = map g (filter (fun a => p (g a)) l).
Proof.
  induction l as [| a l IH]; simpl; [reflexivity |].
  destruct (p (g a)); simpl; rewrite IH; reflexivity.
Qed.

Lemma existsb_false_all {A : Type} (p : A -> bool) (l : list A) :
  existsb p l = false -> forall x, In x l -> p x = false.
Proof.
  intros H x Hx. destruct (p x) eqn:E; [| reflexivity].
  assert (existsb p l = true) by (apply existsb_exists; exists x; auto).
  congruence.
Qed.

Lemma existsb_filter_length {A : Type} (p : A -> bool) (l : list A) :
  existsb p l = negb (Nat.eqb (length (filter p l)) 0).
Proof.
  induction l as [| a l IH]; simpl; [reflexivity |].
  destruct (p a); simpl; [reflexivity | exact IH].
Qed.

Lemma bad_mask_no_date (r : Row) : bad_mask r = true -> no_date r = true.
Proof. unfold bad_mask. intros H. apply andb_prop in H. apply H. Qed.

Lemma after_blanks_not_blank (on_missing : string) (r : Row) :
  blank_like r = false -> after_blanks on_missing r = r.
Proof. unfold after_blanks. intros ->. reflexivity. Qed.

Section Rowwise.

Variable pd : Pandas.

Lemma last_with_date_in (df : list Row) (r : Row) :
  In r df ->
  last_with_date pd df r
  = if has_date r then
      match lastupdt r with
      | Some s => to_datetime_coerce (dated_parser pd df) s
      | None => NaT
      end
    else NaT.
Proof.
  intros Hr. unfold last_with_date.
  destruct (has_date r) eqn:E.
  - assert (existsb has_date df = true) as ->
        by (apply existsb_exists; exists r; auto).
    reflexivity.
  - destruct (existsb has_date df); reflexivity.
Qed.

(** Step 8 is a map over the rows, whatever [times] holds outside the
    time-only rows. *)
Lemma merge_rowwise (on_missing : string) (times : Row -> option time)
      (df : list Row) :
  (forall r, In r df -> no_date r = true ->
             last_from_time times r
             = resolved_value (dated_parser pd df) on_missing r) ->
  merge pd times df
  = map (fun r => set_lastupdt_parsed
                    (resolved_value (dated_parser pd df) on_missing r) r) df.
Proof.
  intros H. unfold merge. apply map_ext_in. intros r Hr. f_equal.
  destruct (no_date r) eqn:E.
  - rewrite (H r Hr E). unfold resolved_value. rewrite E. reflexivity.
  - rewrite (last_with_date_in df r Hr). unfold resolved_value.
    rewrite E. reflexivity.
Qed.

(** Rows that are dropped for their time hold no date: the dated column
    is the same before and after. *)
Lemma dated_column_without_bad (df : list Row) :
  dated_column (filter (fun r => negb (bad_mask r)) df) = dated_column df.
Proof.
  unfold dated_column. f_equal.
  induction df as [| r df IH]; simpl; [reflexivity |].
  destruct (bad_mask r) eqn:Hb; simpl.
  - apply bad_mask_no_date in Hb. unfold no_date in Hb.
    apply andb_prop in Hb. destruct Hb as [Hb _].
    apply negb_true_iff in Hb. rewrite Hb. exact IH.
  - destruct (has_date r); [rewrite IH |]; auto.
Qed.

Lemma fill_and_merge_rowwise (on_missing : string) (labels : list nat)
      (times : Row -> option time) (df batch : list Row)
      (log log' : list info) :
  (forall r, In r df -> no_date r = true ->
             last_from_time times r
             = resolved_value (dated_parser pd df) on_missing r) ->
  fill_and_merge pd labels times df log = Ok (batch, log') ->
  alignable labels (map index df) = true
  /\ log' = log
  /\ batch = map (fun r => set_lastupdt_parsed
                             (resolved_value (dated_parser pd df)
                                             on_missing r) r) df.
Proof.
  unfold fill_and_merge. intros Hv H.
  destruct (alignable labels (map index df)); [| discriminate H].
  inversion H; subst batch log'; clear H.
  split; [reflexivity |]. split; [reflexivity |].
  destruct (existsb no_date df) eqn:Hnd.
  - apply merge_rowwise. exact Hv.
  - apply merge_rowwise. intros r Hr E.
    rewrite (existsb_false_all _ _ Hnd r Hr) in E. discriminate E.
Qed.

Lemma resolve_times_rowwise (on_missing : string) (df batch : list Row)
      (log : list info) :
  resolve_times pd on_missing df = Ok (batch, log) ->
  batch = map (fun r => set_lastupdt_parsed
                          (resolved_value (dated_parser pd df) on_missing r) r)
              (filter (passes_times on_missing) df).
Proof.
  unfold resolve_times. intros H.
  destruct (existsb no_date df) eqn:Hnd.
  - destruct (existsb bad_mask df) eqn:Hbad.
    + destruct (String.eqb on_missing "error") eqn:Eerr; [discriminate H |].
      destruct (String.eqb on_missing "midnight") eqn:Emid.
      * apply (fill_and_merge_rowwise on_missing) in H.
        -- destruct H as [_ [_ ->]].
           rewrite filter_all
             by (intros; unfold passes_times; rewrite Emid; reflexivity).
           reflexivity.
        -- intros r Hr E.
           unfold last_from_time, resolved_value, bad_mask.
           rewrite E, Emid. simpl.
           destruct (parsed_time r); reflexivity.
      * assert (filter (passes_times on_missing) df
                = filter (fun r => negb (bad_mask r)) df) as ->.
        { apply filter_ext. intros r. unfold passes_times.
          rewrite Emid. reflexivity. }
        apply (fill_and_merge_rowwise on_missing) in H.
        -- destruct H as [_ [_ ->]]. unfold dated_parser.
           rewrite dated_column_without_bad. reflexivity.
        -- intros r Hr E. apply filter_In in Hr.
           destruct Hr as [_ Hr]. unfold bad_mask in Hr. rewrite E in Hr.
           unfold last_from_time, resolved_value. rewrite E.
           destruct (parsed_time r); [reflexivity | discriminate Hr].
    + apply (fill_and_merge_rowwise on_missing) in H.
      * destruct H as [_ [_ ->]]. rewrite filter_all; [reflexivity |].
        intros r Hr. unfold passes_times.
        rewrite (existsb_false_all _ _ Hbad r Hr). apply orb_true_r.
      * intros r Hr E.
        pose proof (existsb_false_all _ _ Hbad r Hr) as Hb.
        unfold bad_mask in Hb. rewrite E in Hb.
        unfold last_from_time, resolved_value. rewrite E.
        destruct (parsed_time r); [reflexivity | discriminate Hb].
  - apply (fill_and_merge_rowwise on_missing) in H.
    + destruct H as [_ [_ ->]]. rewrite filter_all; [reflexivity |].
      intros r Hr. unfold passes_times.
      destruct (bad_mask r) eqn:Hb; [| apply orb_true_r].
      apply bad_mask_no_date in Hb.
      rewrite (existsb_false_all _ _ Hnd r Hr) in Hb. discriminate Hb.
    + intros r Hr E.
      rewrite (existsb_false_all _ _ Hnd r Hr) in E. discriminate E.
Qed.

Lemma handle_blanks_rowwise (on_missing : string) (df df1 : list Row) :
  handle_blanks on_missing df = Ok df1 ->
  df1 = map (after_blanks on_missing) (filter (passes_blanks on_missing) df).
Proof.
  unfold handle_blanks. intros H. apply bind_ok in H.
  destruct H as [d [Hd H]]. inversion H; subst df1; clear H.
  destruct (String.eqb on_missing "midnight") eqn:Emid.
  - apply String.eqb_eq in Emid. subst on_missing.
    inversion Hd; subst d; clear Hd.
    rewrite filter_all by (intros; reflexivity).
    rewrite map_map. apply map_ext. intros r.
    unfold after_blanks. simpl.
    destruct (blank_like r) eqn:E; [reflexivity | rewrite E; reflexivity].
  - destruct (String.eqb on_missing "drop") eqn:Edrop.
    + inversion Hd; subst d; clear Hd.
      assert (filter (passes_blanks on_missing) df
              = filter (fun r => negb (blank_like r)) df) as ->.
      { apply filter_ext. intros r. unfold passes_blanks.
        rewrite Edrop. reflexivity. }
      apply map_ext. intros r. unfold after_blanks. rewrite Emid.
      reflexivity.
    + assert (d = df) as ->.
      { destruct (String.eqb on_missing "error");
          [destruct (existsb blank_like df); [discriminate Hd |] |];
          inversion Hd; reflexivity. }
      rewrite filter_all
        by (intros; unfold passes_blanks; rewrite Edrop; reflexivity).
      apply map_ext. intros r. unfold after_blanks. rewrite Emid.
      reflexivity.
Qed.

(** Step 4 leaves the rows that hold a date alone: the dated column of
    the frame after step 4 is that of the loaded rows. *)
Lemma dated_column_after_blanks (on_missing : string) (df : list Row) :
  dated_column (map (after_blanks on_missing)
                    (filter (passes_blanks on_missing) df))
  = dated_column df.
Proof.
  unfold dated_column.
  induction df as [| r df IH]; simpl; [reflexivity |].
  destruct (blank_like r) eqn:Hb.
  - assert (has_date r = false) as Hd.
    { unfold blank_like, has_date in *.
      destruct (lastupdt r) as [s |]; [| reflexivity].
      unfold Str.isin, blank_tokens in Hb. simpl in Hb.
      repeat (apply orb_prop in Hb;
              destruct Hb as [Hb | Hb];
              [apply String.eqb_eq in Hb; subst s; reflexivity |]).
      discriminate Hb. }
    rewrite Hd.
    destruct (passes_blanks on_missing r); [| exact IH].
    simpl. unfold after_blanks at 1. rewrite Hb.
    destruct (String.eqb on_missing "midnight"); simpl; exact IH.
  - unfold passes_blanks at 1. rewrite Hb, orb_true_r. simpl.
    rewrite (after_blanks_not_blank on_missing r Hb).
    destruct (has_date r); simpl; [f_equal |]; exact IH.
Qed.

(** The resolved batch is the row-wise resolution of the loaded rows
    that survive the policy, in the order of the file. *)
Lemma resolve_rowwise (csv : Csv) (on_missing : string)
      (batch : list Row) (log : list info) :
  resolve pd csv on_missing = Ok (batch, log) ->
  exists df,
    load_validate pd csv = Ok df
    /\ batch = map (resolved_row (dated_parser pd df) on_missing)
                   (filter (survives on_missing) df).
Proof.
  unfold resolve. intros H.
  apply bind_ok in H. destruct H as [df [Hdf H]].
  apply bind_ok in H. destruct H as [df1 [Hdf1 H]].
  exists df. split; [exact Hdf |].
  apply resolve_times_rowwise in H. apply handle_blanks_rowwise in Hdf1.
  subst df1 batch. unfold dated_parser.
  rewrite dated_column_after_blanks.
  rewrite filter_map_swap, map_map.
  unfold resolved_row, survives.
  f_equal. generalize (to_datetime pd (dated_column df)). intros parse.
  clear. induction df as [| r df IH]; simpl; [reflexivity |].
  destruct (passes_blanks on_missing r); simpl; [| exact IH].
  destruct (passes_times on_missing (after_blanks on_missing r));
    simpl; rewrite IH; reflexivity.
Qed.

End Rowwise.

(* ===================================================================== *)
(** ** The reducer: stable sort, then the first row of each key *)
(* ===================================================================== *)

Lemma ts_before_total (a b : datetime64) :
  ts_before a b = false -> ts_before b a = true.
Proof.
  destruct a as [x |], b as [y |]; simpl; intros H; try reflexivity;
    try discriminate H.
  apply Z.leb_gt in H. apply Z.leb_le. lia.
Qed.

Lemma ts_before_trans (a b c : datetime64) :
  ts_before a b = true -> ts_before b c = true -> ts_before a c = true.
Proof.
  destruct a as [x |], b as [y |], c as [z |]; simpl; intros H1 H2;
    try reflexivity; try discriminate.
  apply Z.leb_le in H1, H2. apply Z.leb_le. lia.
Qed.

Lemma ts_lt_before_trans (a b c : datetime64) :
  ts_lt a b -> ts_before c b = true -> ts_lt a c.
Proof.
  unfold ts_lt. intros H1 H2.
  destruct (ts_before a c) eqn:E; [| reflexivity].
  rewrite (ts_before_trans _ _ _ E H2) in H1. discriminate H1.
Qed.

Lemma key_compare_refl (k : string) : String_as_OT.compare k k = Eq.
Proof.
  destruct (String_as_OT.compare_spec k k) as [_ | H | H];
    [reflexivity | |]; exfalso; revert H; apply irreflexivity.
Qed.

Lemma key_compare_eq (a b : string) :
  String_as_OT.compare a b = Eq -> a = b.
Proof.
  intros H. destruct (String_as_OT.compare_spec a b); congruence.
Qed.

Lemma key_compare_gt (a b : string) :
  String_as_OT.compare a b = Gt -> String_as_OT.compare b a = Lt.
Proof.
  intros H. destruct (String_as_OT.compare_spec a b) as [? | ? | Hlt];
    try discriminate H. exact Hlt.
Qed.

Lemma key_lt_trans (a b c : string) :
  String_as_OT.compare a b = Lt -> String_as_OT.compare b c = Lt ->
  String_as_OT.compare a c = Lt.
Proof. intros H1 H2. exact (transitivity (R := String_as_OT.lt) H1 H2). Qed.

Lemma row_le_same_key (x y : Row) :
  flightkey x = flightkey y ->
  row_le x y = ts_before (lastupdt_parsed x) (lastupdt_parsed y).
Proof.
  intros E. unfold row_le. rewrite E, key_compare_refl. reflexivity.
Qed.

Lemma row_le_other_key (x y : Row) :
  flightkey x <> flightkey y -> row_le x y = true ->
  String_as_OT.compare (flightkey x) (flightkey y) = Lt.
Proof.
  unfold row_le. intros Hne H.
  destruct (String_as_OT.compare (flightkey x) (flightkey y)) eqn:E;
    [| reflexivity | discriminate H].
  apply key_compare_eq in E. contradiction.
Qed.

Lemma row_le_key (x y : Row) :
  row_le x y = true ->
  String_as_OT.compare (flightkey x) (flightkey y) <> Gt.
Proof. unfold row_le. intros H E. rewrite E in H. discriminate H. Qed.

Lemma row_le_total (x y : Row) : row_le x y = false -> row_le y x = true.
Proof.
  unfold row_le. intros H.
  destruct (String_as_OT.compare (flightkey x) (flightkey y)) eqn:E.
  - apply key_compare_eq in E. rewrite E, key_compare_refl.
    apply ts_before_total. exact H.
  - discriminate H.
  - apply key_compare_gt in E. rewrite E. reflexivity.
Qed.

Lemma row_le_trans (x y z : Row) :
  row_le x y = true -> row_le y z = true -> row_le x z = true.
Proof.
  unfold row_le. intros H1 H2.
  destruct (String_as_OT.compare (flightkey x) (flightkey y)) eqn:E1;
    try discriminate H1;
    destruct (String_as_OT.compare (flightkey y) (flightkey z)) eqn:E2;
    try discriminate H2.
  - apply key_compare_eq in E1, E2. rewrite E1, E2, key_compare_refl.
    eapply ts_before_trans; eassumption.
  - apply key_compare_eq in E1. rewrite E1, E2. reflexivity.
  - apply key_compare_eq in E2. rewrite <- E2, E1. reflexivity.
  - rewrite (key_lt_trans _ _ _ E1 E2). reflexivity.
Qed.

Lemma insert_row_in (x : Row) :
  forall l r, In r (insert_row x l) <-> r = x \/ In r l.
Proof.
  induction l as [| y l IH]; simpl; intros r.
  - intuition.
  - destruct (row_le x y); simpl; [intuition |].
    rewrite IH. intuition.
Qed.

Lemma sort_values_in (df : list Row) (r : Row) :
  In r (sort_values df) <-> In r df.
Proof.
  induction df as [| x df IH]; simpl; [reflexivity |].
  rewrite insert_row_in, IH. intuition.
Qed.

Lemma insert_row_sorted (x : Row) :
  forall l, sorted_rows l -> sorted_rows (insert_row x l).
Proof.
  unfold sorted_rows.
  induction l as [| y l IH]; simpl; intros H.
  - constructor; constructor.
  - inversion H as [| ? ? Hl Hy]; subst.
    destruct (row_le x y) eqn:E.
    + constructor; [exact H |]. constructor; [exact E |].
      rewrite Forall_forall in *. intros z Hz.
      eapply row_le_trans; [exact E | apply Hy, Hz].
    + constructor; [apply IH; exact Hl |].
      rewrite Forall_forall in *. intros z Hz.
      apply insert_row_in in Hz. destruct Hz as [-> | Hz].
      * apply row_le_total. exact E.
      * apply Hy, Hz.
Qed.

Lemma sort_values_sorted (df : list Row) : sorted_rows (sort_values df).
Proof.
  induction df as [| x df IH]; simpl.
  - constructor.
  - apply insert_row_sorted. exact IH.
Qed.

Lemma find_key_some (k : string) :
  forall df r, find_key k df = Some r -> In r df /\ flightkey r = k.
Proof.
  intros df r H. apply find_some in H. destruct H as [H1 H2].
  apply String.eqb_eq in H2. auto.
Qed.

Lemma find_key_none (k : string) :
  forall df, find_key k df = None -> forall r, In r df -> flightkey r <> k.
Proof.
  intros df H r Hr E. apply (find_none _ _ H) in Hr.
  apply String.eqb_neq in Hr. contradiction.
Qed.

(** Inserting a row of another key does not change the first row of [k]. *)
Lemma find_key_insert_other (k : string) (x : Row) :
  flightkey x <> k ->
  forall l, find_key k (insert_row x l) = find_key k l.
Proof.
  intros Hne. apply String.eqb_neq in Hne.
  induction l as [| y l IH]; simpl.
  - rewrite Hne. reflexivity.
  - destruct (row_le x y); simpl.
    + rewrite Hne. reflexivity.
    + rewrite IH. reflexivity.
Qed.

(** Inserting a row of key [k] in a sorted frame: it becomes the first row
    of [k] unless the current first row of [k] is strictly later. *)
Lemma find_key_insert_same (x : Row) :
  forall l, sorted_rows l ->
    find_key (flightkey x) (insert_row x l)
    = match find_key (flightkey x) l with
      | None => Some x
      | Some y =>
          if ts_before (lastupdt_parsed x) (lastupdt_parsed y)
          then Some x else Some y
      end.
Proof.
  unfold sorted_rows.
  induction l as [| y l IH]; intros H.
  - simpl. rewrite String.eqb_refl. reflexivity.
  - inversion H as [| ? ? Hl Hy]; subst.
    destruct (String.eqb (flightkey y) (flightkey x)) eqn:Ek.
    + apply String.eqb_eq in Ek.
      assert (find_key (flightkey x) (y :: l) = Some y) as ->
          by (unfold find_key; simpl; rewrite Ek, String.eqb_refl; reflexivity).
      simpl. rewrite (row_le_same_key x y) by (symmetry; exact Ek).
      destruct (ts_before (lastupdt_parsed x) (lastupdt_parsed y)).
      * unfold find_key. simpl. rewrite String.eqb_refl. reflexivity.
      * unfold find_key. simpl. rewrite Ek, String.eqb_refl. reflexivity.
    + assert (find_key (flightkey x) (y :: l) = find_key (flightkey x) l)
        as -> by (unfold find_key; simpl; rewrite Ek; reflexivity).
      simpl. destruct (row_le x y) eqn:E.
      * unfold find_key at 1. simpl. rewrite String.eqb_refl.
        destruct (find_key (flightkey x) l) as [z |] eqn:Ez; [| reflexivity].
        exfalso. apply find_key_some in Ez. destruct Ez as [Hz Hkz].
        apply String.eqb_neq in Ek.
        assert (String_as_OT.compare (flightkey x) (flightkey y) = Lt) as Hxy
            by (apply row_le_other_key; [congruence | exact E]).
        rewrite Forall_forall in Hy. specialize (Hy z Hz).
        apply row_le_key in Hy. rewrite Hkz in Hy.
        destruct (String_as_OT.compare (flightkey y) (flightkey x)) eqn:Eyx.
        -- apply key_compare_eq in Eyx. contradiction.
        -- pose proof (key_lt_trans _ _ _ Hxy Eyx) as Hxx.
           rewrite key_compare_refl in Hxx. discriminate Hxx.
        -- apply Hy. reflexivity.
      * unfold find_key at 1. simpl. rewrite Ek.
        apply IH. exact Hl.
Qed.

(** The first row of key [k] after [sort_values] is the row of [k] with
    the greatest [lastupdt_parsed] ([NaT] least); among several such rows
    it is the first one of the frame. *)
Lemma find_key_sort_values (k : string) :
  forall df,
    match find_key k (sort_values df) with
    | None => forall r, In r df -> flightkey r <> k
    | Some r =>
        flightkey r = k
        /\ exists l1 l2,
            df = (l1 ++ r :: l2)%list
            /\ (forall r', In r' l1 -> flightkey r' = k ->
                           ts_lt (lastupdt_parsed r') (lastupdt_parsed r))
            /\ (forall r', In r' l2 -> flightkey r' = k ->
                           ts_before (lastupdt_parsed r) (lastupdt_parsed r')
                           = true)
    end.
Proof.
  induction df as [| x df IH]; simpl.
  - intros r [].
  - destruct (String.eqb (flightkey x) k) eqn:Ek.
    + apply String.eqb_eq in Ek. subst k.
      rewrite find_key_insert_same by apply sort_values_sorted.
      destruct (find_key (flightkey x) (sort_values df)) as [y |].
      * destruct IH as [Hky [l1 [l2 [Hdf [H1 H2]]]]].
        destruct (ts_before (lastupdt_parsed x) (lastupdt_parsed y)) eqn:E.
        -- split; [reflexivity |]. exists [], df. simpl.
           split; [reflexivity |]. split; [intros r' [] |].
           intros r' Hr' Hk. subst df. apply in_app_or in Hr'.
           destruct Hr' as [Hr' | [<- | Hr']].
           ++ apply ts_before_total.
              apply (ts_lt_before_trans _ _ _ (H1 r' Hr' Hk) E).
           ++ exact E.
           ++ eapply ts_before_trans; [exact E | apply H2; assumption].
        -- split; [exact Hky |]. exists (x :: l1), l2. subst df. simpl.
           split; [reflexivity |]. split; [| exact H2].
           intros r' [<- | Hr'] Hk; [exact E | apply H1; assumption].
      * split; [reflexivity |]. exists [], df. simpl.
        split; [reflexivity |]. split; [intros r' [] |].
        intros r' Hr' Hk. exfalso. exact (IH r' Hr' Hk).
    + apply String.eqb_neq in Ek.
      rewrite find_key_insert_other by exact Ek.
      destruct (find_key k (sort_values df)) as [y |].
      * destruct IH as [Hky [l1 [l2 [Hdf [H1 H2]]]]].
        split; [exact Hky |]. exists (x :: l1), l2. subst df. simpl.
        split; [reflexivity |]. split; [| exact H2].
        intros r' [<- | Hr'] Hk; [contradiction | apply H1; assumption].
      * intros r [<- | Hr]; [exact Ek | apply IH; exact Hr].
Qed.

Lemma isin_in (x : string) (xs : list string) :
  Str.isin x xs = true <-> In x xs.
Proof.
  unfold Str.isin. rewrite existsb_exists. split.
  - intros [y [Hy E]]. apply String.eqb_eq in E. subst y. exact Hy.
  - intros H. exists x. split; [exact H | apply String.eqb_refl].
Qed.

Lemma isin_false (x : string) (xs : list string) :
  Str.isin x xs = false <-> ~ In x xs.
Proof.
  rewrite <- isin_in. destruct (Str.isin x xs); intuition congruence.
Qed.

(** [drop_duplicates] keeps exactly the first row of each key. *)
Lemma drop_duplicates_from_in :
  forall df seen r,
    In r (drop_duplicates_from seen df)
    <-> ~ In (flightkey r) seen /\ find_key (flightkey r) df = Some r.
Proof.
  induction df as [| x df IH]; simpl; intros seen r.
  - split; [intros [] | intros [_ H]; discriminate H].
  - unfold find_key. simpl. fold (find_key (flightkey r) df).
    destruct (Str.isin (flightkey x) seen) eqn:Es.
    + apply isin_in in Es. rewrite IH.
      destruct (String.eqb (flightkey x) (flightkey r)) eqn:Ek.
      * apply String.eqb_eq in Ek. rewrite <- Ek.
        split; [intros [H _]; contradiction | intros [H _]; contradiction].
      * reflexivity.
    + apply isin_false in Es. simpl. rewrite IH. simpl.
      destruct (String.eqb (flightkey x) (flightkey r)) eqn:Ek.
      * apply String.eqb_eq in Ek. split.
        -- intros [-> | [H _]]; [split; [exact Es | reflexivity] |].
           exfalso. apply H. left. exact Ek.
        -- intros [_ H]. left. congruence.
      * apply String.eqb_neq in Ek. split.
        -- intros [-> | [H1 H2]]; [contradiction Ek; reflexivity |].
           split; [intros Hin; apply H1; right; exact Hin | exact H2].
        -- intros [H1 H2]. right. split; [| exact H2].
           intros [E | Hin]; [contradiction | contradiction].
Qed.

Lemma drop_duplicates_in (df : list Row) (r : Row) :
  In r (drop_duplicates df) <-> find_key (flightkey r) df = Some r.
Proof.
  unfold drop_duplicates. rewrite drop_duplicates_from_in. simpl. tauto.
Qed.

Lemma drop_duplicates_from_NoDup :
  forall df seen, NoDup (map flightkey (drop_duplicates_from seen df)).
Proof.
  induction df as [| x df IH]; simpl; intros seen.
  - constructor.
  - destruct (Str.isin (flightkey x) seen); [apply IH |].
    simpl. constructor; [| apply IH].
    intros H. apply in_map_iff in H. destruct H as [r [Hk Hr]].
    apply drop_duplicates_from_in in Hr. destruct Hr as [Hr _].
    apply Hr. left. symmetry. exact Hk.
Qed.

Lemma find_key_exists (k : string) :
  forall df r, In r df -> flightkey r = k -> exists r', find_key k df = Some r'.
Proof.
  intros df r Hr Hk. destruct (find_key k df) as [r' |] eqn:E.
  - exists r'. reflexivity.
  - exfalso. exact (find_key_none k df E r Hr Hk).
Qed.

(* ===================================================================== *)
(** ** Loading and validation *)
(* ===================================================================== *)

Lemma read_csv_in (csv : Csv) (i : nat) (f : list string) :
  In (i, f) (read_csv csv) <-> nth_error (data csv) i = Some f.
Proof.
  unfold read_csv. rewrite combine_seq_in, Nat.sub_0_r.
  split; [intros [_ H]; exact H | intros H; split; [lia | exact H]].
Qed.

Lemma load_increasing (csv : Csv) : increasing fst (load csv).
Proof.
  unfold load.
  destruct (Str.isin "flightkey" (columns csv));
    [apply increasing_filter |]; apply combine_seq_increasing.
Qed.

Lemma load_in (csv : Csv) (i : nat) (f : list string) :
  In (i, f) (load csv) ->
  nth_error (data csv) i = Some f
  /\ (Str.isin "flightkey" (columns csv) = true ->
      keep_row (columns csv) (i, f) = true).
Proof.
  unfold load. destruct (Str.isin "flightkey" (columns csv)); intros H.
  - apply filter_In in H. destruct H as [H1 H2].
    apply read_csv_in in H1. auto.
  - apply read_csv_in in H. split; [exact H | discriminate].
Qed.

Lemma validate_ok (cols : list string) :
  validate cols = Ok tt ->
  forall c, In c required -> Str.isin c cols = true.
Proof.
  unfold validate. intros H c Hc.
  destruct (filter (fun c => negb (Str.isin c cols)) required) eqn:E;
    [| discriminate H].
  destruct (Str.isin c cols) eqn:Ec; [reflexivity |].
  assert (In c (filter (fun c => negb (Str.isin c cols)) required)) as Hin
      by (apply filter_In; rewrite Ec; auto).
  rewrite E in Hin. destruct Hin.
Qed.

Lemma normalize_at_midnight (d : datetime64) : at_midnight (normalize d).
Proof.
  unfold at_midnight, normalize, time_of_day. intros ns H.
  destruct d as [t |]; simpl in H; [| discriminate H].
  inversion H; subst ns.
  rewrite Zdiv.Zminus_mod_idemp_r, Z.sub_diag. reflexivity.
Qed.

Lemma keep_row_data_key (cols : list string) (a : nat * list string) :
  keep_row cols a = true -> data_key (field cols (snd a) "flightkey").
Proof.
  unfold keep_row, data_key. intros H. apply andb_prop in H.
  destruct H as [H1 H2]. apply negb_true_iff in H1, H2.
  apply String.eqb_neq in H1, H2. auto.
Qed.

Section Loading.

Variable pd : Pandas.

Lemma typed_row_ok (csv : Csv) (a : nat * list string) (r : Row) :
  typed_row pd csv a = Ok r ->
  index r = fst a
  /\ flightkey r = field (columns csv) (snd a) "flightkey"
  /\ lastupdt r
     = Some (Str.strip (astype_str pd (file_column csv "lastupdt")
                                   (field (columns csv) (snd a) "lastupdt")))
  /\ lastupdt_parsed r = NaT
  /\ exists d,
       read_flight_dt pd (file_column csv "flight_dt")
                      (kept_column csv "flight_dt")
                      (field (columns csv) (snd a) "flight_dt") = Some d
       /\ flight_dt r = normalize d.
Proof.
  unfold typed_row, to_datetime_raise. intros H.
  destruct (read_flight_dt pd (file_column csv "flight_dt")
                           (kept_column csv "flight_dt")
                           (field (columns csv) (snd a) "flight_dt"))
    as [d |]; simpl in H; [| discriminate H].
  inversion H; subst r; simpl. repeat split. exists d. auto.
Qed.

Lemma load_validate_ok (csv : Csv) (df : list Row) :
  load_validate pd csv = Ok df ->
  validate (columns csv) = Ok tt
  /\ Forall2 (fun a r => typed_row pd csv a = Ok r) (load csv) df.
Proof.
  unfold load_validate. intros H. apply bind_ok in H.
  destruct H as [[] [Hv H]]. split; [exact Hv |].
  apply mapM_Forall2. exact H.
Qed.

Lemma load_validate_increasing (csv : Csv) (df : list Row) :
  load_validate pd csv = Ok df -> increasing index df.
Proof.
  intros H. apply load_validate_ok in H. destruct H as [_ H].
  eapply increasing_Forall2; [| exact H | apply load_increasing].
  intros a r Hr. apply typed_row_ok in Hr. symmetry. apply Hr.
Qed.

(** Every loaded row comes from a row of the file that step 1 keeps. *)
Lemma load_validate_in (csv : Csv) (df : list Row) (r : Row) :
  load_validate pd csv = Ok df -> In r df ->
  exists fields,
    nth_error (data csv) (index r) = Some fields
    /\ keep_row (columns csv) (index r, fields) = true
    /\ typed_row pd csv (index r, fields) = Ok r.
Proof.
  intros H Hr. apply load_validate_ok in H. destruct H as [Hv H].
  destruct (Forall2_in_r _ _ _ H r Hr) as [[i f] [Ha Hr']].
  pose proof (typed_row_ok _ _ _ Hr') as [Hi _]. simpl in Hi. subst i.
  apply load_in in Ha. destruct Ha as [Hn Hk].
  exists f. repeat split; [exact Hn | | exact Hr'].
  apply Hk. apply (validate_ok _ Hv). left. reflexivity.
Qed.

Lemma load_validate_row (csv : Csv) (df : list Row) (r : Row) :
  load_validate pd csv = Ok df -> In r df ->
  data_key (flightkey r) /\ at_midnight (flight_dt r)
  /\ lastupdt r <> None /\ lastupdt_parsed r = NaT.
Proof.
  intros H Hr.
  destruct (load_validate_in _ _ _ H Hr) as [f [_ [Hk Ht]]].
  apply typed_row_ok in Ht.
  destruct Ht as [_ [Hkey [Hl [Hp [d [_ Hd]]]]]].
  repeat split.
  - rewrite Hkey. apply (keep_row_data_key _ _ Hk).
  - rewrite Hkey. apply (keep_row_data_key _ _ Hk).
  - rewrite Hd. apply normalize_at_midnight.
  - rewrite Hl. discriminate.
  - exact Hp.
Qed.

End Loading.

(* ===================================================================== *)
(** ** The resolved batch *)
(* ===================================================================== *)

Lemma after_blanks_base (on_missing : string) (r : Row) :
  index (after_blanks on_missing r) = index r
  /\ flightkey (after_blanks on_missing r) = flightkey r
  /\ flight_dt (after_blanks on_missing r) = flight_dt r.
Proof.
  unfold after_blanks.
  destruct (blank_like r); [destruct (String.eqb on_missing "midnight") |];
    simpl; auto.
Qed.

Lemma blank_like_no_date_pattern (r : Row) :
  blank_like r = true -> has_date r = false.
Proof.
  unfold blank_like, has_date. destruct (lastupdt r) as [s |]; [| reflexivity].
  intros H. apply isin_in in H. simpl in H.
  destruct H as [<- | [<- | [<- | [<- | [<- | []]]]]]; reflexivity.
Qed.

Lemma has_date_not_bad (r : Row) : has_date r = true -> bad_mask r = false.
Proof. unfold bad_mask, no_date. intros ->. reflexivity. Qed.

Lemma resolved_row_base (parse : string -> option datetime64)
      (on_missing : string) (r : Row) :
  index (resolved_row parse on_missing r) = index r
  /\ flightkey (resolved_row parse on_missing r) = flightkey r
  /\ flight_dt (resolved_row parse on_missing r) = flight_dt r
  /\ lastupdt_parsed (resolved_row parse on_missing r)
     = resolved_value parse on_missing (after_blanks on_missing r).
Proof.
  unfold resolved_row. simpl.
  destruct (after_blanks_base on_missing r) as [H1 [H2 H3]]. auto.
Qed.

Lemma alignable_refl (l : list nat) : alignable l l = true.
Proof.
  unfold alignable. apply forallb_forall. intros i Hi.
  apply existsb_exists. exists i. split; [exact Hi | apply Nat.eqb_refl].
Qed.

(** A frame that has lost a row no longer covers the labels it had. *)
Lemma alignable_dropped (p : Row -> bool) (df : list Row) (r : Row) :
  increasing index df -> In r df -> p r = false ->
  alignable (map index df) (map index (filter p df)) = false.
Proof.
  intros Hinc Hr Hp.
  destruct (alignable (map index df) (map index (filter p df))) eqn:E;
    [| reflexivity].
  unfold alignable in E. rewrite forallb_forall in E.
  specialize (E (index r) (in_map index df r Hr)).
  apply existsb_exists in E. destruct E as [i [Hi E]].
  apply Nat.eqb_eq in E. subst i.
  apply in_map_iff in Hi. destruct Hi as [r' [Hi Hr']].
  apply filter_In in Hr'. destruct Hr' as [Hr' Hp'].
  assert (r' = r) as -> by (apply (increasing_unique index df); auto).
  congruence.
Qed.

Section Batch.

Variable pd : Pandas.

(** What the resolved batch holds: the row-wise resolution of every
    loaded row that survives, under its own index label, and nothing
    else; the rows are in the order of the file. *)
Lemma batch_rows (csv : Csv) (on_missing : string) (df batch : list Row)
      (log : list info) :
  load_validate pd csv = Ok df ->
  resolve pd csv on_missing = Ok (batch, log) ->
  (forall r0, In r0 df -> survives on_missing r0 = true ->
              In (resolved_row (dated_parser pd df) on_missing r0) batch)
  /\ (forall r, In r batch ->
        exists r0, In r0 df /\ survives on_missing r0 = true
                   /\ r = resolved_row (dated_parser pd df) on_missing r0)
  /\ increasing index batch.
Proof.
  intros Hdf H. apply resolve_rowwise in H.
  destruct H as [df' [Hdf' ->]].
  rewrite Hdf in Hdf'. inversion Hdf'; subst df'; clear Hdf'.
  repeat split.
  - intros r0 Hr0 Hs. apply in_map. apply filter_In. auto.
  - intros r Hr. apply in_map_iff in Hr. destruct Hr as [r0 [E Hr0]].
    apply filter_In in Hr0. exists r0. intuition.
  - apply (increasing_Forall2 index index
             (fun a b => b = resolved_row (dated_parser pd df) on_missing a))
      with (l := filter (survives on_missing) df).
    + intros a b ->. symmetry. apply resolved_row_base.
    + generalize (filter (survives on_missing) df).
      induction l; simpl; constructor; auto.
    + apply increasing_filter.
      apply (load_validate_increasing pd csv). exact Hdf.
Qed.

(** While no row is dropped, the boolean [.loc] of lines 130 and 135 finds
    the index it expects. *)
Lemma fill_and_merge_same (times : Row -> option time) (df : list Row)
      (log : list info) :
  exists batch,
    fill_and_merge pd (map index df) times df log = Ok (batch, log).
Proof.
  unfold fill_and_merge. rewrite alignable_refl. eauto.
Qed.

(** Under ['midnight'] the resolver raises nothing. *)
Lemma resolve_total (csv : Csv) (df : list Row) :
  load_validate pd csv = Ok df ->
  exists batch, resolve pd csv "midnight" = Ok (batch, []).
Proof.
  intros Hdf. unfold resolve. rewrite Hdf. simpl.
  unfold resolve_times. simpl.
  repeat match goal with
         | |- context [if ?b then _ else _] => destruct b
         end; apply fill_and_merge_same.
Qed.

(** The errors of steps 1 to 3 do not depend on the policy. *)
Lemma resolve_load_error (csv : Csv) (on_missing : string) (e : error) :
  load_validate pd csv = Err e ->
  resolve pd csv on_missing = Err e.
Proof. unfold resolve. intros ->. reflexivity. Qed.

Lemma most_recent_ok (csv : Csv) (on_missing : string) (out : OutFrame)
      (log : list info) :
  most_recent_flights_csv pd csv on_missing = Ok (out, log) ->
  exists batch,
    resolve pd csv on_missing = Ok (batch, log)
    /\ out = project (columns csv) (reduce batch).
Proof.
  unfold most_recent_flights_csv. intros H. apply bind_ok in H.
  destruct H as [[batch log'] [Hr H]]. simpl in H.
  inversion H; subst. exists batch. auto.
Qed.

Lemma resolve_ok_loaded (csv : Csv) (on_missing : string)
      (batch : list Row) (log : list info) :
  resolve pd csv on_missing = Ok (batch, log) ->
  exists df, load_validate pd csv = Ok df.
Proof.
  intros H. apply resolve_rowwise in H. destruct H as [df [H _]]. eauto.
Qed.

End Batch.

(* ===================================================================== *)
(** ** Step 7 when a row is dropped *)
(* ===================================================================== *)

Lemma after_blanks_increasing (on_missing : string) (df : list Row) :
  increasing index df ->
  increasing index (map (after_blanks on_missing)
                        (filter (passes_blanks on_missing) df)).
Proof.
  intros H.
  apply (increasing_Forall2 index index
           (fun a b => b = after_blanks on_missing a))
    with (l := filter (passes_blanks on_missing) df).
  - intros a b ->. symmetry. apply after_blanks_base.
  - generalize (filter (passes_blanks on_missing) df).
    induction l; simpl; constructor; auto.
  - apply increasing_filter. exact H.
Qed.

(** Outside ['error'] step 4 raises nothing. *)
Lemma handle_blanks_total (on_missing : string) (df : list Row) :
  on_missing <> "error" ->
  handle_blanks on_missing df
  = Ok (map (after_blanks on_missing) (filter (passes_blanks on_missing) df)).
Proof.
  intros Hne. apply String.eqb_neq in Hne.
  destruct (handle_blanks on_missing df) as [df1 | e] eqn:E.
  - apply handle_blanks_rowwise in E. subst df1. reflexivity.
  - unfold handle_blanks in E. rewrite Hne in E.
    destruct (String.eqb on_missing "midnight");
      [| destruct (String.eqb on_missing "drop")]; discriminate E.
Qed.

(** Outside ['midnight'], the rows that step 7 finds bad are the loaded
    rows that are bad and not blank-like. *)
Lemma bad_after_blanks (on_missing : string) (df : list Row) :
  on_missing <> "midnight" ->
  length (filter bad_mask
            (map (after_blanks on_missing)
                 (filter (passes_blanks on_missing) df)))
  = time_only_drops df.
Proof.
  intros Hmid. apply String.eqb_neq in Hmid. unfold time_only_drops.
  induction df as [| r df IH]; [reflexivity |].
  cbn [filter]. destruct (blank_like r) eqn:Hb.
  - cbn [negb andb].
    destruct (passes_blanks on_missing r); [| exact IH].
    cbn [map filter]. unfold after_blanks at 1. rewrite Hb, Hmid.
    exact IH.
  - unfold passes_blanks at 1. rewrite Hb, orb_true_r.
    cbn [map filter negb andb].
    rewrite (after_blanks_not_blank on_missing r Hb).
    destruct (bad_mask r); cbn [length]; rewrite IH; reflexivity.
Qed.

Section Dropping.

Variable pd : Pandas.

(** Step 7 on a frame with distinct labels, under a policy that is
    neither ['midnight'] nor ['error']: with a bad time-only row, the rows
    are dropped, the line is written, and the boolean [.loc] on
    [last_from_time], which still has the labels of the dropped rows,
    raises; without one, the step returns. *)
Lemma resolve_times_dropping (on_missing : string) (df : list Row) :
  increasing index df ->
  on_missing <> "midnight" -> on_missing <> "error" ->
  (existsb bad_mask df = true ->
   resolve_times pd on_missing df
   = Err (IndexingError [Dropped (length (filter bad_mask df))]))
  /\ (existsb bad_mask df = false ->
      exists batch, resolve_times pd on_missing df = Ok (batch, [])).
Proof.
  intros Hinc Hmid Herr. apply String.eqb_neq in Hmid, Herr.
  unfold resolve_times. split; intros Hbad; rewrite Hbad.
  - assert (existsb no_date df = true) as ->.
    { apply existsb_exists in Hbad. destruct Hbad as [r [Hr Hb]].
      apply existsb_exists. exists r. split; [exact Hr |].
      apply bad_mask_no_date. exact Hb. }
    rewrite Herr, Hmid. unfold fill_and_merge.
    apply existsb_exists in Hbad. destruct Hbad as [r [Hr Hb]].
    rewrite (alignable_dropped (fun r => negb (bad_mask r)) df r Hinc Hr)
      by (rewrite Hb; reflexivity).
    reflexivity.
  - destruct (existsb no_date df); apply fill_and_merge_same.
Qed.

(** The whole resolver under such a policy. *)
Lemma resolve_dropping (csv : Csv) (on_missing : string) (df : list Row) :
  load_validate pd csv = Ok df ->
  on_missing <> "midnight" -> on_missing <> "error" ->
  (time_only_drops df <> O ->
   resolve pd csv on_missing
   = Err (IndexingError [Dropped (time_only_drops df)]))
  /\ (time_only_drops df = O ->
      exists batch, resolve pd csv on_missing = Ok (batch, [])).
Proof.
  intros Hdf Hmid Herr. unfold resolve. rewrite Hdf.
  change (bind (Ok df) ?f) with (f df). cbv beta.
  rewrite (handle_blanks_total on_missing df Herr).
  change (bind (Ok ?x) ?f) with (f x). cbv beta.
  pose proof (load_validate_increasing pd csv df Hdf) as Hinc.
  pose proof (after_blanks_increasing on_missing df Hinc) as Hinc1.
  destruct (resolve_times_dropping on_missing _ Hinc1 Hmid Herr)
    as [Hyes Hno].
  rewrite existsb_filter_length, (bad_after_blanks on_missing df Hmid)
    in Hyes, Hno.
  split; intros Hn.
  - apply Hyes. apply negb_true_iff. apply Nat.eqb_neq. exact Hn.
  - apply Hno. rewrite Hn. reflexivity.
Qed.

(** When the resolver returns, step 7 has dropped no row and written
    nothing. *)
Lemma resolve_ok_log (csv : Csv) (on_missing : string) (df batch : list Row)
      (log : list info) :
  load_validate pd csv = Ok df ->
  resolve pd csv on_missing = Ok (batch, log) ->
  log = []
  /\ (on_missing = "midnight" \/ time_only_drops df = O).
Proof.
  intros Hdf Hres.
  destruct (String.eqb on_missing "midnight") eqn:Emid.
  - apply String.eqb_eq in Emid. subst on_missing.
    destruct (resolve_total pd csv df Hdf) as [b Hb].
    rewrite Hb in Hres. inversion Hres. auto.
  - apply String.eqb_neq in Emid.
    destruct (String.eqb on_missing "error") eqn:Eerr.
    + apply String.eqb_eq in Eerr. subst on_missing.
      unfold resolve in Hres. rewrite Hdf in Hres.
      change (bind (Ok df) ?f) with (f df) in Hres. cbv beta in Hres.
      apply bind_ok in Hres. destruct Hres as [df1 [Hb Hres]].
      pose proof (handle_blanks_rowwise _ _ _ Hb) as E. subst df1.
      pose proof (bad_after_blanks "error" df Emid) as Hcount.
      unfold resolve_times in Hres.
      destruct (existsb no_date _) eqn:Hnd.
      * destruct (existsb bad_mask _) eqn:Hbad; [discriminate Hres |].
        rewrite existsb_filter_length, Hcount in Hbad.
        apply negb_false_iff, Nat.eqb_eq in Hbad.
        unfold fill_and_merge in Hres.
        rewrite alignable_refl in Hres. inversion Hres. auto.
      * assert (time_only_drops df = O) as Hz.
        { rewrite <- Hcount.
          destruct (filter bad_mask _) as [| r l] eqn:Ef; [reflexivity |].
          assert (In r (filter bad_mask
                          (map (after_blanks "error")
                               (filter (passes_blanks "error") df))))
            as Hin by (rewrite Ef; left; reflexivity).
          apply filter_In in Hin. destruct Hin as [Hin Hb'].
          apply bad_mask_no_date in Hb'.
          rewrite (existsb_false_all _ _ Hnd r Hin) in Hb'.
          discriminate Hb'. }
        unfold fill_and_merge in Hres.
        rewrite alignable_refl in Hres. inversion Hres. auto.
    + apply String.eqb_neq in Eerr.
      destruct (resolve_dropping csv on_missing df Hdf Emid Eerr)
        as [Hyes Hno].
      destruct (Nat.eq_dec (time_only_drops df) O) as [Hz | Hnz].
      * destruct (Hno Hz) as [b Hb]. rewrite Hb in Hres.
        inversion Hres. auto.
      * rewrite (Hyes Hnz) in Hres. discriminate Hres.
Qed.

End Dropping.

(** The reduced frame is made of rows of the batch. *)
Lemma reduce_in (df : list Row) (r : Row) : In r (reduce df) -> In r df.
Proof.
  unfold reduce. intros H. apply drop_duplicates_in in H.
  apply find_key_some in H. apply sort_values_in. apply H.
Qed.

(* ===================================================================== *)
(** ** The time parser *)
(* ===================================================================== *)

Lemma try_formats_some (s : string) (t : time) :
  forall fmts,
    try_formats s fmts = Some t <->
    exists i fmt,
      nth_error fmts i = Some fmt
      /\ Strptime.strptime s fmt = Some t
      /\ forall j fmt', (j < i)%nat -> nth_error fmts j = Some fmt' ->
                        Strptime.strptime s fmt' = None.
Proof.
  induction fmts as [| f fmts IH]; simpl.
  - split; [discriminate |]. intros [i [fmt [H _]]].
    destruct i; discriminate H.
  - destruct (Strptime.strptime s f) as [t' |] eqn:E.
    + split.
      * intros H. exists O, f. simpl. repeat split; [congruence |].
        intros j fmt' Hj. lia.
      * intros [i [fmt [Hn [Hs Hj]]]]. destruct i as [| i].
        -- simpl in Hn. congruence.
        -- specialize (Hj O f (Nat.lt_0_succ i) eq_refl). congruence.
    + rewrite IH. split.
      * intros [i [fmt [Hn [Hs Hj]]]]. exists (S i), fmt. simpl.
        repeat split; [exact Hn | exact Hs |].
        intros [| j] fmt' Hlt Hn'; simpl in Hn'.
        -- congruence.
        -- apply (Hj j fmt'); [lia | exact Hn'].
      * intros [i [fmt [Hn [Hs Hj]]]]. destruct i as [| i]; simpl in Hn.
        -- congruence.
        -- exists i, fmt. repeat split; [exact Hn | exact Hs |].
           intros j fmt' Hlt Hn'. apply (Hj (S j) fmt'); [lia | exact Hn'].
Qed.

Lemma try_formats_none (s : string) :
  forall fmts,
    try_formats s fmts = None <->
    forall fmt, In fmt fmts -> Strptime.strptime s fmt = None.
Proof.
  induction fmts as [| f fmts IH]; simpl.
  - split; [intros _ fmt [] | reflexivity].
  - destruct (Strptime.strptime s f) as [t' |] eqn:E.
    + split; [discriminate |]. intros H.
      rewrite (H f (or_introl eq_refl)) in E. discriminate E.
    + rewrite IH. split.
      * intros H fmt [<- | Hin]; [exact E | apply H; exact Hin].
      * intros H fmt Hin. apply H. right. exact Hin.
Qed.

Lemma parse_time_flex_try (s : string) :
  _parse_time_flex (Some s) = try_formats (Str.strip s) time_formats.
Proof.
  unfold _parse_time_flex.
  destruct (Str.strip s) as [| c s']; reflexivity.
Qed.

(** C6.  [_parse_time_flex] tries the four formats [%H:%M:%S], [%H:%M],
    [%I:%M:%S %p] and [%I:%M %p] in this order on the stripped string: it
    returns the time given by the first format that [strptime] accepts,
    and nothing exactly when [strptime] rejects the string under all
    four.  The four formats read the four examples of the docstring. *)
Theorem parse_time_flex_first_matching_format :
  time_formats = ["%H:%M:%S"; "%H:%M"; "%I:%M:%S %p"; "%I:%M %p"]
  /\ (forall (s : string) (t : time),
        _parse_time_flex (Some s) = Some t <->
        exists i fmt,
          nth_error time_formats i = Some fmt
          /\ Strptime.strptime (Str.strip s) fmt = Some t
          /\ forall j fmt', (j < i)%nat ->
                nth_error time_formats j = Some fmt' ->
                Strptime.strptime (Str.strip s) fmt' = None)
  /\ (forall s : string,
        _parse_time_flex (Some s) = None <->
        forall fmt, In fmt time_formats ->
                    Strptime.strptime (Str.strip s) fmt = None)
  /\ Strptime.strptime "19:48:00" "%H:%M:%S" = Some (mk_time 19 48 0)
  /\ Strptime.strptime "19:48" "%H:%M" = Some (mk_time 19 48 0)
  /\ Strptime.strptime "7:48:00 PM" "%I:%M:%S %p" = Some (mk_time 19 48 0)
  /\ Strptime.strptime "7:48 PM" "%I:%M %p" = Some (mk_time 19 48 0).
Proof.
  split; [reflexivity |].
  split; [intros s t; rewrite parse_time_flex_try; apply try_formats_some |].
  split; [intros s; rewrite parse_time_flex_try; apply try_formats_none |].
  repeat split; vm_compute; reflexivity.
Qed.

Lemma parse_time_flex_first_matching_format_witness :
  _parse_time_flex (Some " 7:30 pm ") = Some (mk_time 19 30 0).
Proof.
  apply (proj1 (proj2 parse_time_flex_first_matching_format)).
  exists 3%nat, "%I:%M %p".
  split; [reflexivity |]. split; [vm_compute; reflexivity |].
  intros j fmt' Hj Hn.
  destruct j as [| [| [| j]]];
    [inversion Hn; subst; vm_compute; reflexivity ..| lia].
Defined.

(* ===================================================================== *)
(** ** Resolution of time-only and missing update fields *)
(* ===================================================================== *)

Lemma add_timedelta_midnight (d : datetime64) :
  add_timedelta d (timedelta midnight) = d.
Proof.
  destruct d as [ns |]; simpl; [| reflexivity].
  f_equal. unfold timedelta. simpl. lia.
Qed.

Lemma no_date_loaded (r : Row) :
  has_date r = false -> lastupdt r <> None -> no_date r = true.
Proof.
  unfold no_date. intros -> H.
  destruct (lastupdt r); [reflexivity | contradiction].
Qed.

(** C4.  A loaded record whose update field is not blank-like, holds no
    date pattern and parses as the clock time [t] is in the resolved
    batch, under every policy, with [lastupdt_parsed] equal to its own
    [flight_dt] plus [t]; the pipeline has no other source of dates.  On
    the test input, ["07:30:00 PM"] with [flight_dt] 2019-01-03 resolves
    to 2019-01-03T19:30:00. *)
Theorem time_only_resolves_on_flight_date :
  (forall (pd : Pandas) (csv : Csv)
          (on_missing : string) (df batch : list Row) (log : list info)
          (r0 : Row) (t : time),
      load_validate pd csv = Ok df ->
      resolve pd csv on_missing = Ok (batch, log) ->
      In r0 df ->
      blank_like r0 = false -> has_date r0 = false ->
      parsed_time r0 = Some t ->
      exists r,
        In r batch /\ index r = index r0 /\ flight_dt r = flight_dt r0
        /\ lastupdt_parsed r = add_timedelta (flight_dt r0) (timedelta t))
  /\ _parse_time_flex (Some "07:30:00 PM") = Some (mk_time 19 30 0)
  /\ add_timedelta (Some (Iso.instant 2019 1 3 0 0 0))
                   (timedelta (mk_time 19 30 0))
     = Some (Iso.instant 2019 1 3 19 30 0)
  /\ map (fun r => (lastupdt r, flight_dt r, lastupdt_parsed r))
         (Tests.batch Tests.time_only "drop")
     = [(Some "07:30:00 PM", Some (Iso.instant 2019 1 3 0 0 0),
         Some (Iso.instant 2019 1 3 19 30 0));
        (Some "08:30:00 PM", Some (Iso.instant 2019 1 3 0 0 0),
         Some (Iso.instant 2019 1 3 20 30 0))].
Proof.
  split; [| repeat split; vm_compute; reflexivity].
  intros pd csv on_missing df batch log r0 t Hdf Hres Hr0 Hb Hd Ht.
  destruct (batch_rows pd _ _ _ _ _ Hdf Hres) as [Hin _].
  destruct (load_validate_row pd _ _ _ Hdf Hr0) as [_ [_ [Hl _]]].
  pose proof (no_date_loaded r0 Hd Hl) as Hnd.
  exists (resolved_row (dated_parser pd df) on_missing r0).
  destruct (resolved_row_base (dated_parser pd df) on_missing r0)
    as [Hi [_ [Hf Hp]]].
  repeat split; [| exact Hi | exact Hf |].
  - apply Hin; [exact Hr0 |]. unfold survives.
    rewrite (after_blanks_not_blank _ _ Hb).
    unfold passes_blanks, passes_times, bad_mask.
    rewrite Hb, Hnd, Ht. simpl. rewrite !orb_true_r. reflexivity.
  - rewrite Hp, (after_blanks_not_blank _ _ Hb).
    unfold resolved_value. rewrite Hnd, Ht. reflexivity.
Qed.

Lemma time_only_resolves_on_flight_date_witness :
  exists r,
    In r (Tests.batch Tests.time_only "drop")
    /\ index r = index (Tests.row Tests.time_only 0)
    /\ flight_dt r = flight_dt (Tests.row Tests.time_only 0)
    /\ lastupdt_parsed r
       = add_timedelta (flight_dt (Tests.row Tests.time_only 0))
                       (timedelta (mk_time 19 30 0)).
Proof.
  apply (proj1 time_only_resolves_on_flight_date Iso.pandas
               Tests.time_only "drop" (Tests.loaded Tests.time_only)
               (Tests.batch Tests.time_only "drop")
               (Tests.log Tests.time_only "drop")).
  - vm_compute. reflexivity.
  - vm_compute. reflexivity.
  - vm_compute. left. reflexivity.
  - vm_compute. reflexivity.
  - vm_compute. reflexivity.
  - vm_compute. reflexivity.
Defined.

(** C5.  Under ['midnight'] the resolver raises nothing, and every
    loaded record whose update field is blank-like, or holds no date
    pattern and parses as no clock time, is in the resolved batch with
    [lastupdt_parsed] equal to its [flight_dt], whose time of day is
    00:00:00. *)
Theorem midnight_policy_resolves_to_flight_date :
  forall (pd : Pandas) (csv : Csv)
         (df : list Row),
    load_validate pd csv = Ok df ->
    exists batch log,
      resolve pd csv "midnight" = Ok (batch, log)
      /\ forall r0,
          In r0 df ->
          blank_like r0 = true
          \/ (has_date r0 = false /\ parsed_time r0 = None) ->
          exists r,
            In r batch /\ index r = index r0 /\ flight_dt r = flight_dt r0
            /\ lastupdt_parsed r = flight_dt r0
            /\ at_midnight (lastupdt_parsed r).
Proof.
  intros pd csv df Hdf.
  destruct (resolve_total pd csv df Hdf) as [batch Hres].
  exists batch, []. split; [exact Hres |].
  intros r0 Hr0 Hcase.
  destruct (batch_rows pd _ _ _ _ _ Hdf Hres) as [Hin _].
  destruct (load_validate_row pd _ _ _ Hdf Hr0)
    as [_ [Hmid [Hl _]]].
  exists (resolved_row (dated_parser pd df) "midnight" r0).
  destruct (resolved_row_base (dated_parser pd df) "midnight" r0)
    as [Hi [_ [Hf Hp]]].
  assert (resolved_value (dated_parser pd df) "midnight"
                         (after_blanks "midnight" r0) = flight_dt r0) as Hv.
  { destruct (blank_like r0) eqn:Hb.
    - unfold after_blanks. rewrite Hb. simpl.
      change (add_timedelta (flight_dt r0) (timedelta midnight)
              = flight_dt r0).
      apply add_timedelta_midnight.
    - destruct Hcase as [Hc | [Hd Ht]]; [discriminate Hc |].
      rewrite (after_blanks_not_blank _ _ Hb). unfold resolved_value.
      rewrite (no_date_loaded r0 Hd Hl), Ht. simpl.
      apply add_timedelta_midnight. }
  repeat split; [| exact Hi | exact Hf | | ].
  - apply Hin; [exact Hr0 | reflexivity].
  - rewrite Hp. exact Hv.
  - rewrite Hp, Hv. exact Hmid.
Qed.

Lemma midnight_policy_resolves_to_flight_date_witness :
  exists batch log,
    resolve Iso.pandas Tests.bad_times "midnight" = Ok (batch, log)
    /\ forall r0,
        In r0 (Tests.loaded Tests.bad_times) ->
        blank_like r0 = true
        \/ (has_date r0 = false /\ parsed_time r0 = None) ->
        exists r,
          In r batch /\ index r = index r0 /\ flight_dt r = flight_dt r0
          /\ lastupdt_parsed r = flight_dt r0
          /\ at_midnight (lastupdt_parsed r).
Proof.
  apply (midnight_policy_resolves_to_flight_date Iso.pandas
           Tests.bad_times (Tests.loaded Tests.bad_times)).
  vm_compute. reflexivity.
Defined.

(** C10.  For an [on_missing] other than ['drop'], ['midnight'] and
    ['error'] the call raises nothing about the policy or about a blank
    update field: an error, if any, is the one of loading and validation,
    or the indexing error of step 7.  Whenever the resolver returns it
    has written nothing, and every loaded record with a blank-like update
    field is in the resolved batch, under its own label, with an absent
    [lastupdt_parsed]; it returns whenever no loaded update field that is
    not blank-like is a dateless string that parses as no clock time.
    Such a row reaches the output, as on the test input with the single
    blank row. *)
Theorem unknown_policy_keeps_blank_rows_as_NaT :
  (forall (pd : Pandas) (csv : Csv) (on_missing : string),
      on_missing <> "drop" -> on_missing <> "midnight" ->
      on_missing <> "error" ->
      (forall e,
          most_recent_flights_csv pd csv on_missing = Err e ->
          load_validate pd csv = Err e
          \/ exists n, e = IndexingError [Dropped n])
      /\ (forall df batch log,
            load_validate pd csv = Ok df ->
            resolve pd csv on_missing = Ok (batch, log) ->
            log = []
            /\ forall r0,
                In r0 df -> blank_like r0 = true ->
                exists r,
                  In r batch /\ index r = index r0
                  /\ lastupdt r = None /\ lastupdt_parsed r = NaT)
      /\ (forall df,
            load_validate pd csv = Ok df ->
            (forall r0, In r0 df -> blank_like r0 = false ->
                        bad_mask r0 = false) ->
            exists out,
              most_recent_flights_csv pd csv on_missing = Ok (out, [])))
  /\ Tests.keys_and_updates (Tests.run Tests.blank_only "drpo")
     = Some [("K5", "Boarding", NaT)].
Proof.
  split; [| vm_compute; reflexivity].
  intros pd csv on_missing Hdrop Hmid Herr.
  split; [| split].
  - intros e He. unfold most_recent_flights_csv in He.
    destruct (load_validate pd csv) as [df | e'] eqn:Hdf.
    + right.
      destruct (resolve_dropping pd csv on_missing df Hdf Hmid Herr)
        as [Hyes Hno].
      destruct (Nat.eq_dec (time_only_drops df) O) as [Hz | Hnz].
      * destruct (Hno Hz) as [batch Hres]. rewrite Hres in He.
        discriminate He.
      * rewrite (Hyes Hnz) in He. simpl in He.
        exists (time_only_drops df). congruence.
    + left. rewrite (resolve_load_error pd csv on_missing e' Hdf) in He.
      simpl in He. congruence.
  - intros df batch log Hdf Hres.
    split; [apply (resolve_ok_log pd csv on_missing df batch log Hdf Hres) |].
    intros r0 Hr0 Hb. apply String.eqb_neq in Hdrop, Hmid.
    destruct (batch_rows pd _ _ _ _ _ Hdf Hres) as [Hin _].
    exists (resolved_row (dated_parser pd df) on_missing r0).
    destruct (resolved_row_base (dated_parser pd df) on_missing r0)
      as [Hi [_ [_ Hp]]].
    repeat split; [| exact Hi | |].
    + apply Hin; [exact Hr0 |].
      unfold survives, passes_blanks, passes_times, after_blanks.
      rewrite Hdrop, Hb, Hmid. reflexivity.
    + unfold resolved_row, after_blanks. rewrite Hb, Hmid. reflexivity.
    + rewrite Hp. unfold after_blanks. rewrite Hb, Hmid. reflexivity.
  - intros df Hdf Hclean.
    destruct (resolve_dropping pd csv on_missing df Hdf Hmid Herr)
      as [_ Hno].
    destruct Hno as [batch Hres].
    + unfold time_only_drops. rewrite filter_none; [reflexivity |].
      intros r Hr. destruct (blank_like r) eqn:Hb; [reflexivity |].
      rewrite (Hclean r Hr Hb). reflexivity.
    + exists (project (columns csv) (reduce batch)).
      unfold most_recent_flights_csv. rewrite Hres. reflexivity.
Qed.

Lemma unknown_policy_keeps_blank_rows_as_NaT_witness :
  Tests.log Tests.missing_time "drpo" = []
  /\ forall r0,
      In r0 (Tests.loaded Tests.missing_time) -> blank_like r0 = true ->
      exists r,
        In r (Tests.batch Tests.missing_time "drpo")
        /\ index r = index r0
        /\ lastupdt r = None /\ lastupdt_parsed r = NaT.
Proof.
  apply (proj1 (proj2 (proj1 unknown_policy_keeps_blank_rows_as_NaT
                             Iso.pandas Tests.missing_time "drpo"
                             ltac:(discriminate) ltac:(discriminate)
                             ltac:(discriminate)))
               (Tests.loaded Tests.missing_time)
               (Tests.batch Tests.missing_time "drpo")
               (Tests.log Tests.missing_time "drpo")).
  - vm_compute. reflexivity.
  - vm_compute. reflexivity.
Defined.

(* ===================================================================== *)
(** ** Date-shaped update fields that fail parsing *)
(* ===================================================================== *)

(** The test input with the update field ["2019-13-45 10:00:00"]: the
    field holds the date pattern, the parser rejects it, and under the
    three policies the row stays, with an absent [lastupdt_parsed]. *)
Example bad_date_run :
  malformed_date (dated_parser Iso.pandas (Tests.loaded Tests.bad_date))
                 (Tests.row Tests.bad_date 0)
  /\ map (fun r => (index r, flight_dt r, lastupdt_parsed r))
         (Tests.batch Tests.bad_date "drop")
     = [(0%nat, Some (Iso.instant 2019 1 7 0 0 0), NaT)]
  /\ map (fun r => (index r, flight_dt r, lastupdt_parsed r))
         (Tests.batch Tests.bad_date "midnight")
     = [(0%nat, Some (Iso.instant 2019 1 7 0 0 0), NaT)]
  /\ Tests.keys_and_updates (Tests.run Tests.bad_date "error")
     = Some [("K7", "Boarding", NaT)].
Proof. repeat split; vm_compute; reflexivity. Qed.

(** C1, as stated, fails: on the input [Tests.bad_date] the update
    field ["2019-13-45 10:00:00"] holds the date pattern and fails
    parsing, yet under ['drop'] the record stays in the batch, under
    ['midnight'] its [lastupdt_parsed] is [NaT] and not its [flight_dt],
    and under ['error'] the call returns a frame. *)
Lemma malformed_date_follows_policy_fails : ~ malformed_date_follows_policy.
Proof.
  intros H.
  destruct (H Iso.pandas Tests.bad_date
              (Tests.loaded Tests.bad_date)
              (Tests.row Tests.bad_date 0))
    as [Hdrop [Hmid [e [Herr _]]]].
  - vm_compute. reflexivity.
  - vm_compute. left. reflexivity.
  - split; vm_compute; reflexivity.
  - vm_compute in Herr. discriminate Herr.
Qed.

(** C1, amended.  A loaded record whose update field holds the date
    pattern and fails datetime parsing is outside the missing-data policy:
    under every [on_missing], whenever the resolver returns, the record is
    in the resolved batch with an absent [lastupdt_parsed]. *)
Theorem malformed_date_kept_as_NaT :
  forall (pd : Pandas) (csv : Csv)
         (on_missing : string) (df batch : list Row) (log : list info)
         (r0 : Row),
    load_validate pd csv = Ok df ->
    resolve pd csv on_missing = Ok (batch, log) ->
    In r0 df ->
    malformed_date (dated_parser pd df) r0 ->
    exists r,
      In r batch /\ index r = index r0 /\ flight_dt r = flight_dt r0
      /\ lastupdt_parsed r = NaT.
Proof.
  intros pd csv on_missing df batch log r0 Hdf Hres Hr0 [Hd Hc].
  destruct (batch_rows pd _ _ _ _ _ Hdf Hres) as [Hin _].
  assert (blank_like r0 = false) as Hb.
  { destruct (blank_like r0) eqn:E; [| reflexivity].
    rewrite (blank_like_no_date_pattern r0 E) in Hd. discriminate Hd. }
  exists (resolved_row (dated_parser pd df) on_missing r0).
  destruct (resolved_row_base (dated_parser pd df) on_missing r0)
    as [Hi [_ [Hf Hp]]].
  repeat split; [| exact Hi | exact Hf |].
  - apply Hin; [exact Hr0 |]. unfold survives.
    rewrite (after_blanks_not_blank _ _ Hb).
    unfold passes_blanks, passes_times.
    rewrite Hb, (has_date_not_bad r0 Hd). simpl. rewrite !orb_true_r.
    reflexivity.
  - rewrite Hp, (after_blanks_not_blank _ _ Hb).
    unfold resolved_value, no_date. rewrite Hd. simpl.
    unfold lastupdt_str in Hc. destruct (lastupdt r0); [exact Hc | reflexivity].
Qed.

Lemma malformed_date_kept_as_NaT_witness :
  exists r,
    In r (Tests.batch Tests.bad_date "midnight")
    /\ index r = index (Tests.row Tests.bad_date 0)
    /\ flight_dt r = flight_dt (Tests.row Tests.bad_date 0)
    /\ lastupdt_parsed r = NaT.
Proof.
  apply (malformed_date_kept_as_NaT Iso.pandas Tests.bad_date
           "midnight" (Tests.loaded Tests.bad_date)
           (Tests.batch Tests.bad_date "midnight")
           (Tests.log Tests.bad_date "midnight")).
  - vm_compute. reflexivity.
  - vm_compute. reflexivity.
  - vm_compute. left. reflexivity.
  - split; vm_compute; reflexivity.
Defined.

(* ===================================================================== *)
(** ** The ['error'] policy *)
(* ===================================================================== *)

Lemma unique_from_in (v : string) :
  forall l seen, In v (unique_from seen l) <-> In v l /\ ~ In v seen.
Proof.
  induction l as [| x l IH]; simpl; intros seen.
  - tauto.
  - destruct (Str.isin x seen) eqn:E.
    + apply isin_in in E. rewrite IH. split.
      * intros [H1 H2]. auto.
      * intros [[-> | H1] H2]; [contradiction | auto].
    + apply isin_false in E. simpl. rewrite IH. simpl. split.
      * intros [-> | [H1 H2]]; [auto |]. split; [auto |].
        intros H. apply H2. right. exact H.
      * intros [[-> | H1] H2]; [auto |].
        destruct (string_dec x v) as [-> | Hne]; [auto |].
        right. split; [exact H1 |]. intros [? | ?]; contradiction.
Qed.

Lemma unique_from_NoDup :
  forall l seen, NoDup (unique_from seen l).
Proof.
  induction l as [| x l IH]; simpl; intros seen.
  - constructor.
  - destruct (Str.isin x seen); [apply IH |].
    constructor; [| apply IH].
    rewrite unique_from_in. intros [_ H]. apply H. left. reflexivity.
Qed.

Lemma firstn_in {A : Type} (x : A) :
  forall n l, In x (firstn n l) -> In x l.
Proof.
  induction n as [| n IH]; destruct l as [| a l]; simpl; try tauto.
  intros [-> | H]; [left; reflexivity | right; apply IH; exact H].
Qed.

Lemma firstn_NoDup {A : Type} :
  forall n (l : list A), NoDup l -> NoDup (firstn n l).
Proof.
  induction n as [| n IH]; destruct l as [| a l]; simpl; intros H;
    try constructor.
  - inversion H; subst. intros Hin. apply firstn_in in Hin. contradiction.
  - inversion H; subst. apply IH. assumption.
Qed.

Lemma most_recent_err (pd : Pandas)
      (csv : Csv) (on_missing : string) (e : error) :
  resolve pd csv on_missing = Err e ->
  most_recent_flights_csv pd csv on_missing = Err e.
Proof. unfold most_recent_flights_csv. intros ->. reflexivity. Qed.

Lemma handle_blanks_error_none (df : list Row) :
  existsb blank_like df = false -> handle_blanks "error" df = Ok df.
Proof.
  intros H. unfold handle_blanks. simpl. rewrite H. simpl. f_equal.
  rewrite <- (map_id df) at 2. apply map_ext_in. intros r Hr.
  rewrite (existsb_false_all _ _ H r Hr). reflexivity.
Qed.

(** C3, as stated, fails: on the input [Tests.bad_date] the only
    update field, ["2019-13-45 10:00:00"], is unparseable, and under
    ['error'] the call returns a frame. *)
Lemma error_policy_reports_every_bad_field_fails :
  ~ error_policy_reports_every_bad_field.
Proof.
  intros H.
  destruct (H Iso.pandas Tests.bad_date
              (Tests.loaded Tests.bad_date))
    as [e [Herr _]].
  - vm_compute. reflexivity.
  - exists (Tests.row Tests.bad_date 0).
    split; [vm_compute; left; reflexivity |].
    right. right. split; vm_compute; reflexivity.
  - vm_compute in Herr. discriminate Herr.
Qed.

(** C3, amended.  Under ['error'], on an input that passes loading and
    validation: if some loaded update field is blank-like the call raises
    the error "Blank 'lastupdt' values found.", whose message shows no
    value; otherwise, if some loaded update field holds no date pattern
    and parses as no clock time, the call raises the error whose message
    shows the first five distinct such fields at most, in the order of
    the file; otherwise the call returns, date-shaped fields that fail
    parsing raising nothing.  An error leaves no output. *)
Theorem error_policy_raises_on_blank_and_time_only :
  forall (pd : Pandas) (csv : Csv)
         (df : list Row),
    load_validate pd csv = Ok df ->
    (existsb blank_like df = true ->
     most_recent_flights_csv pd csv "error" = Err BlankLastupdt)
    /\ (existsb blank_like df = false -> existsb bad_mask df = true ->
        exists bad_vals,
          most_recent_flights_csv pd csv "error"
          = Err (UnparseableLastupdt bad_vals)
          /\ bad_vals
             = firstn 5 (unique (map lastupdt_str (filter bad_mask df)))
          /\ bad_vals <> [] /\ (length bad_vals <= 5)%nat
          /\ NoDup bad_vals
          /\ forall v, In v bad_vals ->
                exists r, In r df /\ bad_mask r = true
                          /\ lastupdt r = Some v)
    /\ (existsb blank_like df = false -> existsb bad_mask df = false ->
        exists out log,
          most_recent_flights_csv pd csv "error" = Ok (out, log)).
Proof.
  intros pd csv df Hdf. repeat split.
  - intros Hb. apply most_recent_err. unfold resolve. rewrite Hdf. simpl.
    unfold handle_blanks. simpl. rewrite Hb. reflexivity.
  - intros Hb Hbad.
    exists (firstn 5 (unique (map lastupdt_str (filter bad_mask df)))).
    assert (existsb no_date df = true) as Hnd.
    { apply existsb_exists in Hbad. destruct Hbad as [r [Hr Hbr]].
      apply existsb_exists. exists r. split; [exact Hr |].
      apply bad_mask_no_date. exact Hbr. }
    split; [| split; [reflexivity |]].
    { apply most_recent_err. unfold resolve. rewrite Hdf. simpl.
      rewrite (handle_blanks_error_none df Hb). simpl.
      unfold resolve_times. rewrite Hnd, Hbad. reflexivity. }
    repeat split.
    + apply existsb_exists in Hbad. destruct Hbad as [r [Hr Hbr]].
      assert (In r (filter bad_mask df)) as Hin
          by (apply filter_In; auto).
      destruct (filter bad_mask df) as [| x l]; [destruct Hin |].
      simpl. discriminate.
    + apply firstn_le_length.
    + apply firstn_NoDup. apply unique_from_NoDup.
    + intros v Hv. apply firstn_in in Hv. apply unique_from_in in Hv.
      destruct Hv as [Hv _]. apply in_map_iff in Hv.
      destruct Hv as [r [Hs Hr]]. apply filter_In in Hr.
      destruct Hr as [Hr Hbr]. exists r. repeat split; [exact Hr | exact Hbr |].
      unfold lastupdt_str in Hs. destruct (lastupdt r) as [s |] eqn:E.
      * congruence.
      * unfold bad_mask, no_date in Hbr. rewrite E in Hbr.
        rewrite andb_false_r in Hbr. discriminate Hbr.
  - intros Hb Hbad. unfold most_recent_flights_csv, resolve.
    rewrite Hdf. simpl. rewrite (handle_blanks_error_none df Hb). simpl.
    unfold resolve_times. rewrite Hbad.
    destruct (existsb no_date df);
      destruct (fill_and_merge_same pd parsed_time df [])
        as [b1 H1];
      destruct (fill_and_merge_same pd (fun _ => None) df [])
        as [b2 H2];
      rewrite ?H1, ?H2; simpl; eauto.
Qed.

Lemma error_policy_raises_on_blank_and_time_only_witness :
  exists bad_vals,
    most_recent_flights_csv Iso.pandas Tests.bad_times "error"
    = Err (UnparseableLastupdt bad_vals)
    /\ bad_vals
       = firstn 5 (unique (map lastupdt_str
                               (filter bad_mask
                                       (Tests.loaded Tests.bad_times))))
    /\ bad_vals <> [] /\ (length bad_vals <= 5)%nat
    /\ NoDup bad_vals
    /\ forall v, In v bad_vals ->
          exists r, In r (Tests.loaded Tests.bad_times)
                    /\ bad_mask r = true /\ lastupdt r = Some v.
Proof.
  apply (proj1 (proj2 (error_policy_raises_on_blank_and_time_only
                         Iso.pandas Tests.bad_times
                         (Tests.loaded Tests.bad_times)
                         ltac:(vm_compute; reflexivity)))).
  - vm_compute. reflexivity.
  - vm_compute. reflexivity.
Defined.

(* ===================================================================== *)
(** ** Blank rows and repeated header rows *)
(* ===================================================================== *)

Lemma index_of_nth (c : string) :
  forall cols, In c cols ->
  exists i, index_of c cols = Some i /\ nth i cols EmptyString = c.
Proof.
  induction cols as [| c' cols IH]; simpl; intros H; [destruct H |].
  destruct (String.eqb c' c) eqn:E.
  - apply String.eqb_eq in E. exists O. auto.
  - destruct H as [-> | H]; [rewrite String.eqb_refl in E; discriminate E |].
    destruct (IH H) as [i [Hi Hn]]. exists (S i). rewrite Hi. auto.
Qed.

Lemma field_header (cols : list string) (c : string) :
  In c cols -> field cols cols c = c.
Proof.
  intros H. unfold field. destruct (index_of_nth c cols H) as [i [-> Hn]].
  exact Hn.
Qed.

Section Output.

Variable pd : Pandas.

(** Every row of the returned frame is the projection of a resolved
    row, which is the resolution of a loaded row. *)
Lemma output_row_origin (csv : Csv) (on_missing : string) (out : OutFrame)
      (log : list info) (o : OutRow) :
  most_recent_flights_csv pd csv on_missing = Ok (out, log) ->
  In o (out_rows out) ->
  exists df batch r r0,
    load_validate pd csv = Ok df
    /\ resolve pd csv on_missing = Ok (batch, log)
    /\ In r (reduce batch) /\ o = project_row r
    /\ In r0 df /\ r = resolved_row (dated_parser pd df) on_missing r0.
Proof.
  intros H Ho. apply most_recent_ok in H. destruct H as [batch [Hres ->]].
  simpl in Ho. apply in_map_iff in Ho. destruct Ho as [r [<- Hr]].
  destruct (resolve_ok_loaded pd _ _ _ _ Hres) as [df Hdf].
  destruct (batch_rows pd _ _ _ _ _ Hdf Hres) as [_ [Hb _]].
  destruct (Hb r (reduce_in _ _ Hr)) as [r0 [Hr0 [_ E]]].
  exists df, batch, r, r0.
  repeat split; try assumption; try reflexivity.
Qed.

End Output.

(* ===================================================================== *)
(** ** The flight date keeps a zeroed time of day *)
(* ===================================================================== *)

(** C8.  After loading every [flight_dt] has time of day 00:00:00; every
    row of the resolved batch carries the [flight_dt] of the loaded row
    it comes from; and every [flight_dt] of the returned frame has time of
    day 00:00:00. *)
Theorem flight_dt_is_at_midnight :
  forall (pd : Pandas) (csv : Csv)
         (on_missing : string),
    (forall df,
        load_validate pd csv = Ok df ->
        forall r, In r df -> at_midnight (flight_dt r))
    /\ (forall df batch log,
          load_validate pd csv = Ok df ->
          resolve pd csv on_missing = Ok (batch, log) ->
          forall r, In r batch ->
            at_midnight (flight_dt r)
            /\ exists r0, In r0 df /\ index r0 = index r
                          /\ flight_dt r = flight_dt r0)
    /\ (forall out log,
          most_recent_flights_csv pd csv on_missing = Ok (out, log) ->
          forall o, In o (out_rows out) -> at_midnight (out_flight_dt o)).
Proof.
  intros pd csv on_missing. split; [| split].
  - intros df Hdf r Hr. apply (load_validate_row pd _ _ _ Hdf Hr).
  - intros df batch log Hdf Hres r Hr.
    destruct (batch_rows pd _ _ _ _ _ Hdf Hres) as [_ [Hb _]].
    destruct (Hb r Hr) as [r0 [Hr0 [_ ->]]].
    destruct (resolved_row_base (dated_parser pd df) on_missing r0)
      as [Hi [_ [Hf _]]].
    split.
    + rewrite Hf. apply (load_validate_row pd _ _ _ Hdf Hr0).
    + exists r0. auto.
  - intros out log H o Ho.
    destruct (output_row_origin pd _ _ _ _ _ H Ho)
      as [df [batch [r [r0 [Hdf [_ [_ [-> [Hr0 ->]]]]]]]]].
    change (at_midnight
              (flight_dt (resolved_row (dated_parser pd df) on_missing r0))).
    destruct (resolved_row_base (dated_parser pd df) on_missing r0)
      as [_ [_ [-> _]]].
    apply (load_validate_row pd _ _ _ Hdf Hr0).
Qed.

Lemma flight_dt_is_at_midnight_witness :
  most_recent_flights_csv Iso.pandas Tests.full_timestamps "drop"
  = Ok (Tests.output Tests.full_timestamps "drop",
        Tests.log Tests.full_timestamps "drop")
  /\ (forall o,
        In o (out_rows (Tests.output Tests.full_timestamps "drop")) ->
        at_midnight (out_flight_dt o)).
Proof.
  assert (most_recent_flights_csv Iso.pandas Tests.full_timestamps "drop"
          = Ok (Tests.output Tests.full_timestamps "drop",
                Tests.log Tests.full_timestamps "drop")) as H
      by (vm_compute; reflexivity).
  split; [exact H |].
  exact (proj2 (proj2 (flight_dt_is_at_midnight
                         Iso.pandas Tests.full_timestamps "drop"))
               (Tests.output Tests.full_timestamps "drop")
               (Tests.log Tests.full_timestamps "drop") H).
Defined.

(* ===================================================================== *)
(** ** One row per flight key *)
(* ===================================================================== *)

Lemma ts_before_antisym (a b : datetime64) :
  ts_before a b = true -> ts_before b a = true -> a = b.
Proof.
  destruct a as [x |], b as [y |]; simpl; intros H1 H2;
    try reflexivity; try discriminate.
  apply Z.leb_le in H1, H2. f_equal. lia.
Qed.

Lemma reduce_keys (df : list Row) (k : string) :
  In k (map flightkey (reduce df)) <-> In k (map flightkey df).
Proof.
  rewrite !in_map_iff. split.
  - intros [r [Hk Hr]]. exists r. split; [exact Hk |].
    apply reduce_in. exact Hr.
  - intros [r [Hk Hr]]. apply sort_values_in in Hr.
    destruct (find_key_exists k _ r Hr Hk) as [r' Hr'].
    pose proof (find_key_some _ _ _ Hr') as [_ Hk'].
    exists r'. split; [exact Hk' |].
    unfold reduce. apply drop_duplicates_in. rewrite Hk'. exact Hr'.
Qed.

(** The comparison of [sort_values] on the second key, in terms of the
    order of the instants. *)
Lemma ts_lt_no_later (a b : datetime64) :
  ts_lt a b -> no_later a b /\ a <> b.
Proof.
  unfold ts_lt. destruct a as [x |], b as [y |]; simpl; intros H;
    try discriminate H.
  - apply Z.leb_gt in H. split; [lia | intros E; inversion E; lia].
  - split; [exact I | discriminate].
Qed.

(** The row that [reduce] keeps for a key is the greatest of the key, the
    first one of the frame among equals. *)
Lemma reduce_latest (df : list Row) (r : Row) :
  increasing index df ->
  In r (reduce df) ->
  In r df
  /\ forall r', In r' df -> flightkey r' = flightkey r ->
       no_later (lastupdt_parsed r') (lastupdt_parsed r)
       /\ (lastupdt_parsed r' = lastupdt_parsed r ->
           (index r <= index r')%nat).
Proof.
  intros Hinc Hr. split; [apply reduce_in; exact Hr |].
  unfold reduce in Hr. apply drop_duplicates_in in Hr.
  pose proof (find_key_sort_values (flightkey r) df) as H.
  rewrite Hr in H. destruct H as [_ [l1 [l2 [Hdf [H1 H2]]]]].
  subst df. destruct (increasing_split index _ _ _ Hinc) as [_ Hi2].
  intros r' Hr' Hk. apply in_app_or in Hr'.
  destruct Hr' as [Hr' | [<- | Hr']].
  - destruct (ts_lt_no_later _ _ (H1 r' Hr' Hk)) as [Hle Hne].
    split; [exact Hle | intros E; contradiction].
  - split; [destruct (lastupdt_parsed r); simpl; [lia | exact I] | lia].
  - specialize (H2 r' Hr' Hk). specialize (Hi2 r' Hr').
    destruct (ts_before (lastupdt_parsed r') (lastupdt_parsed r)) eqn:E.
    + rewrite (ts_before_antisym _ _ H2 E).
      split; [destruct (lastupdt_parsed r'); simpl; [lia | exact I] | lia].
    + destruct (ts_lt_no_later _ _ E) as [Hle Hne].
      split; [exact Hle | intros E'; contradiction].
Qed.

(** C2.  When the call returns, the returned frame has exactly one row
    for each flight key of the resolved batch (the surviving records, in
    the order of the file) and no row of any other key; the row of a key
    is the projection of a record of that key than which no record of the
    key has a later [lastupdt_parsed], an absent one counting as earliest,
    and among the records of the key with that same [lastupdt_parsed] it
    is the one with the smallest index label, the first in the file.  On
    the input [Cases.latest_in_the_middle] the row returned for K1 is the
    third of its five rows, and the row returned for K2, whose updates
    are all absent, is its first. *)
Theorem one_latest_row_per_flight_key :
  (forall (pd : Pandas) (csv : Csv)
          (on_missing : string) (out : OutFrame) (log : list info),
      most_recent_flights_csv pd csv on_missing = Ok (out, log) ->
      exists batch,
        resolve pd csv on_missing = Ok (batch, log)
        /\ increasing index batch
        /\ NoDup (map out_flightkey (out_rows out))
        /\ (forall k, In k (map out_flightkey (out_rows out))
                      <-> In k (map flightkey batch))
        /\ forall o, In o (out_rows out) ->
             exists r,
               In r batch /\ o = project_row r
               /\ forall r', In r' batch -> flightkey r' = flightkey r ->
                    no_later (lastupdt_parsed r') (lastupdt_parsed r)
                    /\ (lastupdt_parsed r' = lastupdt_parsed r ->
                        (index r <= index r')%nat))
  /\ map (fun r => (flightkey r, flightstatus r, lastupdt_parsed r))
         (Tests.batch Cases.latest_in_the_middle "drop")
     = [("K1", "Boarding", Some (Iso.instant 2019 1 1 10 0 0));
        ("K2", "Boarding", NaT);
        ("K1", "Delayed", Some (Iso.instant 2019 1 1 19 48 0));
        ("K1", "In", Some (Iso.instant 2019 1 1 19 48 0));
        ("K2", "In", NaT);
        ("K1", "Out", NaT);
        ("K1", "Late", Some (Iso.instant 2019 1 1 12 0 0))]
  /\ Tests.keys_and_updates (Tests.run Cases.latest_in_the_middle "drop")
     = Some [("K1", "Delayed", Some (Iso.instant 2019 1 1 19 48 0));
             ("K2", "Boarding", NaT)].
Proof.
  split; [| split; vm_compute; reflexivity].
  intros pd csv on_missing out log H.
  apply most_recent_ok in H. destruct H as [batch [Hres ->]].
  destruct (resolve_ok_loaded pd _ _ _ _ Hres) as [df Hdf].
  destruct (batch_rows pd _ _ _ _ _ Hdf Hres) as [_ [_ Hinc]].
  exists batch. split; [exact Hres |]. split; [exact Hinc |].
  assert (map out_flightkey (out_rows (project (columns csv) (reduce batch)))
          = map flightkey (reduce batch)) as Hkeys.
  { simpl. rewrite map_map. reflexivity. }
  rewrite Hkeys. repeat split.
  - apply drop_duplicates_from_NoDup.
  - apply reduce_keys.
  - apply reduce_keys.
  - intros o Ho. simpl in Ho. apply in_map_iff in Ho.
    destruct Ho as [r [<- Hr]].
    destruct (reduce_latest batch r Hinc Hr) as [Hin Hmax].
    exists r. auto.
Qed.

Lemma one_latest_row_per_flight_key_witness :
  exists batch,
    resolve Iso.pandas Cases.latest_in_the_middle "drop"
    = Ok (batch, Tests.log Cases.latest_in_the_middle "drop")
    /\ increasing index batch
    /\ NoDup (map out_flightkey
                  (out_rows (Tests.output Cases.latest_in_the_middle "drop")))
    /\ (forall k,
          In k (map out_flightkey
                    (out_rows (Tests.output Cases.latest_in_the_middle "drop")))
          <-> In k (map flightkey batch))
    /\ forall o,
        In o (out_rows (Tests.output Cases.latest_in_the_middle "drop")) ->
        exists r,
          In r batch /\ o = project_row r
          /\ forall r', In r' batch -> flightkey r' = flightkey r ->
               no_later (lastupdt_parsed r') (lastupdt_parsed r)
               /\ (lastupdt_parsed r' = lastupdt_parsed r ->
                   (index r <= index r')%nat).
Proof.
  apply (proj1 one_latest_row_per_flight_key Iso.pandas
           Cases.latest_in_the_middle "drop"
           (Tests.output Cases.latest_in_the_middle "drop")
           (Tests.log Cases.latest_in_the_middle "drop")).
  vm_compute. reflexivity.
Defined.

(** On the input with a tie, the two first rows resolve to the same
    instant and the first of them is returned. *)
Example tied_rows_first_wins :
  map lastupdt_parsed (Tests.batch Tests.tied "drop")
  = [Some (Iso.instant 2019 1 1 19 48 0);
     Some (Iso.instant 2019 1 1 19 48 0);
     Some (Iso.instant 2019 1 1 10 0 0)]
  /\ Tests.keys_and_updates (Tests.run Tests.tied "drop")
     = Some [("K1", "Boarding", Some (Iso.instant 2019 1 1 19 48 0))].
Proof. split; vm_compute; reflexivity. Qed.

(* ===================================================================== *)
(** ** Further properties: schema, flight dates and loaded rows *)
(* ===================================================================== *)

Lemma Forall2_in_l {A B : Type} (R : A -> B -> Prop) :
  forall l l', Forall2 R l l' ->
  forall a, In a l -> exists b, In b l' /\ R a b.
Proof.
  induction 1 as [| x y l l' Hxy _ IH]; intros a Ha.
  - destruct Ha.
  - destruct Ha as [-> | Ha].
    + exists y. split; [left; reflexivity | exact Hxy].
    + destruct (IH a Ha) as [b [Hb Hab]]. exists b.
      split; [right |]; assumption.
Qed.

Lemma validate_missing (cols : list string) :
  validate cols
  = match missing_required cols with
    | [] => Ok tt
    | _ => Err (MissingColumns (missing_required cols))
    end.
Proof. reflexivity. Qed.

Lemma missing_required_in (cols : list string) (c : string) :
  In c (missing_required cols) <-> In c required /\ ~ In c cols.
Proof.
  unfold missing_required. rewrite filter_In, negb_true_iff, isin_false.
  reflexivity.
Qed.

(** X1.  When the header lacks a required column the call raises
    "Missing required columns" with exactly the required columns that are
    absent, in the order of [required], whatever the rows and the policy
    are; with every required column present it never raises that error. *)
Theorem missing_columns_are_reported :
  forall (pd : Pandas) (csv : Csv)
         (on_missing : string),
    (forall c, In c (missing_required (columns csv))
               <-> In c required /\ ~ In c (columns csv))
    /\ (missing_required (columns csv) <> [] ->
        most_recent_flights_csv pd csv on_missing
        = Err (MissingColumns (missing_required (columns csv))))
    /\ (missing_required (columns csv) = [] ->
        forall cs, most_recent_flights_csv pd csv on_missing
                   <> Err (MissingColumns cs)).
Proof.
  intros pd csv on_missing.
  split; [intros c; apply missing_required_in |]. split.
  - intros Hne. unfold most_recent_flights_csv, resolve, load_validate.
    rewrite validate_missing.
    destruct (missing_required (columns csv)); [contradiction |].
    reflexivity.
  - intros He cs H. unfold most_recent_flights_csv, resolve in H.
    destruct (load_validate pd csv) as [df | e] eqn:Hdf.
    + simpl in H.
      destruct (handle_blanks on_missing df) as [df1 | e1] eqn:Hb.
      * simpl in H. unfold resolve_times, fill_and_merge in H.
        repeat match type of H with
               | context [if ?b then _ else _] => destruct b
               end; simpl in H; discriminate H.
      * unfold handle_blanks in Hb.
        repeat match type of Hb with
               | context [if ?b then _ else _] => destruct b
               end; simpl in Hb; try discriminate Hb.
        simpl in H. congruence.
    + simpl in H. unfold load_validate in Hdf.
      rewrite validate_missing, He in Hdf. simpl in Hdf.
      assert (e = DateParseError) as ->.
      { clear H. revert e Hdf. generalize (load csv).
        induction l as [| a l IH]; simpl; intros e H; [discriminate H |].
        unfold typed_row at 1, to_datetime_raise in H.
        destruct (read_flight_dt pd _ _ _); simpl in H; [| congruence].
        destruct (mapM (typed_row pd csv) l) eqn:E;
          simpl in H; [discriminate H |].
        inversion H; subst. apply (IH e eq_refl). }
      discriminate H.
Qed.

Lemma missing_columns_are_reported_witness :
  most_recent_flights_csv Iso.pandas Cases.two_columns_short "midnight"
  = Err (MissingColumns ["flight_dt"; "lastupdt"]).
Proof.
  apply (proj1 (proj2 (missing_columns_are_reported
                         Iso.pandas Cases.two_columns_short "midnight"))).
  vm_compute. discriminate.
Defined.

Lemma keep_row_iff (cols : list string) (a : nat * list string) :
  keep_row cols a = true <-> data_key (field cols (snd a) "flightkey").
Proof.
  split; [apply keep_row_data_key |].
  unfold keep_row, data_key. intros [H1 H2].
  apply String.eqb_neq in H1, H2. rewrite H1, H2. reflexivity.
Qed.

Lemma load_in_iff (csv : Csv) (i : nat) (f : list string) :
  Str.isin "flightkey" (columns csv) = true ->
  In (i, f) (load csv)
  <-> nth_error (data csv) i = Some f
      /\ data_key (field (columns csv) f "flightkey").
Proof.
  intros Hc. unfold load. rewrite Hc, filter_In, read_csv_in, keep_row_iff.
  reflexivity.
Qed.

Section FlightDates.

Variable pd : Pandas.

Lemma mapM_typed_row_err (csv : Csv) :
  forall l,
    (exists a, In a l
               /\ flight_dt_parser pd csv
                    (field (columns csv) (snd a) "flight_dt") = None) ->
    mapM (typed_row pd csv) l = Err DateParseError.
Proof.
  unfold flight_dt_parser.
  induction l as [| a l IH]; intros [b [Hb Hn]]; [destruct Hb |].
  simpl. unfold typed_row at 1, to_datetime_raise.
  destruct (read_flight_dt pd _ _ (field (columns csv) (snd a) "flight_dt"))
    eqn:E; [| reflexivity].
  simpl. destruct Hb as [-> | Hb]; [congruence |].
  rewrite IH by (exists b; auto). reflexivity.
Qed.

Lemma mapM_typed_row_ok (csv : Csv) :
  forall l,
    (forall a, In a l ->
               flight_dt_parser pd csv
                 (field (columns csv) (snd a) "flight_dt") <> None) ->
    exists df, mapM (typed_row pd csv) l = Ok df.
Proof.
  unfold flight_dt_parser.
  induction l as [| a l IH]; intros H; [exists []; reflexivity |].
  simpl. unfold typed_row at 1, to_datetime_raise.
  destruct (read_flight_dt pd _ _ (field (columns csv) (snd a) "flight_dt"))
    eqn:E.
  - simpl. destruct IH as [df Hdf].
    + intros b Hb. apply H. right. exact Hb.
    + rewrite Hdf. simpl. eauto.
  - exfalso. apply (H a (or_introl eq_refl)). exact E.
Qed.

End FlightDates.

(** X2.  With every required column present: if the flight date of a
    row that step 1 keeps does not parse as a cell of its column, the
    call raises the parser's error under every policy; if the flight
    dates of all kept rows parse as cells of that column, loading
    succeeds.  Rows that step 1 removes are not given to the parser.  A
    date that parses on its own need not parse in its column: in the
    reference instance a date with a time fails in a column that begins
    with a plain date. *)
Theorem unparseable_flight_date_raises :
  (forall (pd : Pandas) (csv : Csv),
      validate (columns csv) = Ok tt ->
      (forall i fields on_missing,
          nth_error (data csv) i = Some fields ->
          data_key (field (columns csv) fields "flightkey") ->
          flight_dt_parser pd csv (field (columns csv) fields "flight_dt")
          = None ->
          most_recent_flights_csv pd csv on_missing = Err DateParseError)
      /\ ((forall i fields,
             nth_error (data csv) i = Some fields ->
             data_key (field (columns csv) fields "flightkey") ->
             flight_dt_parser pd csv (field (columns csv) fields "flight_dt")
             <> None) ->
          exists df, load_validate pd csv = Ok df))
  /\ Iso.to_datetime ["2019-01-02 10:00:00"] "2019-01-02 10:00:00"
     = Some (Some (Iso.instant 2019 1 2 10 0 0))
  /\ Iso.to_datetime ["2019-01-01"; "2019-01-02 10:00:00"]
                     "2019-01-02 10:00:00"
     = None
  /\ load_validate Iso.pandas Cases.two_layouts = Err DateParseError.
Proof.
  split; [| repeat split; vm_compute; reflexivity].
  intros pd csv Hv.
  assert (Str.isin "flightkey" (columns csv) = true) as Hc
      by (apply (validate_ok _ Hv); left; reflexivity).
  split.
  - intros i fields on_missing Hn Hk Hd.
    unfold most_recent_flights_csv, resolve, load_validate.
    rewrite Hv. simpl. rewrite mapM_typed_row_err; [reflexivity |].
    exists (i, fields). split; [| exact Hd].
    apply load_in_iff; auto.
  - intros H. unfold load_validate. rewrite Hv. simpl.
    apply mapM_typed_row_ok. intros [i f] Ha.
    apply load_in_iff in Ha; [| exact Hc]. destruct Ha as [Hn Hk].
    apply (H i f Hn Hk).
Qed.

Lemma unparseable_flight_date_raises_witness :
  most_recent_flights_csv Iso.pandas Cases.bad_flight_date "midnight"
  = Err DateParseError.
Proof.
  apply (proj1 (proj1 unparseable_flight_date_raises
                      Iso.pandas Cases.bad_flight_date
                      ltac:(vm_compute; reflexivity))
               2%nat ["K2"; "200"; "someday"; "ATL"; "DFW"; "Boarding";
                      "10:00"]).
  - vm_compute. reflexivity.
  - split; vm_compute; discriminate.
  - vm_compute. reflexivity.
Defined.

Lemma typed_row_fields (pd : Pandas) (csv : Csv) (a : nat * list string)
      (r : Row) :
  typed_row pd csv a = Ok r ->
  flightnum r = field (columns csv) (snd a) "flightnum"
  /\ orig_arpt r = field (columns csv) (snd a) "orig_arpt"
  /\ dest_arpt r = field (columns csv) (snd a) "dest_arpt"
  /\ flightstatus r = field (columns csv) (snd a) "flightstatus"
  /\ carrier_code r
     = if Str.isin "carrier_code" (columns csv)
       then Some (column_str pd csv "carrier_code"
                             (field (columns csv) (snd a) "carrier_code"))
       else None.
Proof.
  unfold typed_row, to_datetime_raise. intros H.
  destruct (read_flight_dt pd _ _ _) as [d |];
    simpl in H; [| discriminate H].
  inversion H; subst r; simpl. auto.
Qed.

(** X4 (below) uses that the resolver leaves the other fields alone. *)
Lemma resolved_row_fields (parse : string -> option datetime64)
      (on_missing : string) (r : Row) :
  flightnum (resolved_row parse on_missing r) = flightnum r
  /\ orig_arpt (resolved_row parse on_missing r) = orig_arpt r
  /\ dest_arpt (resolved_row parse on_missing r) = dest_arpt r
  /\ flightstatus (resolved_row parse on_missing r) = flightstatus r
  /\ carrier_code (resolved_row parse on_missing r) = carrier_code r.
Proof.
  unfold resolved_row, after_blanks.
  destruct (blank_like r); [destruct (String.eqb on_missing "midnight") |];
    simpl; auto.
Qed.

(** X4.  When the call returns, the columns of the frame are the seven
    required ones, followed by [carrier_code] when the file has it, and
    every returned row carries the fields of one single row of the file:
    flight key, flight number, airports and status as the file has them,
    the carrier code as [read_csv] typed it from the text of that row,
    and the flight date parsed from the text of that row, normalized. *)
Theorem output_rows_are_rows_of_the_file :
  forall (pd : Pandas) (csv : Csv)
         (on_missing : string) (out : OutFrame) (log : list info),
    most_recent_flights_csv pd csv on_missing = Ok (out, log) ->
    out_columns out = output_columns (columns csv)
    /\ forall o, In o (out_rows out) ->
         exists i fields d,
           nth_error (data csv) i = Some fields
           /\ out_flightkey o = field (columns csv) fields "flightkey"
           /\ out_flightnum o = field (columns csv) fields "flightnum"
           /\ out_orig_arpt o = field (columns csv) fields "orig_arpt"
           /\ out_dest_arpt o = field (columns csv) fields "dest_arpt"
           /\ out_flightstatus o = field (columns csv) fields "flightstatus"
           /\ out_carrier_code o
              = (if Str.isin "carrier_code" (columns csv)
                 then Some (column_str pd csv "carrier_code"
                              (field (columns csv) fields "carrier_code"))
                 else None)
           /\ flight_dt_parser pd csv
                (field (columns csv) fields "flight_dt") = Some d
           /\ out_flight_dt o = normalize d.
Proof.
  intros pd csv on_missing out log H. split.
  - apply most_recent_ok in H. destruct H as [batch [_ ->]]. reflexivity.
  - intros o Ho.
    destruct (output_row_origin pd _ _ _ _ _ H Ho)
      as [df [batch [r [r0 [Hdf [_ [_ [-> [Hr0 ->]]]]]]]]].
    destruct (load_validate_in pd _ _ _ Hdf Hr0) as [f [Hn [_ Ht]]].
    destruct (typed_row_ok pd _ _ _ Ht)
      as [_ [Hk [_ [_ [d [Hd Hfd]]]]]].
    destruct (typed_row_fields pd _ _ _ Ht)
      as [Hnum [Ho1 [Hd1 [Hs Hc]]]].
    destruct (resolved_row_base (dated_parser pd df) on_missing r0)
      as [_ [Hk' [Hf' _]]].
    destruct (resolved_row_fields (dated_parser pd df) on_missing r0)
      as [Hnum' [Ho' [Hd' [Hs' Hc']]]].
    simpl in Hk, Hnum, Ho1, Hd1, Hs, Hc, Hd.
    exists (index r0), f, d. unfold project_row. cbn [out_flightkey
      out_flightnum out_orig_arpt out_dest_arpt out_flightstatus
      out_carrier_code out_flight_dt].
    rewrite Hk', Hnum', Ho', Hd', Hs', Hc', Hf'.
    unfold column_str, flight_dt_parser in *.
    repeat split; congruence.
Qed.

Lemma output_rows_are_rows_of_the_file_witness :
  out_columns (Tests.output Cases.mixed "midnight")
  = output_columns (columns Cases.mixed)
  /\ forall o, In o (out_rows (Tests.output Cases.mixed "midnight")) ->
       exists i fields d,
         nth_error (data Cases.mixed) i = Some fields
         /\ out_flightkey o = field (columns Cases.mixed) fields "flightkey"
         /\ out_flightnum o = field (columns Cases.mixed) fields "flightnum"
         /\ out_orig_arpt o = field (columns Cases.mixed) fields "orig_arpt"
         /\ out_dest_arpt o = field (columns Cases.mixed) fields "dest_arpt"
         /\ out_flightstatus o
            = field (columns Cases.mixed) fields "flightstatus"
         /\ out_carrier_code o
            = (if Str.isin "carrier_code" (columns Cases.mixed)
               then Some (column_str Iso.pandas Cases.mixed "carrier_code"
                            (field (columns Cases.mixed) fields
                                   "carrier_code"))
               else None)
         /\ flight_dt_parser Iso.pandas Cases.mixed
              (field (columns Cases.mixed) fields "flight_dt") = Some d
         /\ out_flight_dt o = normalize d.
Proof.
  apply (output_rows_are_rows_of_the_file Iso.pandas Cases.mixed "midnight"
           (Tests.output Cases.mixed "midnight")
           (Tests.log Cases.mixed "midnight")).
  vm_compute. reflexivity.
Defined.

(** X5.  When the header is complete and no row of the file has a usable
    flight key (the file has no rows, or only blank-key and header rows),
    the call returns the frame without rows under every [on_missing],
    ['error'] included, and writes nothing to [sys.stderr]. *)
Theorem no_keyed_row_gives_the_empty_frame :
  forall (pd : Pandas) (csv : Csv)
         (on_missing : string),
    validate (columns csv) = Ok tt ->
    (forall i fields,
        nth_error (data csv) i = Some fields ->
        ~ data_key (field (columns csv) fields "flightkey")) ->
    most_recent_flights_csv pd csv on_missing
    = Ok (mk_frame (output_columns (columns csv)) [], []).
Proof.
  intros pd csv on_missing Hv Hno.
  assert (Str.isin "flightkey" (columns csv) = true) as Hc
      by (apply (validate_ok _ Hv); left; reflexivity).
  assert (load csv = []) as Hl.
  { unfold load. rewrite Hc. apply filter_none. intros [i f] Ha.
    apply read_csv_in in Ha.
    destruct (keep_row (columns csv) (i, f)) eqn:E; [| reflexivity].
    apply keep_row_iff in E. exfalso. apply (Hno i f Ha E). }
  unfold most_recent_flights_csv, resolve, load_validate.
  rewrite Hv, Hl. simpl. unfold handle_blanks.
  destruct (String.eqb on_missing "midnight");
    [| destruct (String.eqb on_missing "drop");
       [| destruct (String.eqb on_missing "error")]]; reflexivity.
Qed.

Lemma no_keyed_row_gives_the_empty_frame_witness :
  most_recent_flights_csv Iso.pandas Cases.no_data "error"
  = Ok (mk_frame (output_columns (columns Cases.no_data)) [], []).
Proof.
  apply (no_keyed_row_gives_the_empty_frame Iso.pandas Cases.no_data
           "error").
  - vm_compute. reflexivity.
  - intros i fields Hn [H1 H2].
    destruct i as [| [| i]]; simpl in Hn.
    + inversion Hn; subst fields. apply H2. vm_compute. reflexivity.
    + inversion Hn; subst fields. apply H1. vm_compute. reflexivity.
    + destruct i; discriminate Hn.
Defined.

(* ===================================================================== *)
(** ** Further properties: the resolver under each policy *)
(* ===================================================================== *)

(** X6.  A loaded record whose update field holds the date pattern and
    that the date parser, reading the dated update fields as one column,
    turns into an instant resolves to that instant as it is, under every
    [on_missing]; its flight date plays no part.  The column matters: in
    the reference instance a plain date after a date with a time does not
    parse, and resolves to nothing. *)
Theorem full_timestamp_resolves_verbatim :
  (forall (pd : Pandas) (csv : Csv)
          (on_missing : string) (df batch : list Row) (log : list info)
          (r0 : Row) (s : string) (d : datetime64),
      load_validate pd csv = Ok df ->
      resolve pd csv on_missing = Ok (batch, log) ->
      In r0 df ->
      lastupdt r0 = Some s -> Re.search _DATE_RE s = true ->
      dated_parser pd df s = Some d ->
      exists r,
        In r batch /\ index r = index r0 /\ lastupdt r = Some s
        /\ lastupdt_parsed r = d)
  /\ map (fun r => (lastupdt r, lastupdt_parsed r))
         (Tests.batch Cases.dated_two_layouts "drop")
     = [(Some "2019-01-01 19:48:00", Some (Iso.instant 2019 1 1 19 48 0));
        (Some "2019-01-02", NaT)].
Proof.
  split; [| vm_compute; reflexivity].
  intros pd csv on_missing df batch log r0 s d Hdf Hres Hr0 Hs Hm Hd.
  destruct (batch_rows pd _ _ _ _ _ Hdf Hres) as [Hin _].
  assert (has_date r0 = true) as Hh by (unfold has_date; rewrite Hs; exact Hm).
  assert (blank_like r0 = false) as Hb.
  { destruct (blank_like r0) eqn:E; [| reflexivity].
    rewrite (blank_like_no_date_pattern r0 E) in Hh. discriminate Hh. }
  exists (resolved_row (dated_parser pd df) on_missing r0).
  destruct (resolved_row_base (dated_parser pd df) on_missing r0)
    as [Hi [_ [_ Hp]]].
  repeat split; [| exact Hi | |].
  - apply Hin; [exact Hr0 |]. unfold survives.
    rewrite (after_blanks_not_blank _ _ Hb).
    unfold passes_blanks, passes_times.
    rewrite Hb, (has_date_not_bad r0 Hh). simpl. rewrite !orb_true_r.
    reflexivity.
  - unfold resolved_row. rewrite (after_blanks_not_blank _ _ Hb). exact Hs.
  - rewrite Hp, (after_blanks_not_blank _ _ Hb).
    unfold resolved_value, no_date. rewrite Hh, Hs. simpl.
    unfold to_datetime_coerce. rewrite Hd. reflexivity.
Qed.

Lemma full_timestamp_resolves_verbatim_witness :
  exists r,
    In r (Tests.batch Tests.full_timestamps "error")
    /\ index r = index (Tests.row Tests.full_timestamps 1)
    /\ lastupdt r = Some "2019-01-01 19:49:00"
    /\ lastupdt_parsed r = Some (Iso.instant 2019 1 1 19 49 0).
Proof.
  apply (proj1 full_timestamp_resolves_verbatim Iso.pandas
           Tests.full_timestamps "error"
           (Tests.loaded Tests.full_timestamps)
           (Tests.batch Tests.full_timestamps "error")
           (Tests.log Tests.full_timestamps "error")).
  - vm_compute. reflexivity.
  - vm_compute. reflexivity.
  - vm_compute. right. left. reflexivity.
  - vm_compute. reflexivity.
  - vm_compute. reflexivity.
  - vm_compute. reflexivity.
Defined.

Section PolicyLog.

Variable pd : Pandas.

Lemma fill_and_merge_log (labels : list nat) (times : Row -> option time)
      (df batch : list Row) (log log' : list info) :
  fill_and_merge pd labels times df log = Ok (batch, log') -> log' = log.
Proof.
  unfold fill_and_merge. destruct (alignable labels (map index df));
    intros H; inversion H; reflexivity.
Qed.

(** What step 7 has written to [sys.stderr] when it returns. *)
Lemma resolve_times_log (on_missing : string) (df batch : list Row)
      (log : list info) :
  resolve_times pd on_missing df = Ok (batch, log) ->
  log = if existsb bad_mask df && negb (String.eqb on_missing "midnight")
        then [Dropped (length (filter bad_mask df))] else [].
Proof.
  unfold resolve_times. intros H.
  destruct (existsb no_date df) eqn:Hnd.
  - destruct (existsb bad_mask df) eqn:Hbad; simpl.
    + destruct (String.eqb on_missing "error"); [discriminate H |].
      destruct (String.eqb on_missing "midnight");
        apply fill_and_merge_log in H; exact H.
    + apply fill_and_merge_log in H. exact H.
  - assert (existsb bad_mask df = false) as ->.
    { destruct (existsb bad_mask df) eqn:Hbad; [| reflexivity].
      apply existsb_exists in Hbad. destruct Hbad as [r [Hr Hb]].
      apply bad_mask_no_date in Hb.
      rewrite (existsb_false_all _ _ Hnd r Hr) in Hb. discriminate Hb. }
    apply fill_and_merge_log in H. exact H.
Qed.

Lemma resolve_steps (csv : Csv) (on_missing : string) (df batch : list Row)
      (log : list info) :
  load_validate pd csv = Ok df ->
  resolve pd csv on_missing = Ok (batch, log) ->
  resolve_times pd on_missing
    (map (after_blanks on_missing) (filter (passes_blanks on_missing) df))
  = Ok (batch, log).
Proof.
  intros Hdf H. unfold resolve in H. rewrite Hdf in H. simpl in H.
  apply bind_ok in H. destruct H as [df1 [Hb H]].
  apply handle_blanks_rowwise in Hb. subst df1. exact H.
Qed.

(** On a frame without blank-like cells step 4 changes nothing. *)
Lemma handle_blanks_clean (on_missing : string) (df : list Row) :
  existsb blank_like df = false -> handle_blanks on_missing df = Ok df.
Proof.
  intros H. pose proof (existsb_false_all _ _ H) as Hall.
  unfold handle_blanks.
  assert (forall l, (forall r, In r l -> blank_like r = false) ->
                    map (fun r => if blank_like r
                                  then set_lastupdt None r else r) l = l)
    as Hid.
  { intros l Hl. rewrite <- (map_id l) at 2. apply map_ext_in.
    intros r Hr. rewrite (Hl r Hr). reflexivity. }
  destruct (String.eqb on_missing "midnight").
  - simpl. f_equal. rewrite map_map. rewrite <- (map_id df) at 2.
    apply map_ext_in. intros r Hr. rewrite (Hall r Hr), (Hall r Hr).
    reflexivity.
  - destruct (String.eqb on_missing "drop").
    + simpl. f_equal. rewrite filter_all.
      * apply Hid. exact Hall.
      * intros r Hr. rewrite (Hall r Hr). reflexivity.
    + destruct (String.eqb on_missing "error"); [rewrite H |];
        simpl; f_equal; apply Hid; exact Hall.
Qed.

(** On a frame without bad time-only cells step 7 does not look at the
    policy. *)
Lemma resolve_times_clean (on_missing : string) (df : list Row) :
  existsb bad_mask df = false ->
  resolve_times pd on_missing df
  = resolve_times pd "drop" df.
Proof. unfold resolve_times. intros ->. reflexivity. Qed.

End PolicyLog.

Lemma no_drops_clean (df : list Row) (r : Row) :
  time_only_drops df = O -> In r df -> blank_like r = false ->
  bad_mask r = false.
Proof.
  unfold time_only_drops. intros Hz Hr Hb.
  destruct (bad_mask r) eqn:E; [| reflexivity].
  assert (In r (filter (fun r => negb (blank_like r) && bad_mask r) df))
    as Hin by (apply filter_In; rewrite Hb, E; auto).
  destruct (filter _ df); [destruct Hin | discriminate Hz].
Qed.

(** X7.  Under ['drop'], on an input that passes loading and validation:
    when no loaded update field is, without being blank-like, a dateless
    string that parses as no clock time, the call returns and writes
    nothing to [sys.stderr], a loaded record is in the resolved batch
    exactly when its update field is not blank-like, and the flight keys
    of the returned frame are those of the records that stay; when there
    is such a field, the rows that hold one are counted on [sys.stderr]
    and the call raises the indexing error of step 7, returning no
    frame. *)
Theorem drop_policy_removes_blank_records :
  forall (pd : Pandas) (csv : Csv) (df : list Row),
    load_validate pd csv = Ok df ->
    (time_only_drops df = O ->
     exists batch out,
       resolve pd csv "drop" = Ok (batch, [])
       /\ most_recent_flights_csv pd csv "drop" = Ok (out, [])
       /\ (forall r0, In r0 df ->
             ((exists r, In r batch /\ index r = index r0)
              <-> blank_like r0 = false))
       /\ (forall k, In k (map out_flightkey (out_rows out))
                     <-> exists r0, In r0 df /\ flightkey r0 = k
                                    /\ blank_like r0 = false))
    /\ (time_only_drops df <> O ->
        most_recent_flights_csv pd csv "drop"
        = Err (IndexingError [Dropped (time_only_drops df)])).
Proof.
  intros pd csv df Hdf.
  destruct (resolve_dropping pd csv "drop" df Hdf)
    as [Hyes Hno]; [discriminate | discriminate |].
  split.
  - intros Hz. destruct (Hno Hz) as [batch Hres].
    assert (forall r0, In r0 df ->
                       (survives "drop" r0 = true <-> blank_like r0 = false))
      as Hsurv.
    { intros r0 Hr0.
      unfold survives, passes_blanks, passes_times, after_blanks.
      simpl. destruct (blank_like r0) eqn:Hb; simpl; [intuition discriminate |].
      rewrite (no_drops_clean df r0 Hz Hr0 Hb). intuition. }
    destruct (batch_rows pd _ _ _ _ _ Hdf Hres) as [Hin [Hout Hinc]].
    exists batch, (project (columns csv) (reduce batch)).
    split; [exact Hres |]. split.
    { unfold most_recent_flights_csv. rewrite Hres. reflexivity. }
    split.
    + intros r0 Hr0. rewrite <- (Hsurv r0 Hr0). split.
      * intros [r [Hr Hi]]. destruct (Hout r Hr) as [r1 [Hr1 [Hs ->]]].
        destruct (resolved_row_base (dated_parser pd df) "drop" r1)
          as [Hi1 _].
        assert (r1 = r0) as <-; [| exact Hs].
        apply (increasing_unique index df); auto.
        -- apply (load_validate_increasing pd csv). exact Hdf.
        -- congruence.
      * intros Hs. exists (resolved_row (dated_parser pd df) "drop" r0).
        split; [apply Hin; assumption | apply resolved_row_base].
    + intros k. simpl. rewrite map_map.
      change (In k (map flightkey (reduce batch)) <->
              exists r0, In r0 df /\ flightkey r0 = k
                         /\ blank_like r0 = false).
      rewrite reduce_keys, in_map_iff. split.
      * intros [r [Hk Hr]]. destruct (Hout r Hr) as [r1 [Hr1 [Hs ->]]].
        destruct (resolved_row_base (dated_parser pd df) "drop" r1)
          as [_ [Hk1 _]].
        apply (Hsurv r1 Hr1) in Hs. exists r1. intuition congruence.
      * intros [r0 [Hr0 [Hk Hs]]]. apply (Hsurv r0 Hr0) in Hs.
        exists (resolved_row (dated_parser pd df) "drop" r0). split.
        -- destruct (resolved_row_base (dated_parser pd df) "drop" r0)
             as [_ [Hk1 _]].
           congruence.
        -- apply Hin; assumption.
  - intros Hnz. apply most_recent_err. apply Hyes. exact Hnz.
Qed.

Lemma drop_policy_removes_blank_records_witness :
  most_recent_flights_csv Iso.pandas Cases.mixed "drop"
  = Err (IndexingError [Dropped (time_only_drops (Tests.loaded Cases.mixed))])
  /\ exists batch out,
      resolve Iso.pandas Tests.missing_time "drop" = Ok (batch, [])
      /\ most_recent_flights_csv Iso.pandas Tests.missing_time "drop"
         = Ok (out, [])
      /\ (forall r0, In r0 (Tests.loaded Tests.missing_time) ->
            ((exists r, In r batch /\ index r = index r0)
             <-> blank_like r0 = false))
      /\ (forall k, In k (map out_flightkey (out_rows out))
                    <-> exists r0, In r0 (Tests.loaded Tests.missing_time)
                                   /\ flightkey r0 = k
                                   /\ blank_like r0 = false).
Proof.
  split.
  - apply (proj2 (drop_policy_removes_blank_records Iso.pandas Cases.mixed
                    (Tests.loaded Cases.mixed)
                    ltac:(vm_compute; reflexivity))).
    vm_compute. discriminate.
  - apply (proj1 (drop_policy_removes_blank_records Iso.pandas
                    Tests.missing_time (Tests.loaded Tests.missing_time)
                    ltac:(vm_compute; reflexivity))).
    vm_compute. reflexivity.
Defined.

(** The run of ['drop'] on the mixed input: the row with the update field
    ["later"] is counted, and the call raises; under ['midnight'] K1 keeps
    its evening row, K2 its later row, K3 and K4 resolve to their flight
    date. *)
Example mixed_input_under_drop :
  most_recent_flights_csv Iso.pandas Cases.mixed "drop"
  = Err (IndexingError [Dropped 1])
  /\ Tests.keys_and_updates (Tests.run Cases.mixed "midnight")
     = Some [("K1", "In", Some (Iso.instant 2019 1 1 19 49 0));
             ("K2", "Boarding", Some (Iso.instant 2019 1 2 10 0 0));
             ("K3", "Boarding", Some (Iso.instant 2019 1 3 0 0 0));
             ("K4", "Boarding", Some (Iso.instant 2019 1 4 0 0 0))].
Proof. split; vm_compute; reflexivity. Qed.

(** X8.  On an input whose loaded update fields are all neither
    blank-like nor dateless strings that parse as no clock time, the
    result of the call is the same for every value of [on_missing], the
    three policies and any other string alike; and whenever ['error']
    returns a frame, every other [on_missing] returns that frame and that
    log. *)
Theorem clean_input_ignores_the_policy :
  forall (pd : Pandas) (csv : Csv),
    (forall df,
        load_validate pd csv = Ok df ->
        (forall r, In r df -> blank_like r = false /\ bad_mask r = false) ->
        forall p1 p2,
          most_recent_flights_csv pd csv p1
          = most_recent_flights_csv pd csv p2)
    /\ (forall res,
          most_recent_flights_csv pd csv "error" = Ok res ->
          forall on_missing,
            most_recent_flights_csv pd csv on_missing = Ok res).
Proof.
  intros pd csv.
  assert (forall df,
             load_validate pd csv = Ok df ->
             existsb blank_like df = false -> existsb bad_mask df = false ->
             forall p,
               most_recent_flights_csv pd csv p
               = most_recent_flights_csv pd csv "drop") as Hfree.
  { intros df Hdf Hb Hbad p.
    assert (forall q, resolve pd csv q
                      = resolve_times pd "drop" df) as Hq.
    { intros q. unfold resolve. rewrite Hdf.
      change (bind (Ok df) ?f) with (f df). cbv beta.
      rewrite (handle_blanks_clean q df Hb).
      change (bind (Ok df) ?f) with (f df). cbv beta.
      apply resolve_times_clean. exact Hbad. }
    unfold most_recent_flights_csv. rewrite !Hq. reflexivity. }
  split.
  - intros df Hdf Hclean p1 p2.
    assert (existsb blank_like df = false) as Hb.
    { destruct (existsb blank_like df) eqn:E; [| reflexivity].
      apply existsb_exists in E. destruct E as [r [Hr E]].
      destruct (Hclean r Hr) as [E' _]. congruence. }
    assert (existsb bad_mask df = false) as Hbad.
    { destruct (existsb bad_mask df) eqn:E; [| reflexivity].
      apply existsb_exists in E. destruct E as [r [Hr E]].
      destruct (Hclean r Hr) as [_ E']. congruence. }
    rewrite (Hfree df Hdf Hb Hbad p1), (Hfree df Hdf Hb Hbad p2).
    reflexivity.
  - intros res Herr on_missing.
    destruct (load_validate pd csv) as [df | e] eqn:Hdf.
    + assert (existsb blank_like df = false) as Hb.
      { destruct (existsb blank_like df) eqn:E; [| reflexivity].
        unfold most_recent_flights_csv, resolve in Herr.
        rewrite Hdf in Herr. simpl in Herr.
        unfold handle_blanks in Herr. simpl in Herr. rewrite E in Herr.
        discriminate Herr. }
      assert (existsb bad_mask df = false) as Hbad.
      { destruct (existsb bad_mask df) eqn:E; [| reflexivity].
        unfold most_recent_flights_csv, resolve in Herr.
        rewrite Hdf in Herr.
        change (bind (Ok df) ?f) with (f df) in Herr. cbv beta in Herr.
        rewrite (handle_blanks_clean "error" df Hb) in Herr.
        change (bind (Ok df) ?f) with (f df) in Herr. cbv beta in Herr.
        assert (existsb no_date df = true) as Hnd.
        { apply existsb_exists in E. destruct E as [r [Hr E]].
          apply existsb_exists. exists r. split; [exact Hr |].
          apply bad_mask_no_date. exact E. }
        unfold resolve_times in Herr. rewrite E, Hnd in Herr.
        simpl in Herr. discriminate Herr. }
      rewrite (Hfree df eq_refl Hb Hbad on_missing).
      rewrite <- (Hfree df eq_refl Hb Hbad "error"). exact Herr.
    + unfold most_recent_flights_csv in Herr.
      rewrite (resolve_load_error pd csv "error" e Hdf) in Herr.
      discriminate Herr.
Qed.

Lemma clean_input_ignores_the_policy_witness :
  most_recent_flights_csv Iso.pandas Tests.tied "midnight"
  = Ok (Tests.output Tests.tied "error", Tests.log Tests.tied "error").
Proof.
  apply (proj2 (clean_input_ignores_the_policy Iso.pandas Tests.tied)
               (Tests.output Tests.tied "error",
                Tests.log Tests.tied "error")).
  vm_compute. reflexivity.
Defined.

(** X9.  Under ['midnight'] no record is removed and nothing is written
    to [sys.stderr]: the resolved batch has the index labels of the loaded
    rows, in the same order. *)
Theorem midnight_policy_keeps_every_record :
  forall (pd : Pandas) (csv : Csv)
         (df batch : list Row) (log : list info),
    load_validate pd csv = Ok df ->
    resolve pd csv "midnight" = Ok (batch, log) ->
    map index batch = map index df
    /\ map flightkey batch = map flightkey df
    /\ log = [].
Proof.
  intros pd csv df batch log Hdf Hres.
  pose proof (resolve_steps pd _ _ _ _ _ Hdf Hres) as Hst.
  apply resolve_times_log in Hst. simpl in Hst.
  rewrite andb_false_r in Hst.
  apply resolve_rowwise in Hres. destruct Hres as [df' [Hdf' ->]].
  rewrite Hdf in Hdf'. inversion Hdf'; subst df'; clear Hdf'.
  rewrite filter_all by (intros; reflexivity).
  rewrite !map_map. repeat split; [| | exact Hst];
    apply map_ext; intros r; apply resolved_row_base.
Qed.

Lemma midnight_policy_keeps_every_record_witness :
  map index (Tests.batch Cases.mixed "midnight")
  = map index (Tests.loaded Cases.mixed)
  /\ map flightkey (Tests.batch Cases.mixed "midnight")
     = map flightkey (Tests.loaded Cases.mixed)
  /\ Tests.log Cases.mixed "midnight" = [].
Proof.
  apply (midnight_policy_keeps_every_record Iso.pandas Cases.mixed
           (Tests.loaded Cases.mixed)).
  - vm_compute. reflexivity.
  - vm_compute. reflexivity.
Defined.

(* ===================================================================== *)
(** ** Further properties: the time parser *)
(* ===================================================================== *)

Lemma strptime_valid (data fmt : string) (t : time) :
  Strptime.strptime data fmt = Some t -> valid_time t.
Proof.
  unfold Strptime.strptime. intros H.
  destruct (Strptime.pattern fmt) as [r |]; [| discriminate H].
  destruct (Re.rmatch r data) as [[stop found] |]; [| discriminate H].
  destruct (negb (Nat.eqb stop (String.length data))); [discriminate H |].
  match type of H with
  | (if ?c then _ else _) = _ => destruct c eqn:E; [| discriminate H]
  end.
  inversion H; subst t; clear H. unfold valid_time. simpl.
  repeat (apply andb_prop in E; destruct E as [E ?]).
  repeat match goal with
         | H : (_ <=? _) = true |- _ => apply Z.leb_le in H
         | H : (_ <? _) = true |- _ => apply Z.ltb_lt in H
         end.
  lia.
Qed.

Lemma try_formats_valid (s : string) (t : time) :
  forall fmts, try_formats s fmts = Some t -> valid_time t.
Proof.
  induction fmts as [| f fmts IH]; simpl; [discriminate |].
  destruct (Strptime.strptime s f) as [t' |] eqn:E; [| exact IH].
  intros H. inversion H; subst t'. apply (strptime_valid _ _ _ E).
Qed.

Lemma parse_time_flex_valid (s : option string) (t : time) :
  _parse_time_flex s = Some t -> valid_time t.
Proof.
  destruct s as [s |]; [| discriminate].
  rewrite parse_time_flex_try. apply try_formats_valid.
Qed.

(** X10.  Whatever [_parse_time_flex] returns is a time of the day: the
    hour is between 0 and 23, the minute and the second between 0 and 59;
    a second of 60 or 61, which the format accepts, is not returned. *)
Theorem parse_time_flex_returns_a_time_of_day :
  forall (s : option string) (t : time),
    _parse_time_flex s = Some t ->
    valid_time t
    /\ 0 <= timedelta t < NS_PER_DAY.
Proof.
  intros s t H. pose proof (parse_time_flex_valid s t H) as Hv.
  split; [exact Hv |].
  unfold valid_time in Hv. unfold timedelta, NS_PER_DAY, NS_PER_SECOND. lia.
Qed.

Lemma parse_time_flex_returns_a_time_of_day_witness :
  valid_time (mk_time 19 30 0)
  /\ 0 <= timedelta (mk_time 19 30 0) < NS_PER_DAY.
Proof.
  apply (parse_time_flex_returns_a_time_of_day (Some "07:30:00 PM")).
  vm_compute. reflexivity.
Defined.

Lemma lstrip_all_space (w : string) :
  all_space w -> Str.lstrip w = EmptyString.
Proof.
  unfold all_space. induction w as [| c w IH]; simpl; [reflexivity |].
  intros H. apply andb_prop in H. destruct H as [Hc Hw].
  rewrite Hc. apply IH. exact Hw.
Qed.

Lemma rstrip_all_space (w : string) :
  all_space w -> Str.rstrip w = EmptyString.
Proof.
  unfold all_space. induction w as [| c w IH]; simpl; [reflexivity |].
  intros H. apply andb_prop in H. destruct H as [Hc Hw].
  rewrite (IH Hw), Hc. reflexivity.
Qed.

Lemma lstrip_space_app (w x : string) :
  all_space w -> Str.lstrip (w ++ x) = Str.lstrip x.
Proof.
  unfold all_space. induction w as [| c w IH]; simpl; [reflexivity |].
  intros H. apply andb_prop in H. destruct H as [Hc Hw].
  rewrite Hc. apply IH. exact Hw.
Qed.

Lemma rstrip_app_space (x w : string) :
  all_space w -> Str.rstrip (x ++ w) = Str.rstrip x.
Proof.
  intros Hw. induction x as [| c x IH]; simpl.
  - apply rstrip_all_space. exact Hw.
  - rewrite IH. reflexivity.
Qed.

Lemma strip_app_space (x w : string) :
  all_space w -> Str.strip (x ++ w) = Str.strip x.
Proof.
  intros Hw. unfold Str.strip. induction x as [| c x IH]; simpl.
  - rewrite (lstrip_all_space w Hw). reflexivity.
  - destruct (Str.is_space c); [exact IH |].
    apply (rstrip_app_space (String c x) w Hw).
Qed.

Lemma strip_padded (l s r : string) :
  all_space l -> all_space r -> Str.strip (l ++ s ++ r) = Str.strip s.
Proof.
  intros Hl Hr. unfold Str.strip. rewrite (lstrip_space_app l _ Hl).
  apply (strip_app_space s r Hr).
Qed.

(** X11.  [_parse_time_flex] does not see white space around the time:
    a string padded with spaces, tabs or line ends on either side parses
    as the string itself, and a string of white space only, like an absent
    one, parses as nothing. *)
Theorem parse_time_flex_ignores_surrounding_space :
  _parse_time_flex None = None
  /\ (forall w, all_space w -> _parse_time_flex (Some w) = None)
  /\ (forall l s r,
        all_space l -> all_space r ->
        _parse_time_flex (Some (l ++ s ++ r)) = _parse_time_flex (Some s)).
Proof.
  split; [reflexivity |]. split.
  - intros w Hw. unfold _parse_time_flex, Str.strip.
    rewrite (lstrip_all_space w Hw). reflexivity.
  - intros l s r Hl Hr. rewrite !parse_time_flex_try.
    rewrite (strip_padded l s r Hl Hr). reflexivity.
Qed.

Lemma parse_time_flex_ignores_surrounding_space_witness :
  _parse_time_flex (Some ("  " ++ "7:05 pm" ++ " "))
  = _parse_time_flex (Some "7:05 pm").
Proof.
  apply (proj2 (proj2 parse_time_flex_ignores_surrounding_space)).
  - reflexivity.
  - reflexivity.
Defined.

Lemma upto_in (n : nat) (z : Z) : 0 <= z < Z.of_nat n -> In z (upto n).
Proof.
  intros H. unfold upto. apply in_map_iff. exists (Z.to_nat z).
  split; [lia |]. apply in_seq. lia.
Qed.

Lemma time_eqb_eq (a b : option time) : time_eqb a b = true -> a = b.
Proof.
  destruct a as [[h m s] |], b as [[h' m' s'] |]; simpl; intros H;
    try reflexivity; try discriminate H.
  apply andb_prop in H. destruct H as [H Hs].
  apply andb_prop in H. destruct H as [Hh Hm].
  apply Z.eqb_eq in Hh, Hm, Hs. subst. reflexivity.
Qed.

(* ===================================================================== *)
(** ** Further properties: what the patterns can match *)
(* ===================================================================== *)

Lemma string_app_assoc (a b c : string) : (a ++ b) ++ c = a ++ (b ++ c).
Proof.
  induction a as [| x a IH]; simpl;
    [reflexivity | rewrite IH; reflexivity].
Qed.

Lemma string_app_nil_r (a : string) : a ++ EmptyString = a.
Proof.
  induction a as [| x a IH]; simpl;
    [reflexivity | rewrite IH; reflexivity].
Qed.

Lemma string_app_length (a b : string) :
  String.length (a ++ b) = (String.length a + String.length b)%nat.
Proof.
  induction a as [| x a IH]; simpl;
    [reflexivity | rewrite IH; reflexivity].
Qed.

Lemma string_length_zero (a : string) :
  String.length a = O -> a = EmptyString.
Proof. destruct a; [reflexivity | discriminate]. Qed.

Lemma string_forall_app (P : ascii -> bool) (a b : string) :
  string_forall P (a ++ b) = string_forall P a && string_forall P b.
Proof.
  induction a as [| x a IH]; simpl; [reflexivity |].
  rewrite IH, andb_assoc. reflexivity.
Qed.

Lemma string_exists_app (Q : ascii -> bool) (a b : string) :
  string_exists Q (a ++ b) = string_exists Q a || string_exists Q b.
Proof.
  induction a as [| x a IH]; simpl; [reflexivity |].
  rewrite IH, orb_assoc. reflexivity.
Qed.

Lemma all_ascii_complete (c : ascii) : In c all_ascii.
Proof.
  unfold all_ascii. apply in_map_iff. exists (nat_of_ascii c).
  split; [apply ascii_nat_embedding |].
  apply in_seq. pose proof (nat_ascii_bounded c). lia.
Qed.

Lemma class_inclusion (p P : ascii -> bool) :
  forallb (fun c => implb (p c) (P c)) all_ascii = true ->
  forall c, p c = true -> P c = true.
Proof.
  intros H c Hc. rewrite forallb_forall in H.
  specialize (H c (all_ascii_complete c)). rewrite Hc in H. exact H.
Qed.

(** The strings of [r] are made of characters of [P]. *)
Lemma re_matches_only_chars (P : ascii -> bool) :
  forall r s, re_matches r s -> only_chars P r = true ->
              string_forall P s = true.
Proof.
  induction 1 as [| p c Hc | r1 r2 s1 s2 _ IH1 _ IH2 | r1 r2 s _ IH
                 | r1 r2 s _ IH | p c Hc | p c s Hc _ IH | n r s _ IH];
    simpl; intros H.
  - reflexivity.
  - rewrite (class_inclusion p P H c Hc). reflexivity.
  - apply andb_prop in H. destruct H as [H1 H2].
    rewrite string_forall_app, (IH1 H1), (IH2 H2). reflexivity.
  - apply andb_prop in H. apply IH, H.
  - apply andb_prop in H. apply IH, H.
  - rewrite (class_inclusion p P H c Hc). reflexivity.
  - rewrite (class_inclusion p P H c Hc). simpl. apply IH. exact H.
  - apply IH. exact H.
Qed.

(** Every string of [r] holds a character of [Q]. *)
Lemma re_matches_needs_char (Q : ascii -> bool) :
  forall r s, re_matches r s -> needs_char Q r = true ->
              string_exists Q s = true.
Proof.
  induction 1 as [| p c Hc | r1 r2 s1 s2 _ IH1 _ IH2 | r1 r2 s _ IH
                 | r1 r2 s _ IH | p c Hc | p c s Hc _ IH | n r s _ IH];
    simpl; intros H.
  - discriminate H.
  - rewrite (class_inclusion p Q H c Hc). reflexivity.
  - rewrite string_exists_app. apply orb_prop in H.
    destruct H as [H | H]; [rewrite (IH1 H) | rewrite (IH2 H)];
      [reflexivity | apply orb_true_r].
  - apply andb_prop in H. apply IH, H.
  - apply andb_prop in H. apply IH, H.
  - rewrite (class_inclusion p Q H c Hc). reflexivity.
  - rewrite (class_inclusion p Q H c Hc). reflexivity.
  - apply IH. exact H.
Qed.

Section MatcherSound.

Context {A : Type}.

Lemma plus_bt_sound (p : ascii -> bool) :
  forall (s : string) (k : string -> option A) (a : A),
    Re.plus_bt p s k = Some a ->
    exists s1 s2,
      s = s1 ++ s2 /\ re_matches (Re.Plus p) s1 /\ k s2 = Some a.
Proof.
  induction s as [| c s IH]; simpl; intros k a H; [discriminate H |].
  destruct (p c) eqn:Hc; [| discriminate H].
  destruct (Re.plus_bt p s k) as [a' |] eqn:E.
  - inversion H; subst a'. destruct (IH k a E) as [s1 [s2 [-> [Hm Hk]]]].
    exists (String c s1), s2. repeat split; [| exact Hk].
    apply M_PlusMore; assumption.
  - exists (String c EmptyString), s. repeat split; [| exact H].
    apply M_PlusOne. exact Hc.
Qed.

(** The backtracking matcher only finds strings of the language: what it
    consumes before calling its continuation is a string of [r]. *)
Lemma bt_sound :
  forall (r : Re.regex) (s : string) (g : Re.groupdict)
         (k : string -> Re.groupdict -> option A) (a : A),
    Re.bt r s g k = Some a ->
    exists s1 s2 g',
      s = s1 ++ s2 /\ re_matches r s1 /\ k s2 g' = Some a.
Proof.
  induction r as [| p | r1 IH1 r2 IH2 | r1 IH1 r2 IH2 | p | n r IH];
    simpl; intros s g k a H.
  - exists EmptyString, s, g. repeat split; [constructor | exact H].
  - destruct s as [| c s]; [discriminate H |].
    destruct (p c) eqn:Hc; [| discriminate H].
    exists (String c EmptyString), s, g.
    repeat split; [constructor; exact Hc | exact H].
  - destruct (IH1 _ _ _ _ H) as [s1 [s2 [g1 [-> [Hm1 H2]]]]].
    destruct (IH2 _ _ _ _ H2) as [s3 [s4 [g2 [-> [Hm2 Hk]]]]].
    exists (s1 ++ s3), s4, g2. rewrite string_app_assoc.
    repeat split; [constructor; assumption | exact Hk].
  - destruct (Re.bt r1 s g k) as [a' |] eqn:E.
    + inversion H; subst a'.
      destruct (IH1 _ _ _ _ E) as [s1 [s2 [g1 [-> [Hm Hk]]]]].
      exists s1, s2, g1. repeat split; [apply M_AltL; exact Hm | exact Hk].
    + destruct (IH2 _ _ _ _ H) as [s1 [s2 [g1 [-> [Hm Hk]]]]].
      exists s1, s2, g1. repeat split; [apply M_AltR; exact Hm | exact Hk].
  - destruct (plus_bt_sound p s (fun s' => k s' g) a H)
      as [s1 [s2 [-> [Hm Hk]]]].
    exists s1, s2, g. repeat split; assumption.
  - destruct (IH _ _ _ _ H) as [s1 [s2 [g1 [-> [Hm Hk]]]]].
    exists s1, s2, ((n, Re.consumed (s1 ++ s2) s2) :: g1).
    repeat split; [constructor; exact Hm | exact Hk].
Qed.

End MatcherSound.

Lemma rmatch_sound (r : Re.regex) (s : string) (stop : nat)
      (g : Re.groupdict) :
  Re.rmatch r s = Some (stop, g) ->
  exists s1 s2,
    s = s1 ++ s2 /\ re_matches r s1 /\ stop = String.length s1.
Proof.
  unfold Re.rmatch. intros H.
  destruct (bt_sound _ _ _ _ _ H) as [s1 [s2 [g' [-> [Hm Hk]]]]].
  inversion Hk; subst. exists s1, s2. repeat split; [exact Hm |].
  rewrite string_app_length. lia.
Qed.

Lemma search_sound (r : Re.regex) :
  forall s, Re.search r s = true ->
  exists s0 s1 s2, s = s0 ++ s1 ++ s2 /\ re_matches r s1.
Proof.
  induction s as [| c s IH]; simpl; intros H.
  - destruct (Re.rmatch r EmptyString) as [[stop g] |] eqn:E;
      [| discriminate H].
    destruct (rmatch_sound _ _ _ _ E) as [s1 [s2 [Hs [Hm _]]]].
    exists EmptyString, s1, s2. auto.
  - destruct (Re.rmatch r (String c s)) as [[stop g] |] eqn:E.
    + destruct (rmatch_sound _ _ _ _ E) as [s1 [s2 [Hs [Hm _]]]].
      exists EmptyString, s1, s2. auto.
    + destruct (IH H) as [s0 [s1 [s2 [-> Hm]]]].
      exists (String c s0), s1, s2. auto.
Qed.

(** A string that [strptime] accepts under [fmt] is a string of the
    pattern of [fmt], in full. *)
Lemma strptime_sound (data fmt : string) (t : time) :
  Strptime.strptime data fmt = Some t ->
  exists r, Strptime.pattern fmt = Some r /\ re_matches r data.
Proof.
  unfold Strptime.strptime. intros H.
  destruct (Strptime.pattern fmt) as [r |]; [| discriminate H].
  destruct (Re.rmatch r data) as [[stop found] |] eqn:E; [| discriminate H].
  destruct (Nat.eqb stop (String.length data)) eqn:En;
    [| discriminate H].
  apply Nat.eqb_eq in En.
  destruct (rmatch_sound _ _ _ _ E) as [s1 [s2 [Hs [Hm Hstop]]]].
  exists r. split; [reflexivity |].
  assert (s2 = EmptyString) as ->.
  { apply string_length_zero. rewrite Hs, string_app_length in En. lia. }
  rewrite string_app_nil_r in Hs. subst data. exact Hm.
Qed.

Lemma string_forall_not_exists (Q : ascii -> bool) (s : string) :
  string_forall (fun c => negb (Q c)) s = true -> string_exists Q s = false.
Proof.
  induction s as [| c s IH]; simpl; [reflexivity |].
  intros H. apply andb_prop in H. destruct H as [Hc Hs].
  apply negb_true_iff in Hc. rewrite Hc, (IH Hs). reflexivity.
Qed.

Lemma lstrip_forall_inv (P : ascii -> bool) (s : string) :
  (forall c, Str.is_space c = true -> P c = true) ->
  string_forall P (Str.lstrip s) = true -> string_forall P s = true.
Proof.
  intros Hsp. induction s as [| c s IH]; simpl; [reflexivity |].
  destruct (Str.is_space c) eqn:E.
  - intros H. rewrite (Hsp c E), (IH H). reflexivity.
  - simpl. auto.
Qed.

Lemma rstrip_forall_inv (P : ascii -> bool) (s : string) :
  (forall c, Str.is_space c = true -> P c = true) ->
  string_forall P (Str.rstrip s) = true -> string_forall P s = true.
Proof.
  intros Hsp. induction s as [| c s IH]; simpl; [reflexivity |].
  destruct (Str.rstrip s) as [| c' t] eqn:E.
  - destruct (Str.is_space c) eqn:Ec; simpl; intros H.
    + rewrite (Hsp c Ec), (IH eq_refl). reflexivity.
    + rewrite andb_true_r in H. rewrite H, (IH eq_refl). reflexivity.
  - simpl. intros H. apply andb_prop in H. destruct H as [Hc Ht].
    rewrite Hc. apply IH. exact Ht.
Qed.

Lemma strip_forall_inv (P : ascii -> bool) (s : string) :
  (forall c, Str.is_space c = true -> P c = true) ->
  string_forall P (Str.strip s) = true -> string_forall P s = true.
Proof.
  intros Hsp H. apply (lstrip_forall_inv P s Hsp).
  apply (rstrip_forall_inv P _ Hsp). exact H.
Qed.

Lemma parse_time_flex_format (s : string) (t : time) :
  _parse_time_flex (Some s) = Some t ->
  exists fmt, In fmt time_formats
              /\ Strptime.strptime (Str.strip s) fmt = Some t.
Proof.
  rewrite parse_time_flex_try. intros H.
  apply try_formats_some in H. destruct H as [i [fmt [Hn [Hs _]]]].
  exists fmt. split; [apply (nth_error_In _ _ Hn) | exact Hs].
Qed.

(** A string that parses as a clock time is made of characters of [P],
    when the patterns of the four formats and white space are. *)
Lemma parse_time_flex_chars (P : ascii -> bool) (s : string) (t : time) :
  forallb (format_only_chars P) time_formats = true ->
  forallb (fun c => implb (Str.is_space c) (P c)) all_ascii = true ->
  _parse_time_flex (Some s) = Some t ->
  string_forall P (Str.strip s) = true /\ string_forall P s = true.
Proof.
  intros Hfmt Hsp H.
  destruct (parse_time_flex_format s t H) as [fmt [Hin Hs]].
  destruct (strptime_sound _ _ _ Hs) as [r [Hr Hm]].
  rewrite forallb_forall in Hfmt. specialize (Hfmt fmt Hin).
  unfold format_only_chars in Hfmt. rewrite Hr in Hfmt.
  pose proof (re_matches_only_chars P r _ Hm Hfmt) as Hall.
  split; [exact Hall |].
  apply strip_forall_inv; [| exact Hall].
  apply class_inclusion. exact Hsp.
Qed.

Lemma search_date_needs_sep (s : string) :
  Re.search _DATE_RE s = true -> string_exists is_date_sep s = true.
Proof.
  intros H. destruct (search_sound _ _ H) as [s0 [s1 [s2 [-> Hm]]]].
  rewrite !string_exists_app.
  rewrite (re_matches_needs_char is_date_sep _ _ Hm)
    by (vm_compute; reflexivity).
  rewrite orb_true_r. reflexivity.
Qed.

(** X14.  A string that [_parse_time_flex] reads as a clock time never
    holds the date pattern, stripped or not: the four formats consume no
    [-] and no [/], which every match of [_DATE_RE] needs.  So a row with
    a date pattern has no clock time, and the order in which steps 5 to 7
    test an update field does not change its class. *)
Theorem clock_times_hold_no_date_pattern :
  (forall (s : string) (t : time),
      _parse_time_flex (Some s) = Some t ->
      Re.search _DATE_RE s = false
      /\ Re.search _DATE_RE (Str.strip s) = false)
  /\ (forall r : Row, has_date r = true -> parsed_time r = None).
Proof.
  assert (forall (s : string) (t : time),
             _parse_time_flex (Some s) = Some t ->
             Re.search _DATE_RE s = false
             /\ Re.search _DATE_RE (Str.strip s) = false) as Hmain.
  { intros s t H.
    destruct (parse_time_flex_chars not_date_sep s t) as [H1 H2];
      [vm_compute; reflexivity | vm_compute; reflexivity | exact H |].
    apply string_forall_not_exists in H1, H2. split.
    - destruct (Re.search _DATE_RE s) eqn:E; [| reflexivity].
      rewrite (search_date_needs_sep s E) in H2. discriminate H2.
    - destruct (Re.search _DATE_RE (Str.strip s)) eqn:E; [| reflexivity].
      rewrite (search_date_needs_sep _ E) in H1. discriminate H1. }
  split; [exact Hmain |].
  intros r Hd. unfold has_date in Hd. unfold parsed_time.
  destruct (lastupdt r) as [s |]; [| discriminate Hd].
  destruct (_parse_time_flex (Some s)) as [t |] eqn:E; [| reflexivity].
  destruct (Hmain s t E) as [Hs _]. congruence.
Qed.

Lemma clock_times_hold_no_date_pattern_witness :
  Re.search _DATE_RE " 7:05 pm" = false
  /\ Re.search _DATE_RE (Str.strip " 7:05 pm") = false.
Proof.
  apply (proj1 clock_times_hold_no_date_pattern " 7:05 pm" (mk_time 19 5 0)).
  vm_compute. reflexivity.
Defined.

(* ===================================================================== *)
(** ** Blank rows and repeated header rows *)
(* ===================================================================== *)

Lemma rstrip_no_space (s : string) :
  string_exists Str.is_space s = false -> Str.rstrip s = s.
Proof.
  induction s as [| c s IH]; simpl; [reflexivity |].
  intros H. apply orb_false_elim in H. destruct H as [Hc Hs].
  rewrite (IH Hs), Hc. destruct s; reflexivity.
Qed.

Lemma strip_no_space (s : string) :
  string_exists Str.is_space s = false -> Str.strip s = s.
Proof.
  intros H. unfold Str.strip.
  assert (Str.lstrip s = s) as ->.
  { destruct s as [| c s]; [reflexivity |]. simpl in *.
    apply orb_false_elim in H. destruct H as [-> _]. reflexivity. }
  apply rstrip_no_space. exact H.
Qed.

(** What [strip] removes is white space on either side. *)
Lemma lstrip_decompose (k : string) :
  exists pre, k = pre ++ Str.lstrip k /\ all_space pre.
Proof.
  induction k as [| c k [pre [E Hpre]]]; simpl.
  - exists EmptyString. split; reflexivity.
  - destruct (Str.is_space c) eqn:Hc.
    + exists (String c pre). simpl. split; [f_equal; exact E |].
      unfold all_space in *. simpl. rewrite Hc, Hpre. reflexivity.
    + exists EmptyString. split; reflexivity.
Qed.

Lemma rstrip_decompose (s : string) :
  exists post, s = Str.rstrip s ++ post /\ all_space post.
Proof.
  induction s as [| c s [post [E Hpost]]]; simpl.
  - exists EmptyString. split; reflexivity.
  - destruct (Str.rstrip s) as [| c' t] eqn:Er.
    + simpl in E. subst post. destruct (Str.is_space c) eqn:Hc.
      * exists (String c s). split; [reflexivity |].
        unfold all_space in *. simpl. rewrite Hc, Hpost. reflexivity.
      * exists s. split; [reflexivity | exact Hpost].
    + exists post. split; [| exact Hpost].
      simpl. f_equal. exact E.
Qed.

Lemma strip_decompose (k : string) :
  exists pre post, k = pre ++ Str.strip k ++ post
                   /\ all_space pre /\ all_space post.
Proof.
  destruct (lstrip_decompose k) as [pre [E1 Hpre]].
  destruct (rstrip_decompose (Str.lstrip k)) as [post [E2 Hpost]].
  exists pre, post. unfold Str.strip. rewrite <- E2. auto.
Qed.

Lemma strip_empty_iff (k : string) :
  Str.strip k = EmptyString <-> all_space k.
Proof.
  split.
  - intros H. unfold all_space.
    apply (strip_forall_inv Str.is_space k); [auto |].
    rewrite H. reflexivity.
  - intros H. unfold Str.strip. rewrite (lstrip_all_space k H). reflexivity.
Qed.

(** [lower] on one character: a small letter comes from itself and from
    its capital only, and neither is white space. *)
Lemma lower_char_small (c n : ascii) :
  is_small n = true ->
  (Str.lower_char c = n <-> c = n \/ c = capital n)
  /\ (c = n \/ c = capital n -> Str.is_space c = false).
Proof.
  intros Hn.
  assert (forallb (fun n => forallb (fun c =>
            implb (is_small n)
              (Bool.eqb (Ascii.eqb (Str.lower_char c) n)
                        (Ascii.eqb c n || Ascii.eqb c (capital n))
               && implb (Ascii.eqb c n || Ascii.eqb c (capital n))
                        (negb (Str.is_space c))))
            all_ascii) all_ascii = true) as H
      by (vm_compute; reflexivity).
  rewrite forallb_forall in H.
  specialize (H n (all_ascii_complete n)). rewrite forallb_forall in H.
  specialize (H c (all_ascii_complete c)). rewrite Hn in H. simpl in H.
  apply andb_prop in H. destruct H as [H1 H2].
  apply Bool.eqb_prop in H1.
  assert (Ascii.eqb c n || Ascii.eqb c (capital n) = true
          <-> c = n \/ c = capital n) as Hor.
  { rewrite orb_true_iff, !Ascii.eqb_eq. reflexivity. }
  split.
  - rewrite <- Hor, <- H1. symmetry. apply Ascii.eqb_eq.
  - intros Hc. apply Hor in Hc. rewrite Hc in H2. simpl in H2.
    apply negb_true_iff in H2. exact H2.
Qed.

Lemma lower_spells (name : string) :
  string_forall is_small name = true ->
  forall core, Str.lower core = name <-> spells core name.
Proof.
  induction name as [| n name IH]; intros Hn core.
  - destruct core; simpl; split; intros H;
      try reflexivity; try exact I; try discriminate H; destruct H.
  - simpl in Hn. apply andb_prop in Hn. destruct Hn as [Hn Hname].
    destruct core as [| c core]; simpl.
    + split; [discriminate | intros []].
    + destruct (lower_char_small c n Hn) as [Hc _].
      rewrite <- Hc, <- (IH Hname core). split.
      * intros H. inversion H. auto.
      * intros [-> ->]. reflexivity.
Qed.

Lemma spells_no_space (name : string) :
  string_forall is_small name = true ->
  forall core, spells core name ->
               string_exists Str.is_space core = false.
Proof.
  induction name as [| n name IH]; intros Hn core H.
  - destruct core; [reflexivity | destruct H].
  - simpl in Hn. apply andb_prop in Hn. destruct Hn as [Hn Hname].
    destruct core as [| c core]; [destruct H |].
    simpl in H. destruct H as [Hc Hs]. simpl.
    destruct (lower_char_small c n Hn) as [_ Hsp].
    rewrite (Hsp Hc), (IH Hname core Hs). reflexivity.
Qed.

(** The test on the stripped, lower-cased flight key, in terms of the
    text of the key. *)
Lemma header_name_iff (name k : string) :
  string_forall is_small name = true ->
  Str.lower (Str.strip k) = name <-> header_name name k.
Proof.
  intros Hn. split.
  - intros H. destruct (strip_decompose k) as [pre [post [E [Hpre Hpost]]]].
    exists pre, (Str.strip k), post.
    repeat split; try assumption. apply (lower_spells name Hn). exact H.
  - intros [pre [core [post [-> [Hpre [Hpost Hs]]]]]].
    rewrite (strip_padded pre core post Hpre Hpost).
    rewrite (strip_no_space core (spells_no_space name Hn core Hs)).
    apply (lower_spells name Hn). exact Hs.
Qed.

Lemma data_key_iff (k : string) :
  data_key k <-> ~ all_space k /\ ~ header_name "flightkey" k.
Proof.
  unfold data_key.
  rewrite strip_empty_iff, (header_name_iff "flightkey" k eq_refl).
  reflexivity.
Qed.

Lemma field_all_space (cols fields : list string) (c : string) :
  Forall all_space fields -> all_space (field cols fields c).
Proof.
  intros H. unfold field.
  destruct (index_of c cols) as [i |]; [| reflexivity].
  destruct (nth_in_or_default i fields EmptyString) as [Hin | ->];
    [| reflexivity].
  rewrite Forall_forall in H. apply H. exact Hin.
Qed.

(** C7.  A row of the file whose fields are all white space or empty, or
    whose flight-key field is white space or empty, or is the column name
    [flightkey] in any letter case with or without white space around it,
    is not among the loaded rows; this holds of a row equal to the
    header; and the flight key of no row of the returned frame is blank
    or such a spelling of the column name.  On the input
    [Cases.stray_rows] the loaded rows are the last three. *)
Theorem blank_and_header_rows_are_dropped :
  (forall (pd : Pandas) (csv : Csv),
      (forall df i fields,
          load_validate pd csv = Ok df ->
          nth_error (data csv) i = Some fields ->
          Forall all_space fields
          \/ all_space (field (columns csv) fields "flightkey")
          \/ header_name "flightkey" (field (columns csv) fields "flightkey") ->
          forall r, In r df -> index r <> i)
      /\ (forall df i,
            load_validate pd csv = Ok df ->
            nth_error (data csv) i = Some (columns csv) ->
            forall r, In r df -> index r <> i)
      /\ (forall on_missing out log,
            most_recent_flights_csv pd csv on_missing = Ok (out, log) ->
            forall o, In o (out_rows out) ->
              ~ all_space (out_flightkey o)
              /\ ~ header_name "flightkey" (out_flightkey o)))
  /\ map (fun r => (index r, flightkey r)) (Tests.loaded Cases.stray_rows)
     = [(5%nat, "K6"); (6%nat, " k7 "); (7%nat, "flightkeys")]
  /\ map out_flightkey (out_rows (Tests.output Cases.stray_rows "drop"))
     = [" k7 "; "K6"; "flightkeys"].
Proof.
  split; [| split; vm_compute; reflexivity].
  intros pd csv.
  assert (forall df i fields,
             load_validate pd csv = Ok df ->
             nth_error (data csv) i = Some fields ->
             Forall all_space fields
             \/ all_space (field (columns csv) fields "flightkey")
             \/ header_name "flightkey"
                            (field (columns csv) fields "flightkey") ->
             forall r, In r df -> index r <> i) as Hdrop.
  { intros df i fields Hdf Hn Hcase r Hr Hi.
    destruct (load_validate_in pd _ _ _ Hdf Hr) as [f [Hf [Hk _]]].
    rewrite Hi, Hn in Hf. inversion Hf; subst f.
    apply keep_row_data_key in Hk. simpl in Hk.
    apply data_key_iff in Hk. destruct Hk as [Hk1 Hk2].
    destruct Hcase as [Hblank | [Hblank | Hhdr]].
    - apply Hk1. apply field_all_space. exact Hblank.
    - apply Hk1. exact Hblank.
    - apply Hk2. exact Hhdr. }
  split; [exact Hdrop |]. split.
  - intros df i Hdf Hn. apply (Hdrop df i (columns csv) Hdf Hn).
    right. right. rewrite field_header.
    + exists EmptyString, "flightkey", EmptyString.
      repeat split; auto.
    + apply isin_in.
      destruct (load_validate_ok pd _ _ Hdf) as [Hv _].
      apply (validate_ok _ Hv). left. reflexivity.
  - intros on_missing out log H o Ho.
    destruct (output_row_origin pd _ _ _ _ _ H Ho)
      as [df [batch [r [r0 [Hdf [_ [_ [-> [Hr0 ->]]]]]]]]].
    change (~ all_space
              (flightkey (resolved_row (dated_parser pd df) on_missing r0))
            /\ ~ header_name "flightkey"
                 (flightkey (resolved_row (dated_parser pd df)
                                          on_missing r0))).
    destruct (resolved_row_base (dated_parser pd df) on_missing r0)
      as [_ [-> _]].
    apply data_key_iff.
    apply (load_validate_row pd _ _ _ Hdf Hr0).
Qed.

Lemma blank_and_header_rows_are_dropped_witness :
  (forall r, In r (Tests.loaded Cases.stray_rows) -> index r <> 0%nat)
  /\ (forall r, In r (Tests.loaded Cases.stray_rows) -> index r <> 2%nat)
  /\ (forall r, In r (Tests.loaded Cases.stray_rows) -> index r <> 3%nat)
  /\ (forall o, In o (out_rows (Tests.output Cases.stray_rows "drop")) ->
                ~ all_space (out_flightkey o)
                /\ ~ header_name "flightkey" (out_flightkey o)).
Proof.
  pose proof (proj1 blank_and_header_rows_are_dropped
                    Iso.pandas Cases.stray_rows) as [Hdrop [_ Hout]].
  split; [| split; [| split]].
  - apply (Hdrop (Tests.loaded Cases.stray_rows) 0%nat
                 [" FlightKey "; "FlightNum"; "Flight_Dt"; "Orig_Arpt";
                  "Dest_Arpt"; "FlightStatus"; "LastUpdt"]).
    + vm_compute. reflexivity.
    + reflexivity.
    + right. right. exists " ", "FlightKey", " ".
      split; [reflexivity |]. split; [reflexivity |].
      split; [reflexivity |]. vm_compute. repeat split; auto.
  - apply (Hdrop (Tests.loaded Cases.stray_rows) 2%nat
                 [EmptyString; EmptyString; EmptyString; EmptyString;
                  EmptyString; EmptyString; EmptyString]).
    + vm_compute. reflexivity.
    + reflexivity.
    + left. repeat constructor.
  - apply (Hdrop (Tests.loaded Cases.stray_rows) 3%nat
                 ["  "; " "; " "; " "; " "; " "; " "]).
    + vm_compute. reflexivity.
    + reflexivity.
    + left. repeat constructor.
  - apply (Hout "drop" (Tests.output Cases.stray_rows "drop")
                (Tests.log Cases.stray_rows "drop")).
    vm_compute. reflexivity.
Defined.

(** X3.  When loading succeeds, the loaded rows are, in the order of the
    file, exactly the rows whose flight key is neither white space or
    empty nor the column name [flightkey] in some letter case, padded or
    not; a loaded row has the flight key of its row of the file as it is
    written there, white space around it included. *)
Theorem loader_keeps_exactly_the_keyed_rows :
  forall (pd : Pandas) (csv : Csv) (df : list Row),
    load_validate pd csv = Ok df ->
    increasing index df
    /\ forall i fields,
        nth_error (data csv) i = Some fields ->
        ((exists r, In r df /\ index r = i)
         <-> ~ all_space (field (columns csv) fields "flightkey")
             /\ ~ header_name "flightkey"
                  (field (columns csv) fields "flightkey"))
        /\ forall r, In r df -> index r = i ->
             flightkey r = field (columns csv) fields "flightkey".
Proof.
  intros pd csv df Hdf.
  split; [apply (load_validate_increasing pd csv); exact Hdf |].
  intros i fields Hn.
  destruct (load_validate_ok pd _ _ Hdf) as [Hv HF].
  assert (Str.isin "flightkey" (columns csv) = true) as Hc
      by (apply (validate_ok _ Hv); left; reflexivity).
  split.
  - rewrite <- data_key_iff. split.
    + intros [r [Hr Hi]].
      destruct (load_validate_in pd _ _ _ Hdf Hr) as [f [Hf [Hk _]]].
      rewrite Hi, Hn in Hf. inversion Hf; subst f.
      apply keep_row_iff in Hk. exact Hk.
    + intros Hk.
      assert (In (i, fields) (load csv)) as Ha by (apply load_in_iff; auto).
      destruct (Forall2_in_l _ _ _ HF _ Ha) as [r [Hr Ht]].
      exists r. split; [exact Hr |]. apply typed_row_ok in Ht. apply Ht.
  - intros r Hr Hi.
    destruct (load_validate_in pd _ _ _ Hdf Hr) as [f [Hf [_ Ht]]].
    rewrite Hi, Hn in Hf. inversion Hf; subst f.
    apply typed_row_ok in Ht. apply Ht.
Qed.

Lemma loader_keeps_exactly_the_keyed_rows_witness :
  increasing index (Tests.loaded Cases.stray_rows)
  /\ forall i fields,
      nth_error (data Cases.stray_rows) i = Some fields ->
      ((exists r, In r (Tests.loaded Cases.stray_rows) /\ index r = i)
       <-> ~ all_space (field (columns Cases.stray_rows) fields "flightkey")
           /\ ~ header_name "flightkey"
                (field (columns Cases.stray_rows) fields "flightkey"))
      /\ forall r, In r (Tests.loaded Cases.stray_rows) -> index r = i ->
           flightkey r = field (columns Cases.stray_rows) fields "flightkey".
Proof.
  apply (loader_keeps_exactly_the_keyed_rows Iso.pandas Cases.stray_rows).
  vm_compute. reflexivity.
Defined.

(* ===================================================================== *)
(** ** Further properties: clock strings *)
(* ===================================================================== *)

(** *** The fields of a clock string, one directive at a time *)

Lemma pattern_HMS :
  Strptime.pattern "%H:%M:%S"
  = Some (Re.Seq (dir_re "H") (Re.Seq (Re.lit_i ":")
            (Re.Seq (dir_re "M") (Re.Seq (Re.lit_i ":")
               (Re.Seq (dir_re "S") Re.Eps))))).
Proof. reflexivity. Qed.

Lemma consumed_two (c1 c2 : ascii) (s : string) :
  Re.consumed (String c1 (String c2 s)) s = String c1 (String c2 EmptyString).
Proof.
  unfold Re.consumed. simpl String.length.
  replace (S (S (String.length s)) - String.length s)%nat with 2%nat by lia.
  simpl. destruct s; reflexivity.
Qed.

(** A two-digit field in range is taken whole by its directive, whatever
    follows it. *)
Section Fields.
Context {A : Type}.

Lemma bt_colon (tail : string) (g : Re.groupdict)
      (K : string -> Re.groupdict -> option A) (a : A) :
  K tail g = Some a -> Re.bt (Re.lit_i ":") (String ":" tail) g K = Some a.
Proof. intros H. exact H. Qed.

Ltac field_case HK :=
  match type of HK with
  | context [two_digits ?n] =>
      let x := eval vm_compute in (two_digits n) in
      change (two_digits n) with x in HK |- *
  end;
  cbn -[Re.consumed];
  rewrite ?consumed_two; rewrite HK; reflexivity.

Ltac field_cases Hin HK :=
  vm_compute in Hin;
  repeat (destruct Hin as [<- | Hin]; [ field_case HK | ]);
  contradiction.

Lemma bt_dir_M (m : Z) (tail : string) (g : Re.groupdict)
      (K : string -> Re.groupdict -> option A) (a : A) :
  0 <= m < 60 ->
  K tail (("M"%char, two_digits m) :: g) = Some a ->
  Re.bt (dir_re "M") (two_digits m ++ tail) g K = Some a.
Proof.
  intros Hm HK. pose proof (upto_in 60 m Hm) as Hin. clear Hm.
  field_cases Hin HK.
Qed.

Lemma bt_dir_S (m : Z) (tail : string) (g : Re.groupdict)
      (K : string -> Re.groupdict -> option A) (a : A) :
  0 <= m < 60 ->
  K tail (("S"%char, two_digits m) :: g) = Some a ->
  Re.bt (dir_re "S") (two_digits m ++ tail) g K = Some a.
Proof.
  intros Hm HK. pose proof (upto_in 60 m Hm) as Hin. clear Hm.
  field_cases Hin HK.
Qed.

Lemma bt_dir_H (m : Z) (tail : string) (g : Re.groupdict)
      (K : string -> Re.groupdict -> option A) (a : A) :
  0 <= m < 24 ->
  K tail (("H"%char, two_digits m) :: g) = Some a ->
  Re.bt (dir_re "H") (two_digits m ++ tail) g K = Some a.
Proof.
  intros Hm HK. pose proof (upto_in 24 m Hm) as Hin. clear Hm.
  field_cases Hin HK.
Qed.
End Fields.

Lemma int_two_digits (n : Z) : 0 <= n < 100 -> Str.int (two_digits n) = n.
Proof.
  intros Hn.
  assert (forallb (fun n => Str.int (two_digits n) =? n) (upto 100) = true)
    as H by (vm_compute; reflexivity).
  rewrite forallb_forall in H. apply Z.eqb_eq. apply H.
  apply upto_in. lia.
Qed.

Lemma two_digits_no_space (n : Z) :
  0 <= n < 100 -> string_exists Str.is_space (two_digits n) = false.
Proof.
  intros Hn.
  assert (forallb (fun n => negb (string_exists Str.is_space (two_digits n)))
                  (upto 100) = true)
    as H by (vm_compute; reflexivity).
  rewrite forallb_forall in H. apply negb_true_iff. apply H.
  apply upto_in. lia.
Qed.

Lemma rmatch_HMS (h m s : Z) :
  0 <= h < 24 -> 0 <= m < 60 -> 0 <= s < 60 ->
  Re.rmatch (Re.Seq (dir_re "H") (Re.Seq (Re.lit_i ":")
               (Re.Seq (dir_re "M") (Re.Seq (Re.lit_i ":")
                  (Re.Seq (dir_re "S") Re.Eps)))))
            (clock24 h m s)
  = Some (String.length (clock24 h m s),
          [("S"%char, two_digits s); ("M"%char, two_digits m);
           ("H"%char, two_digits h)]).
Proof.
  intros Hh Hm Hs. unfold Re.rmatch, clock24.
  cbn [Re.bt].
  apply bt_dir_H; [exact Hh |].
  change (":" ++ ?x) with (String ":" x). apply bt_colon.
  apply bt_dir_M; [exact Hm |].
  change (":" ++ ?x) with (String ":" x). apply bt_colon.
  rewrite <- (string_app_nil_r (two_digits s)) at 1.
  apply bt_dir_S; [exact Hs |].
  simpl String.length at 2. rewrite Nat.sub_0_r. reflexivity.
Qed.

Lemma strptime_HMS (h m s : Z) :
  0 <= h < 24 -> 0 <= m < 60 -> 0 <= s < 60 ->
  Strptime.strptime (clock24 h m s) "%H:%M:%S" = Some (mk_time h m s).
Proof.
  intros Hh Hm Hs. unfold Strptime.strptime.
  rewrite pattern_HMS, (rmatch_HMS h m s Hh Hm Hs), Nat.eqb_refl.
  cbn [negb].
  unfold Strptime.found_hour, Strptime.found_or_zero, Strptime.group_int.
  cbn [Re.get Ascii.eqb Bool.eqb andb option_map].
  rewrite !int_two_digits by lia.
  destruct Hh as [Hh1 Hh2], Hm as [Hm1 Hm2], Hs as [Hs1 Hs2].
  apply Z.leb_le in Hh1, Hm1, Hs1. apply Z.ltb_lt in Hh2, Hm2, Hs2.
  rewrite Hh1, Hh2, Hm1, Hm2, Hs1, Hs2. reflexivity.
Qed.

Lemma clock24_no_space (h m s : Z) :
  0 <= h < 24 -> 0 <= m < 60 -> 0 <= s < 60 ->
  string_exists Str.is_space (clock24 h m s) = false.
Proof.
  intros Hh Hm Hs. unfold clock24. rewrite !string_exists_app.
  rewrite !two_digits_no_space by lia. reflexivity.
Qed.

Lemma parse_clock24 (h m s : Z) :
  0 <= h < 24 -> 0 <= m < 60 -> 0 <= s < 60 ->
  _parse_time_flex (Some (clock24 h m s)) = Some (mk_time h m s).
Proof.
  intros Hh Hm Hs. rewrite parse_time_flex_try.
  rewrite strip_no_space by (apply clock24_no_space; assumption).
  unfold time_formats, try_formats.
  rewrite (strptime_HMS h m s Hh Hm Hs). reflexivity.
Qed.

(** A format fails on a string with fewer characters of a kind than its
    pattern needs, and on a string with a character outside its pattern. *)
Lemma string_count_app (Q : ascii -> bool) (a b : string) :
  string_count Q (a ++ b) = (string_count Q a + string_count Q b)%nat.
Proof.
  induction a as [| x a IH]; simpl; [reflexivity |]. rewrite IH. lia.
Qed.

Lemma min_chars_class (Q p : ascii -> bool) (c : ascii) :
  p c = true ->
  ((if forallb (fun c => implb (p c) (Q c)) all_ascii then 1 else 0)
   <= (if Q c then 1 else 0))%nat.
Proof.
  intros Hc.
  destruct (forallb (fun c => implb (p c) (Q c)) all_ascii) eqn:E; [| lia].
  rewrite (class_inclusion p Q E c Hc). lia.
Qed.

Lemma re_matches_min_chars (Q : ascii -> bool) :
  forall r s, re_matches r s -> (min_chars Q r <= string_count Q s)%nat.
Proof.
  induction 1 as [| p c Hc | r1 r2 s1 s2 _ IH1 _ IH2 | r1 r2 s _ IH
                 | r1 r2 s _ IH | p c Hc | p c s Hc _ IH | n r s _ IH];
    cbn [min_chars string_count] in *.
  - lia.
  - pose proof (min_chars_class Q p c Hc). lia.
  - rewrite string_count_app. lia.
  - lia.
  - lia.
  - pose proof (min_chars_class Q p c Hc). lia.
  - pose proof (min_chars_class Q p c Hc). lia.
  - exact IH.
Qed.

Lemma strptime_needs_two_colons (data fmt : string) :
  In fmt ["%H:%M:%S"; "%I:%M:%S %p"] ->
  (string_count is_colon data < 2)%nat ->
  Strptime.strptime data fmt = None.
Proof.
  intros Hin Hc.
  destruct (Strptime.strptime data fmt) as [t |] eqn:E; [| reflexivity].
  destruct (strptime_sound _ _ _ E) as [r [Hr Hm]].
  pose proof (re_matches_min_chars is_colon _ _ Hm) as Hmin.
  assert (format_min_chars is_colon fmt = 2%nat) as Hr2
      by (destruct Hin as [<- | [<- | []]]; vm_compute; reflexivity).
  unfold format_min_chars in Hr2. rewrite Hr in Hr2. lia.
Qed.

Lemma strptime_24_hour_chars (data fmt : string) :
  In fmt ["%H:%M:%S"; "%H:%M"] ->
  string_forall digit_or_colon data = false ->
  Strptime.strptime data fmt = None.
Proof.
  intros Hin Hno.
  destruct (Strptime.strptime data fmt) as [t |] eqn:E; [| reflexivity].
  destruct (strptime_sound _ _ _ E) as [r [Hr Hm]].
  assert (format_only_chars digit_or_colon fmt = true) as Ho
      by (destruct Hin as [<- | [<- | []]]; vm_compute; reflexivity).
  unfold format_only_chars in Ho. rewrite Hr in Ho.
  rewrite (re_matches_only_chars _ _ _ Hm Ho) in Hno. discriminate Hno.
Qed.

Lemma consumed_one (c1 : ascii) (s : string) :
  Re.consumed (String c1 s) s = String c1 EmptyString.
Proof.
  unfold Re.consumed. simpl String.length.
  replace (S (String.length s) - String.length s)%nat with 1%nat by lia.
  simpl. destruct s; reflexivity.
Qed.

Lemma pattern_HM :
  Strptime.pattern "%H:%M"
  = Some (Re.Seq (dir_re "H") (Re.Seq (Re.lit_i ":")
            (Re.Seq (dir_re "M") Re.Eps))).
Proof. reflexivity. Qed.

Lemma pattern_IMSp :
  Strptime.pattern "%I:%M:%S %p"
  = Some (Re.Seq (dir_re "I") (Re.Seq (Re.lit_i ":")
            (Re.Seq (dir_re "M") (Re.Seq (Re.lit_i ":")
               (Re.Seq (dir_re "S")
                  (Re.Seq (Re.Plus Str.is_space)
                     (Re.Seq (dir_re "p") Re.Eps))))))).
Proof. reflexivity. Qed.

Lemma pattern_IMp :
  Strptime.pattern "%I:%M %p"
  = Some (Re.Seq (dir_re "I") (Re.Seq (Re.lit_i ":")
            (Re.Seq (dir_re "M")
               (Re.Seq (Re.Plus Str.is_space)
                  (Re.Seq (dir_re "p") Re.Eps))))).
Proof. reflexivity. Qed.

(** The 12-hour field takes the hour, padded or not, when a colon
    follows; the meridiem ends the string. *)
Section Hours.
Context {A : Type}.

Ltac hour_case HK :=
  match type of HK with
  | context [?f ?n] =>
      match f with
      | two_digits => idtac
      | no_padding => idtac
      end;
      let x := eval vm_compute in (f n) in
      change (f n) with x in HK |- *
  end;
  cbn -[Re.consumed];
  rewrite ?consumed_two, ?consumed_one; rewrite HK; reflexivity.

Lemma bt_dir_I (hour_text : Z -> string) (h : Z) (tail : string)
      (g : Re.groupdict) (K : string -> Re.groupdict -> option A) (a : A) :
  hour_text = two_digits \/ hour_text = no_padding ->
  1 <= h <= 12 ->
  K (String ":" tail) (("I"%char, hour_text h) :: g) = Some a ->
  Re.bt (dir_re "I") (hour_text h ++ String ":" tail) g K = Some a.
Proof.
  intros Hht Hh HK.
  assert (0 <= h < Z.of_nat 13) as Hh' by lia.
  pose proof (upto_in 13 h Hh') as Hin. clear Hh'.
  vm_compute in Hin.
  destruct Hin as [<- | Hin]; [exfalso; lia |]. clear Hh.
  destruct Hht as [-> | ->];
    repeat (destruct Hin as [<- | Hin]; [ hour_case HK | ]);
    contradiction.
Qed.

Lemma bt_space_meridiem (meridiem : string) (pm : bool)
      (g : Re.groupdict) (K : string -> Re.groupdict -> option A) (a : A) :
  In (meridiem, pm) [("AM", false); ("am", false);
                     ("PM", true); ("pm", true)] ->
  K EmptyString (("p"%char, meridiem) :: g) = Some a ->
  Re.bt (Re.Seq (Re.Plus Str.is_space) (Re.Seq (dir_re "p") Re.Eps))
        (" " ++ meridiem) g K = Some a.
Proof.
  intros Hin HK. simpl in Hin.
  repeat (destruct Hin as [Hin | Hin];
          [ inversion Hin; subst meridiem pm;
            cbn -[Re.consumed]; rewrite ?consumed_two; rewrite HK;
            reflexivity | ]).
  contradiction.
Qed.

End Hours.

Lemma rmatch_HM (h m : Z) :
  0 <= h < 24 -> 0 <= m < 60 ->
  Re.rmatch (Re.Seq (dir_re "H") (Re.Seq (Re.lit_i ":")
               (Re.Seq (dir_re "M") Re.Eps)))
            (clock24_short h m)
  = Some (String.length (clock24_short h m),
          [("M"%char, two_digits m); ("H"%char, two_digits h)]).
Proof.
  intros Hh Hm. unfold Re.rmatch, clock24_short.
  cbn [Re.bt].
  apply bt_dir_H; [exact Hh |].
  change (":" ++ ?x) with (String ":" x). apply bt_colon.
  rewrite <- (string_app_nil_r (two_digits m)) at 1.
  apply bt_dir_M; [exact Hm |].
  simpl String.length at 2. rewrite Nat.sub_0_r. reflexivity.
Qed.

Lemma range_checks (h m s : Z) :
  0 <= h < 24 -> 0 <= m < 60 -> 0 <= s < 60 ->
  (0 <=? h) && (h <? 24) && (0 <=? m) && (m <? 60)
  && (0 <=? s) && (s <? 60) = true.
Proof.
  intros [Hh1 Hh2] [Hm1 Hm2] [Hs1 Hs2].
  apply Z.leb_le in Hh1, Hm1, Hs1. apply Z.ltb_lt in Hh2, Hm2, Hs2.
  rewrite Hh1, Hh2, Hm1, Hm2, Hs1, Hs2. reflexivity.
Qed.

Lemma strptime_HM (h m : Z) :
  0 <= h < 24 -> 0 <= m < 60 ->
  Strptime.strptime (clock24_short h m) "%H:%M" = Some (mk_time h m 0).
Proof.
  intros Hh Hm. unfold Strptime.strptime.
  rewrite pattern_HM, (rmatch_HM h m Hh Hm), Nat.eqb_refl.
  cbn [negb].
  unfold Strptime.found_hour, Strptime.found_or_zero, Strptime.group_int.
  cbn [Re.get Ascii.eqb Bool.eqb andb option_map].
  rewrite !int_two_digits by lia.
  rewrite (range_checks h m 0) by lia. reflexivity.
Qed.

Lemma two_digits_no_colon (n : Z) :
  0 <= n < 100 -> string_count is_colon (two_digits n) = O.
Proof.
  intros Hn.
  assert (forallb (fun n => Nat.eqb (string_count is_colon (two_digits n)) 0)
                  (upto 100) = true)
    as H by (vm_compute; reflexivity).
  rewrite forallb_forall in H. apply Nat.eqb_eq. apply H.
  apply upto_in. lia.
Qed.

Lemma parse_clock24_short (h m : Z) :
  0 <= h < 24 -> 0 <= m < 60 ->
  _parse_time_flex (Some (clock24_short h m)) = Some (mk_time h m 0).
Proof.
  intros Hh Hm. rewrite parse_time_flex_try.
  rewrite strip_no_space.
  - unfold time_formats, try_formats.
    rewrite (strptime_needs_two_colons (clock24_short h m) "%H:%M:%S").
    + rewrite (strptime_HM h m Hh Hm). reflexivity.
    + simpl. auto.
    + unfold clock24_short. rewrite !string_count_app.
      rewrite !two_digits_no_colon by lia. simpl. lia.
  - unfold clock24_short. rewrite !string_exists_app.
    rewrite !two_digits_no_space by lia. reflexivity.
Qed.

(** *** The 12-hour formats *)

Lemma hour_text_facts (hour_text : Z -> string) (h : Z) :
  hour_text = two_digits \/ hour_text = no_padding ->
  0 <= h < 100 ->
  Str.int (hour_text h) = h
  /\ string_exists Str.is_space (hour_text h) = false
  /\ hour_text h <> EmptyString
  /\ string_count is_colon (hour_text h) = O.
Proof.
  intros Hht Hh.
  assert (forallb (fun ht => forallb (fun n =>
            (Str.int (ht n) =? n)
            && negb (string_exists Str.is_space (ht n))
            && negb (Str.is_empty (ht n))
            && Nat.eqb (string_count is_colon (ht n)) 0)
            (upto 100)) [two_digits; no_padding] = true) as H
      by (vm_compute; reflexivity).
  rewrite forallb_forall in H.
  assert (In hour_text [two_digits; no_padding]) as Hin
      by (destruct Hht as [-> | ->]; simpl; auto).
  specialize (H hour_text Hin). rewrite forallb_forall in H.
  specialize (H h (upto_in 100 h Hh)).
  apply andb_prop in H. destruct H as [H H4].
  apply andb_prop in H. destruct H as [H H3].
  apply andb_prop in H. destruct H as [H1 H2].
  apply Z.eqb_eq in H1. apply negb_true_iff in H2, H3.
  apply Nat.eqb_eq in H4. repeat split; try assumption.
  intros E. rewrite E in H3. discriminate H3.
Qed.

Lemma lstrip_keep (x y : string) :
  string_exists Str.is_space x = false -> x <> EmptyString ->
  Str.lstrip (x ++ y) = x ++ y.
Proof.
  destruct x as [| c x]; [contradiction |]. simpl. intros H _.
  apply orb_false_elim in H. destruct H as [-> _]. reflexivity.
Qed.

Lemma rstrip_keep (x y : string) :
  Str.rstrip y = y -> y <> EmptyString -> Str.rstrip (x ++ y) = x ++ y.
Proof.
  intros Hy Hne. induction x as [| c x IH]; simpl; [exact Hy |].
  rewrite IH. destruct (x ++ y) as [| c' t] eqn:E; [| reflexivity].
  exfalso. destruct x; simpl in E; [contradiction | discriminate E].
Qed.

Lemma meridiem_facts (meridiem : string) (pm : bool) :
  In (meridiem, pm) [("AM", false); ("am", false);
                     ("PM", true); ("pm", true)] ->
  Str.rstrip (" " ++ meridiem) = " " ++ meridiem
  /\ string_forall digit_or_colon (" " ++ meridiem) = false
  /\ string_count is_colon (" " ++ meridiem) = O
  /\ Str.lower meridiem = (if pm then "pm" else "am").
Proof.
  intros Hin. simpl in Hin.
  repeat (destruct Hin as [Hin | Hin];
          [inversion Hin; subst; repeat split; reflexivity |]).
  contradiction.
Qed.

Lemma found_hour_12 (h : Z) (meridiem : string) (pm : bool)
      (hour_text : Z -> string) (rest : Re.groupdict) :
  Str.int (hour_text h) = h ->
  Str.lower meridiem = (if pm then "pm" else "am") ->
  Re.get "H" rest = None -> Re.get "I" rest = Some (hour_text h) ->
  Re.get "p" rest = Some meridiem ->
  1 <= h <= 12 ->
  Strptime.found_hour rest = hour_of_12 h pm.
Proof.
  intros Hint Hlow HH HI Hp Hh.
  unfold Strptime.found_hour, Strptime.group_int, hour_of_12.
  rewrite HH, HI, Hp. cbn [option_map]. rewrite Hint, Hlow.
  destruct pm; cbn; destruct (h =? 12) eqn:E; lia.
Qed.

Lemma strptime_IMp (hour_text : Z -> string) (meridiem : string) (pm : bool)
      (h m : Z) :
  hour_text = two_digits \/ hour_text = no_padding ->
  In (meridiem, pm) [("AM", false); ("am", false);
                     ("PM", true); ("pm", true)] ->
  1 <= h <= 12 -> 0 <= m < 60 ->
  Strptime.strptime (clock12_short hour_text h m meridiem) "%I:%M %p"
  = Some (mk_time (hour_of_12 h pm) m 0).
Proof.
  intros Hht Hmp Hh Hm.
  destruct (hour_text_facts hour_text h Hht ltac:(lia)) as [Hint _].
  destruct (meridiem_facts meridiem pm Hmp) as [_ [_ [_ Hlow]]].
  assert (Re.rmatch (Re.Seq (dir_re "I") (Re.Seq (Re.lit_i ":")
                       (Re.Seq (dir_re "M")
                          (Re.Seq (Re.Plus Str.is_space)
                             (Re.Seq (dir_re "p") Re.Eps)))))
                    (clock12_short hour_text h m meridiem)
          = Some (String.length (clock12_short hour_text h m meridiem),
                  [("p"%char, meridiem); ("M"%char, two_digits m);
                   ("I"%char, hour_text h)])) as Hr.
  { unfold Re.rmatch, clock12_short.
    change (Re.bt (Re.Seq ?a ?b) ?s ?g ?k)
      with (Re.bt a s g (fun s' g' => Re.bt b s' g' k)).
    change (":" ++ ?x) with (String ":" x).
    apply bt_dir_I; [exact Hht | exact Hh |]. cbv beta.
    change (Re.bt (Re.Seq ?a ?b) ?s ?g ?k)
      with (Re.bt a s g (fun s' g' => Re.bt b s' g' k)).
    apply bt_colon.
    change (Re.bt (Re.Seq ?a ?b) ?s ?g ?k)
      with (Re.bt a s g (fun s' g' => Re.bt b s' g' k)).
    apply bt_dir_M; [exact Hm |]. cbv beta.
    apply (bt_space_meridiem meridiem pm); [exact Hmp |].
    simpl String.length at 2. rewrite Nat.sub_0_r. reflexivity. }
  unfold Strptime.strptime.
  rewrite pattern_IMp, Hr, Nat.eqb_refl. cbn [negb].
  rewrite (found_hour_12 h meridiem pm hour_text) by
      (auto; reflexivity).
  unfold Strptime.found_or_zero, Strptime.group_int.
  cbn [Re.get Ascii.eqb Bool.eqb andb option_map].
  rewrite !int_two_digits by lia.
  rewrite (range_checks (hour_of_12 h pm) m 0);
    [reflexivity | | lia | lia].
  unfold hour_of_12. destruct pm; destruct (h =? 12) eqn:E; lia.
Qed.

Lemma strptime_IMSp (hour_text : Z -> string) (meridiem : string) (pm : bool)
      (h m s : Z) :
  hour_text = two_digits \/ hour_text = no_padding ->
  In (meridiem, pm) [("AM", false); ("am", false);
                     ("PM", true); ("pm", true)] ->
  1 <= h <= 12 -> 0 <= m < 60 -> 0 <= s < 60 ->
  Strptime.strptime (clock12 hour_text h m s meridiem) "%I:%M:%S %p"
  = Some (mk_time (hour_of_12 h pm) m s).
Proof.
  intros Hht Hmp Hh Hm Hs.
  destruct (hour_text_facts hour_text h Hht ltac:(lia)) as [Hint _].
  destruct (meridiem_facts meridiem pm Hmp) as [_ [_ [_ Hlow]]].
  assert (Re.rmatch (Re.Seq (dir_re "I") (Re.Seq (Re.lit_i ":")
                       (Re.Seq (dir_re "M") (Re.Seq (Re.lit_i ":")
                          (Re.Seq (dir_re "S")
                             (Re.Seq (Re.Plus Str.is_space)
                                (Re.Seq (dir_re "p") Re.Eps)))))))
                    (clock12 hour_text h m s meridiem)
          = Some (String.length (clock12 hour_text h m s meridiem),
                  [("p"%char, meridiem); ("S"%char, two_digits s);
                   ("M"%char, two_digits m); ("I"%char, hour_text h)]))
    as Hr.
  { unfold Re.rmatch, clock12.
    change (Re.bt (Re.Seq ?a ?b) ?s ?g ?k)
      with (Re.bt a s g (fun s' g' => Re.bt b s' g' k)).
    change (":" ++ ?x) with (String ":" x).
    apply bt_dir_I; [exact Hht | exact Hh |]. cbv beta.
    change (Re.bt (Re.Seq ?a ?b) ?s ?g ?k)
      with (Re.bt a s g (fun s' g' => Re.bt b s' g' k)).
    apply bt_colon.
    change (Re.bt (Re.Seq ?a ?b) ?s ?g ?k)
      with (Re.bt a s g (fun s' g' => Re.bt b s' g' k)).
    apply bt_dir_M; [exact Hm |]. cbv beta.
    change (Re.bt (Re.Seq ?a ?b) ?s ?g ?k)
      with (Re.bt a s g (fun s' g' => Re.bt b s' g' k)).
    change (":" ++ ?x) with (String ":" x).
    apply bt_colon.
    change (Re.bt (Re.Seq ?a ?b) ?s ?g ?k)
      with (Re.bt a s g (fun s' g' => Re.bt b s' g' k)).
    apply bt_dir_S; [exact Hs |]. cbv beta.
    apply (bt_space_meridiem meridiem pm); [exact Hmp |].
    simpl String.length at 2. rewrite Nat.sub_0_r. reflexivity. }
  unfold Strptime.strptime.
  rewrite pattern_IMSp, Hr, Nat.eqb_refl. cbn [negb].
  rewrite (found_hour_12 h meridiem pm hour_text) by
      (auto; reflexivity).
  unfold Strptime.found_or_zero, Strptime.group_int.
  cbn [Re.get Ascii.eqb Bool.eqb andb option_map].
  rewrite !int_two_digits by lia.
  rewrite (range_checks (hour_of_12 h pm) m s);
    [reflexivity | | lia | lia].
  unfold hour_of_12. destruct pm; destruct (h =? 12) eqn:E; lia.
Qed.

Lemma string_forall_app_false_r (Q : ascii -> bool) (a b : string) :
  string_forall Q b = false -> string_forall Q (a ++ b) = false.
Proof.
  intros H. rewrite string_forall_app, H. apply andb_false_r.
Qed.

Lemma strip_clock12_tail (hour_text : Z -> string) (h : Z)
      (middle meridiem : string) (pm : bool) :
  hour_text = two_digits \/ hour_text = no_padding ->
  In (meridiem, pm) [("AM", false); ("am", false);
                     ("PM", true); ("pm", true)] ->
  1 <= h <= 12 ->
  Str.strip (hour_text h ++ middle ++ " " ++ meridiem)
  = hour_text h ++ middle ++ " " ++ meridiem.
Proof.
  intros Hht Hmp Hh.
  destruct (hour_text_facts hour_text h Hht ltac:(lia))
    as [_ [Hsp [Hne _]]].
  destruct (meridiem_facts meridiem pm Hmp) as [Hr _].
  unfold Str.strip. rewrite (lstrip_keep _ _ Hsp Hne).
  rewrite <- (string_app_assoc (hour_text h) middle).
  apply rstrip_keep; [exact Hr |].
  simpl. discriminate.
Qed.

Lemma parse_clock12_short (hour_text : Z -> string) (meridiem : string)
      (pm : bool) (h m : Z) :
  hour_text = two_digits \/ hour_text = no_padding ->
  In (meridiem, pm) [("AM", false); ("am", false);
                     ("PM", true); ("pm", true)] ->
  1 <= h <= 12 -> 0 <= m < 60 ->
  _parse_time_flex (Some (clock12_short hour_text h m meridiem))
  = Some (mk_time (hour_of_12 h pm) m 0).
Proof.
  intros Hht Hmp Hh Hm.
  pose proof (strptime_IMp hour_text meridiem pm h m Hht Hmp Hh Hm) as Hok.
  destruct (hour_text_facts hour_text h Hht ltac:(lia))
    as [_ [_ [_ Hc]]].
  destruct (meridiem_facts meridiem pm Hmp) as [_ [Hletters [Hcm _]]].
  rewrite parse_time_flex_try.
  replace (Str.strip (clock12_short hour_text h m meridiem))
    with (clock12_short hour_text h m meridiem).
  2:{ symmetry. unfold clock12_short.
      rewrite <- (string_app_assoc ":" (two_digits m)).
      apply (strip_clock12_tail hour_text h _ meridiem pm); assumption. }
  assert (string_forall digit_or_colon
            (clock12_short hour_text h m meridiem) = false) as Hl.
  { unfold clock12_short.
    do 3 apply string_forall_app_false_r. exact Hletters. }
  assert (string_count is_colon (clock12_short hour_text h m meridiem) < 2)%nat
    as Hcount.
  { unfold clock12_short. remember (" " ++ meridiem) as tail.
    rewrite !string_count_app, Hc, Hcm, two_digits_no_colon by lia.
    simpl. lia. }
  unfold time_formats, try_formats.
  rewrite (strptime_24_hour_chars _ "%H:%M:%S") by (simpl; auto).
  rewrite (strptime_24_hour_chars _ "%H:%M") by (simpl; auto).
  rewrite (strptime_needs_two_colons _ "%I:%M:%S %p") by (simpl; auto).
  rewrite Hok. reflexivity.
Qed.

Lemma parse_clock12 (hour_text : Z -> string) (meridiem : string)
      (pm : bool) (h m s : Z) :
  hour_text = two_digits \/ hour_text = no_padding ->
  In (meridiem, pm) [("AM", false); ("am", false);
                     ("PM", true); ("pm", true)] ->
  1 <= h <= 12 -> 0 <= m < 60 -> 0 <= s < 60 ->
  _parse_time_flex (Some (clock12 hour_text h m s meridiem))
  = Some (mk_time (hour_of_12 h pm) m s).
Proof.
  intros Hht Hmp Hh Hm Hs.
  pose proof (strptime_IMSp hour_text meridiem pm h m s Hht Hmp Hh Hm Hs)
    as Hok.
  destruct (meridiem_facts meridiem pm Hmp) as [_ [Hletters _]].
  rewrite parse_time_flex_try.
  replace (Str.strip (clock12 hour_text h m s meridiem))
    with (clock12 hour_text h m s meridiem).
  2:{ symmetry. unfold clock12.
      rewrite <- (string_app_assoc ":" (two_digits s)).
      rewrite <- (string_app_assoc (two_digits m)).
      rewrite <- (string_app_assoc ":" (two_digits m ++ ":" ++ two_digits s)).
      apply (strip_clock12_tail hour_text h _ meridiem pm); assumption. }
  assert (string_forall digit_or_colon
            (clock12 hour_text h m s meridiem) = false) as Hl.
  { unfold clock12.
    do 5 apply string_forall_app_false_r. exact Hletters. }
  unfold time_formats, try_formats.
  rewrite (strptime_24_hour_chars _ "%H:%M:%S") by (simpl; auto).
  rewrite (strptime_24_hour_chars _ "%H:%M") by (simpl; auto).
  rewrite Hok. reflexivity.
Qed.

(** X12.  Every 24-hour clock string [HH:MM:SS] with an hour below 24 and
    minute and second below 60 parses to that hour, minute and second, and
    [HH:MM] to that hour and minute with second 0; a two-digit [HH:MM]
    with an hour of 24 or more, or a minute of 60 or more, parses as
    nothing. *)
Theorem parse_time_flex_reads_24_hour_clocks :
  (forall h m s,
      0 <= h < 24 -> 0 <= m < 60 -> 0 <= s < 60 ->
      _parse_time_flex (Some (clock24 h m s)) = Some (mk_time h m s))
  /\ (forall h m,
        0 <= h < 24 -> 0 <= m < 60 ->
        _parse_time_flex (Some (clock24_short h m)) = Some (mk_time h m 0))
  /\ (forall h m,
        0 <= h < 100 -> 0 <= m < 100 -> 24 <= h \/ 60 <= m ->
        _parse_time_flex (Some (clock24_short h m)) = None).
Proof.
  split; [| split].
  - exact parse_clock24.
  - exact parse_clock24_short.
  - assert (forallb (fun h => forallb (fun m =>
              (h <? 24) && (m <? 60)
              || time_eqb (_parse_time_flex (Some (clock24_short h m))) None)
              (upto 100)) (upto 100) = true) as H
        by (vm_compute; reflexivity).
    intros h m Hh Hm Hbad. rewrite forallb_forall in H.
    specialize (H h (upto_in 100 h Hh)). rewrite forallb_forall in H.
    specialize (H m (upto_in 100 m Hm)).
    apply orb_prop in H. destruct H as [H | H].
    + apply andb_prop in H. destruct H as [H1 H2].
      apply Z.ltb_lt in H1, H2. lia.
    + apply time_eqb_eq. exact H.
Qed.

Lemma parse_time_flex_reads_24_hour_clocks_witness :
  _parse_time_flex (Some (clock24 19 48 7)) = Some (mk_time 19 48 7)
  /\ _parse_time_flex (Some (clock24_short 24 0)) = None.
Proof.
  split.
  - apply (proj1 parse_time_flex_reads_24_hour_clocks); lia.
  - apply (proj2 (proj2 parse_time_flex_reads_24_hour_clocks)); lia.
Defined.

(** X13.  Every 12-hour clock string [H:MM AM], [H:MM PM], [H:MM:SS AM]
    or [H:MM:SS PM], with the hour from 1 to 12 written with or without a
    leading zero and the meridiem in upper or lower case, parses to the
    hour of the day: 12 AM is hour 0, 12 PM is hour 12, and PM adds 12 to
    the other hours; the short form has second 0. *)
Theorem parse_time_flex_reads_12_hour_clocks :
  forall (hour_text : Z -> string) (meridiem : string) (pm : bool),
    hour_text = two_digits \/ hour_text = no_padding ->
    In (meridiem, pm) [("AM", false); ("am", false);
                       ("PM", true); ("pm", true)] ->
    forall h m s,
      1 <= h <= 12 -> 0 <= m < 60 -> 0 <= s < 60 ->
      _parse_time_flex (Some (clock12_short hour_text h m meridiem))
      = Some (mk_time (hour_of_12 h pm) m 0)
      /\ _parse_time_flex (Some (clock12 hour_text h m s meridiem))
         = Some (mk_time (hour_of_12 h pm) m s).
Proof.
  intros hour_text meridiem pm Hht Hmp h m s Hh Hm Hs. split.
  - apply parse_clock12_short; assumption.
  - apply parse_clock12; assumption.
Qed.

Lemma parse_time_flex_reads_12_hour_clocks_witness :
  _parse_time_flex (Some (clock12_short no_padding 12 5 "am"))
  = Some (mk_time (hour_of_12 12 false) 5 0)
  /\ _parse_time_flex (Some (clock12 no_padding 12 5 30 "am"))
     = Some (mk_time (hour_of_12 12 false) 5 30).
Proof.
  apply (parse_time_flex_reads_12_hour_clocks no_padding "am" false).
  - right. reflexivity.
  - simpl. auto.
  - lia.
  - lia.
  - lia.
Defined.

(* ===================================================================== *)
(** ** Further properties: the flight day, and the order of the frame *)
(* ===================================================================== *)

Lemma same_day (d td : Z) :
  time_of_day d = 0 -> 0 <= td < NS_PER_DAY ->
  d <= d + td < d + NS_PER_DAY
  /\ normalize (Some (d + td)) = Some d.
Proof.
  unfold time_of_day, normalize. intros Hd Htd. split; [lia |].
  simpl. f_equal.
  assert (0 < NS_PER_DAY) as Hpos by (vm_compute; reflexivity).
  pose proof (Z.div_mod d NS_PER_DAY ltac:(lia)) as Hq. rewrite Hd in Hq.
  assert ((d + td) mod NS_PER_DAY = td) as ->; [| lia].
  rewrite Hq at 1. rewrite Z.add_0_r, Z.add_comm, Z.mul_comm.
  rewrite Zdiv.Z_mod_plus_full. apply Z.mod_small. lia.
Qed.

(** X15.  In the resolved batch, under every [on_missing], a record
    whose update field is a dateless string and whose flight date is
    known has a resolved update on its flight day: it lies from the flight
    date at 00:00:00 to less than one day later, so normalizing it gives
    the flight date back. *)
Theorem time_only_update_stays_on_the_flight_day :
  forall (pd : Pandas) (csv : Csv)
         (on_missing : string) (df batch : list Row) (log : list info)
         (r : Row) (d : Z),
    load_validate pd csv = Ok df ->
    resolve pd csv on_missing = Ok (batch, log) ->
    In r batch -> no_date r = true -> flight_dt r = Some d ->
    exists x,
      lastupdt_parsed r = Some x
      /\ d <= x < d + NS_PER_DAY
      /\ normalize (Some x) = Some d.
Proof.
  intros pd csv on_missing df batch log r d Hdf Hres Hr Hnd Hfd.
  destruct (batch_rows pd _ _ _ _ _ Hdf Hres) as [_ [Hout _]].
  destruct (Hout r Hr) as [r0 [Hr0 [Hs ->]]].
  destruct (resolved_row_base (dated_parser pd df) on_missing r0)
    as [_ [_ [Hf Hp]]].
  destruct (load_validate_row pd _ _ _ Hdf Hr0) as [_ [Hmid _]].
  rewrite Hf in Hfd. specialize (Hmid d Hfd).
  destruct (after_blanks_base on_missing r0) as [_ [_ Hf1]].
  assert (no_date (after_blanks on_missing r0) = true) as Hnd1 by exact Hnd.
  unfold survives in Hs. apply andb_prop in Hs. destruct Hs as [_ Hs].
  unfold passes_times, bad_mask in Hs. rewrite Hnd1 in Hs. simpl in Hs.
  rewrite Hp. unfold resolved_value. rewrite Hnd1, Hf1, Hfd.
  destruct (parsed_time (after_blanks on_missing r0)) as [t |] eqn:Et.
  - destruct (parse_time_flex_valid _ _ Et) as [Hh [Hm Hsec]].
    assert (0 <= timedelta t < NS_PER_DAY) as Htd
        by (unfold timedelta, NS_PER_DAY, NS_PER_SECOND; lia).
    exists (d + timedelta t). split; [reflexivity |].
    apply same_day; assumption.
  - simpl in Hs. rewrite orb_false_r in Hs. rewrite Hs.
    exists (d + timedelta midnight). split; [reflexivity |].
    apply same_day; [exact Hmid |].
    vm_compute; split; [discriminate | reflexivity].
Qed.

Lemma time_only_update_stays_on_the_flight_day_witness :
  exists x,
    lastupdt_parsed (nth 1 (Tests.batch Tests.time_only "drop") Tests.no_row)
    = Some x
    /\ Iso.instant 2019 1 3 0 0 0 <= x
       < Iso.instant 2019 1 3 0 0 0 + NS_PER_DAY
    /\ normalize (Some x) = Some (Iso.instant 2019 1 3 0 0 0).
Proof.
  apply (time_only_update_stays_on_the_flight_day Iso.pandas
           Tests.time_only "drop" (Tests.loaded Tests.time_only)
           (Tests.batch Tests.time_only "drop")
           (Tests.log Tests.time_only "drop")).
  - vm_compute. reflexivity.
  - vm_compute. reflexivity.
  - vm_compute. right. left. reflexivity.
  - vm_compute. reflexivity.
  - vm_compute. reflexivity.
Defined.

Lemma drop_duplicates_from_subset :
  forall df seen r, In r (drop_duplicates_from seen df) -> In r df.
Proof.
  intros df seen r H. apply drop_duplicates_from_in in H.
  destruct H as [_ H]. apply find_key_some in H. apply H.
Qed.

Lemma drop_duplicates_from_sorted :
  forall df seen, sorted_rows df -> sorted_rows (drop_duplicates_from seen df).
Proof.
  unfold sorted_rows.
  induction df as [| x df IH]; simpl; intros seen H; [constructor |].
  inversion H as [| ? ? Hl Hx]; subst.
  destruct (Str.isin (flightkey x) seen); [apply IH; exact Hl |].
  constructor; [apply IH; exact Hl |].
  rewrite Forall_forall in *. intros z Hz. apply Hx.
  apply (drop_duplicates_from_subset _ _ _ Hz).
Qed.

Lemma sorted_distinct_keys :
  forall df, sorted_rows df -> NoDup (map flightkey df) ->
             StronglySorted String_as_OT.lt (map flightkey df).
Proof.
  unfold sorted_rows.
  induction df as [| x df IH]; simpl; intros H Hnd; [constructor |].
  inversion H as [| ? ? Hl Hx]; subst.
  inversion Hnd as [| ? ? Hnotin Hnd']; subst.
  constructor; [apply IH; assumption |].
  rewrite Forall_forall in *. intros k Hk.
  apply in_map_iff in Hk. destruct Hk as [z [<- Hz]].
  apply row_le_other_key; [| apply Hx; exact Hz].
  intros E. apply Hnotin. rewrite E. apply in_map. exact Hz.
Qed.

(** X16.  The rows of the returned frame are in strictly ascending order
    of flight key (the order of the code points), whatever the order of
    the file. *)
Theorem output_is_ordered_by_flight_key :
  forall (pd : Pandas) (csv : Csv)
         (on_missing : string) (out : OutFrame) (log : list info),
    most_recent_flights_csv pd csv on_missing = Ok (out, log) ->
    StronglySorted String_as_OT.lt (map out_flightkey (out_rows out)).
Proof.
  intros pd csv on_missing out log H.
  apply most_recent_ok in H. destruct H as [batch [_ ->]].
  simpl. rewrite map_map.
  change (StronglySorted String_as_OT.lt (map flightkey (reduce batch))).
  apply sorted_distinct_keys.
  - apply drop_duplicates_from_sorted. apply sort_values_sorted.
  - apply drop_duplicates_from_NoDup.
Qed.

Lemma output_is_ordered_by_flight_key_witness :
  StronglySorted String_as_OT.lt
    (map out_flightkey (out_rows (Tests.output Cases.mixed "midnight"))).
Proof.
  apply (output_is_ordered_by_flight_key Iso.pandas Cases.mixed
           "midnight" (Tests.output Cases.mixed "midnight")
           (Tests.log Cases.mixed "midnight")).
  vm_compute. reflexivity.
Defined.

(** X17.  For an [on_missing] other than ['drop'], ['midnight'] and
    ['error'], on an input that passes loading and validation: when no
    loaded update field is, without being blank-like, a dateless string
    that parses as no clock time, the resolver returns every loaded
    record, in the order of the file, and writes nothing; when there is
    such a field, step 7 acts as under ['drop']: the rows that hold one are
    counted on [sys.stderr] and the call raises the indexing error. *)
Theorem unknown_policy_keeps_every_record_or_raises :
  forall (pd : Pandas) (csv : Csv) (on_missing : string) (df : list Row),
    on_missing <> "drop" -> on_missing <> "midnight" ->
    on_missing <> "error" ->
    load_validate pd csv = Ok df ->
    (time_only_drops df = O ->
     exists batch,
       resolve pd csv on_missing = Ok (batch, [])
       /\ map index batch = map index df
       /\ map flightkey batch = map flightkey df)
    /\ (time_only_drops df <> O ->
        most_recent_flights_csv pd csv on_missing
        = Err (IndexingError [Dropped (time_only_drops df)])).
Proof.
  intros pd csv on_missing df Hdrop Hmid Herr Hdf.
  destruct (resolve_dropping pd csv on_missing df Hdf Hmid Herr)
    as [Hyes Hno].
  split.
  - intros Hz. destruct (Hno Hz) as [batch Hres].
    exists batch. split; [exact Hres |].
    apply String.eqb_neq in Hdrop, Hmid.
    apply resolve_rowwise in Hres. destruct Hres as [df' [Hdf' ->]].
    rewrite Hdf in Hdf'. inversion Hdf'; subst df'; clear Hdf'.
    rewrite filter_all.
    + rewrite !map_map. split; apply map_ext; intros r;
        apply resolved_row_base.
    + intros r Hr.
      unfold survives, passes_blanks, passes_times, after_blanks.
      rewrite Hdrop, Hmid. simpl.
      destruct (blank_like r) eqn:Hb; [reflexivity |].
      rewrite (no_drops_clean df r Hz Hr Hb). reflexivity.
  - intros Hnz. apply most_recent_err. apply Hyes. exact Hnz.
Qed.

Lemma unknown_policy_keeps_every_record_or_raises_witness :
  most_recent_flights_csv Iso.pandas Cases.mixed "skip"
  = Err (IndexingError [Dropped (time_only_drops (Tests.loaded Cases.mixed))])
  /\ exists batch,
      resolve Iso.pandas Tests.missing_time "skip" = Ok (batch, [])
      /\ map index batch = map index (Tests.loaded Tests.missing_time)
      /\ map flightkey batch
         = map flightkey (Tests.loaded Tests.missing_time).
Proof.
  split.
  - apply (proj2 (unknown_policy_keeps_every_record_or_raises
                    Iso.pandas Cases.mixed "skip" (Tests.loaded Cases.mixed)
                    ltac:(discriminate) ltac:(discriminate)
                    ltac:(discriminate) ltac:(vm_compute; reflexivity))).
    vm_compute. discriminate.
  - apply (proj1 (unknown_policy_keeps_every_record_or_raises
                    Iso.pandas Tests.missing_time "skip"
                    (Tests.loaded Tests.missing_time)
                    ltac:(discriminate) ltac:(discriminate)
                    ltac:(discriminate) ltac:(vm_compute; reflexivity))).
    vm_compute. reflexivity.
Defined.

(* ===================================================================== *)
(** ** Further properties: the policies compared *)
(* ===================================================================== *)

Lemma no_later_refl (a : datetime64) : no_later a a.
Proof. destruct a as [x |]; simpl; [lia | exact I]. Qed.

Lemma no_later_trans (a b c : datetime64) :
  no_later a b -> no_later b c -> no_later a c.
Proof.
  destruct a as [x |], b as [y |], c as [z |]; simpl; intros H1 H2;
    try exact I; try contradiction.
  lia.
Qed.

Lemma survives_midnight (r : Row) : survives "midnight" r = true.
Proof. reflexivity. Qed.

(** The value that ['midnight'] gives a record is at least as late as
    the value that any policy keeping the record gives it. *)
Lemma midnight_value_latest (parse : string -> option datetime64)
      (on_missing : string) (r : Row) :
  survives on_missing r = true ->
  no_later (lastupdt_parsed (resolved_row parse on_missing r))
           (lastupdt_parsed (resolved_row parse "midnight" r)).
Proof.
  intros Hs.
  destruct (resolved_row_base parse "midnight" r) as [_ [_ [_ ->]]].
  destruct (resolved_row_base parse on_missing r) as [_ [_ [_ ->]]].
  destruct (String.eqb on_missing "midnight") eqn:Emid.
  { apply String.eqb_eq in Emid. subst on_missing. apply no_later_refl. }
  destruct (blank_like r) eqn:Eb.
  - assert (resolved_value parse on_missing (after_blanks on_missing r)
            = NaT) as ->.
    { unfold after_blanks. rewrite Eb, Emid.
      unfold resolved_value, no_date, has_date. simpl. reflexivity. }
    exact I.
  - rewrite !after_blanks_not_blank by exact Eb.
    unfold survives in Hs. apply andb_prop in Hs. destruct Hs as [_ Hs].
    rewrite after_blanks_not_blank in Hs by exact Eb.
    unfold passes_times in Hs. rewrite Emid in Hs. simpl in Hs.
    apply negb_true_iff in Hs. unfold bad_mask in Hs.
    unfold resolved_value. rewrite Emid.
    destruct (no_date r); simpl in Hs.
    + destruct (parsed_time r); [apply no_later_refl | discriminate Hs].
    + apply no_later_refl.
Qed.

(** X18.  Whenever the call returns under some [on_missing], it also
    returns under ['midnight'], with nothing written to [sys.stderr] and
    the same columns, and the frame of ['midnight'] has a row for every
    flight key of the other frame, whose update is no earlier (an absent
    update counting as earliest). *)
Theorem midnight_reports_every_flight_at_least_as_late :
  forall (pd : Pandas) (csv : Csv)
         (on_missing : string) (out : OutFrame) (log : list info),
    most_recent_flights_csv pd csv on_missing = Ok (out, log) ->
    exists out_m,
      most_recent_flights_csv pd csv "midnight" = Ok (out_m, [])
      /\ out_columns out_m = out_columns out
      /\ forall o, In o (out_rows out) ->
           exists o', In o' (out_rows out_m)
                      /\ out_flightkey o' = out_flightkey o
                      /\ no_later (out_lastupdt o) (out_lastupdt o').
Proof.
  intros pd csv on_missing out log H.
  apply most_recent_ok in H. destruct H as [batch [Hres ->]].
  destruct (resolve_ok_loaded pd _ _ _ _ Hres) as [df Hdf].
  destruct (resolve_total pd csv df Hdf) as [batch_m Hres_m].
  exists (project (columns csv) (reduce batch_m)).
  split; [| split].
  - unfold most_recent_flights_csv. rewrite Hres_m. reflexivity.
  - reflexivity.
  - intros o Ho. simpl in Ho. apply in_map_iff in Ho.
    destruct Ho as [r [<- Hr]]. apply reduce_in in Hr.
    destruct (batch_rows pd _ _ _ _ _ Hdf Hres) as [_ [Hfrom _]].
    destruct (batch_rows pd _ _ _ _ _ Hdf Hres_m)
      as [Hto [_ Hinc]].
    destruct (Hfrom r Hr) as [r0 [Hr0 [Hs ->]]].
    pose proof (Hto r0 Hr0 (survives_midnight r0)) as Hm0.
    destruct (resolved_row_base (dated_parser pd df) on_missing r0)
      as [_ [Hk _]].
    destruct (resolved_row_base (dated_parser pd df) "midnight" r0)
      as [_ [Hkm _]].
    assert (In (flightkey r0) (map flightkey (reduce batch_m))) as Hin.
    { apply reduce_keys. rewrite <- Hkm. apply in_map. exact Hm0. }
    apply in_map_iff in Hin. destruct Hin as [rm [Hrk Hrm]].
    exists (project_row rm). split; [apply in_map; exact Hrm |].
    split.
    { change (flightkey rm
              = flightkey (resolved_row (dated_parser pd df) on_missing r0)).
      rewrite Hk. exact Hrk. }
    change (no_later
              (lastupdt_parsed
                 (resolved_row (dated_parser pd df) on_missing r0))
              (lastupdt_parsed rm)).
    destruct (reduce_latest batch_m rm Hinc Hrm) as [_ Hlate].
    apply (no_later_trans _
             (lastupdt_parsed
                (resolved_row (dated_parser pd df) "midnight" r0))).
    + apply midnight_value_latest. exact Hs.
    + apply (Hlate _ Hm0). congruence.
Qed.

Lemma midnight_reports_every_flight_at_least_as_late_witness :
  exists out_m,
    most_recent_flights_csv Iso.pandas Cases.blanks "midnight"
    = Ok (out_m, [])
    /\ out_columns out_m = out_columns (Tests.output Cases.blanks "drop")
    /\ forall o, In o (out_rows (Tests.output Cases.blanks "drop")) ->
         exists o', In o' (out_rows out_m)
                    /\ out_flightkey o' = out_flightkey o
                    /\ no_later (out_lastupdt o) (out_lastupdt o').
Proof.
  apply (midnight_reports_every_flight_at_least_as_late Iso.pandas
           Cases.blanks "drop" (Tests.output Cases.blanks "drop")
           (Tests.log Cases.blanks "drop")).
  vm_compute. reflexivity.
Defined.

(** On the input with blank update fields, ['drop'] loses the flight K1,
    whose only row is blank, and ['midnight'] reports it at its flight
    date. *)
Example blanks_under_drop_and_midnight :
  Tests.keys_and_updates (Tests.run Cases.blanks "drop")
  = Some [("K2", "In", Some (Iso.instant 2019 1 2 8 45 0))]
  /\ Tests.keys_and_updates (Tests.run Cases.blanks "midnight")
     = Some [("K1", "Boarding", Some (Iso.instant 2019 1 1 0 0 0));
             ("K2", "In", Some (Iso.instant 2019 1 2 8 45 0))].
Proof. split; vm_compute; reflexivity. Qed.

(* ===================================================================== *)
(** ** Further properties: strings that hold a date *)
(* ===================================================================== *)

(** A match at some offset is found by [search]. *)
Lemma search_at (r : Re.regex) (s : string) :
  Re.rmatch r s <> None -> forall pre, Re.search r (pre ++ s) = true.
Proof.
  intros H pre. induction pre as [| c pre IH].
  - simpl. destruct s as [| c s]; simpl;
      destruct (Re.rmatch r _); try reflexivity; contradiction.
  - simpl. destruct (Re.rmatch r (String c (pre ++ s))); [reflexivity |].
    exact IH.
Qed.

Lemma date_sep_not_digit (c : ascii) :
  is_date_sep c = true -> Str.is_digit c = false.
Proof.
  unfold is_date_sep. intros H. apply orb_prop in H.
  destruct H as [H | H]; apply Ascii.eqb_eq in H; subst c; reflexivity.
Qed.

Lemma is_digits_S (n : nat) (s : string) :
  is_digits (S n) s = true ->
  exists a s',
    s = String a s' /\ Str.is_digit a = true /\ is_digits n s' = true.
Proof.
  unfold is_digits. intros H. apply andb_prop in H. destruct H as [H L].
  apply Nat.eqb_eq in L.
  destruct s as [| a s]; simpl in L; [discriminate L |].
  simpl in H. apply andb_prop in H. destruct H as [Ha Hs].
  exists a, s. rewrite Ha, Hs. split; [reflexivity | split; [reflexivity |]].
  apply Nat.eqb_eq. lia.
Qed.

Lemma is_digits_0 (s : string) : is_digits 0 s = true -> s = EmptyString.
Proof.
  unfold is_digits. intros H. apply andb_prop in H. destruct H as [_ L].
  apply Nat.eqb_eq in L. destruct s; [reflexivity | discriminate L].
Qed.

Ltac split_digits :=
  repeat match goal with
         | H : is_digits (S _) _ = true |- _ =>
             let a := fresh "a" in let s := fresh "s" in
             let Ha := fresh "Ha" in
             apply is_digits_S in H; destruct H as [a [s [-> [Ha H]]]]
         | H : is_digits 0 _ = true |- _ => apply is_digits_0 in H; subst
         end.

Lemma rmatch_ymd (y m d post : string) (sep1 sep2 : ascii) :
  is_digits 4 y = true -> is_digits 2 m = true -> is_digits 2 d = true ->
  is_date_sep sep1 = true -> is_date_sep sep2 = true ->
  Re.rmatch _DATE_RE (date_ymd y m d sep1 sep2 ++ post) <> None.
Proof.
  intros Hy Hm Hd H1 H2. split_digits.
  unfold is_date_sep in H1, H2.
  unfold Re.rmatch, _DATE_RE, date_ymd, date_sep.
  cbn [Re.bt Re.rep Re.digit String.append].
  repeat match goal with H : _ = true |- _ => rewrite H; clear H end.
  discriminate.
Qed.

Lemma rmatch_mdy (m d y post : string) (sep1 sep2 : ascii) :
  is_digits 1 m || is_digits 2 m = true ->
  is_digits 1 d || is_digits 2 d = true ->
  is_digits 4 y = true ->
  is_date_sep sep1 = true -> is_date_sep sep2 = true ->
  Re.rmatch _DATE_RE (date_mdy m d y sep1 sep2 ++ post) <> None.
Proof.
  intros Hm Hd Hy H1 H2.
  pose proof (date_sep_not_digit sep1 H1) as N1.
  pose proof (date_sep_not_digit sep2 H2) as N2.
  unfold is_date_sep in H1, H2.
  apply orb_prop in Hm, Hd.
  destruct Hm as [Hm | Hm], Hd as [Hd | Hd]; split_digits;
    unfold Re.rmatch, _DATE_RE, date_mdy, date_sep;
    cbn [Re.bt Re.rep Re.rep12 Re.digit String.append];
    repeat match goal with
           | H : _ = true |- _ => rewrite H
           | H : _ = false |- _ => rewrite H
           end;
    try discriminate;
    repeat match goal with
           | |- context [if ?c then _ else _] => destruct c
           end;
    discriminate.
Qed.

(** X19.  [_DATE_RE] is found in every string that holds, at any place,
    four digits, a separator [-] or [/], two digits, a separator and two
    digits, or one or two digits, a separator, one or two digits, a
    separator and four digits; a row with such an update field has a date
    in step 5 and is no time-only row. *)
Theorem date_pattern_is_found_anywhere :
  forall (pre post y m d : string) (sep1 sep2 : ascii),
    is_digits 4 y = true ->
    is_date_sep sep1 = true -> is_date_sep sep2 = true ->
    (is_digits 2 m = true -> is_digits 2 d = true ->
     Re.search _DATE_RE (pre ++ date_ymd y m d sep1 sep2 ++ post) = true)
    /\ (is_digits 1 m || is_digits 2 m = true ->
        is_digits 1 d || is_digits 2 d = true ->
        Re.search _DATE_RE (pre ++ date_mdy m d y sep1 sep2 ++ post) = true)
    /\ (forall r : Row,
          Re.search _DATE_RE (lastupdt_str r) = true ->
          has_date r = true /\ no_date r = false /\ bad_mask r = false).
Proof.
  intros pre post y m d sep1 sep2 Hy H1 H2. split; [| split].
  - intros Hm Hd. apply search_at. apply rmatch_ymd; assumption.
  - intros Hm Hd. apply search_at. apply rmatch_mdy; assumption.
  - intros r Hs.
    assert (has_date r = true) as Hd.
    { unfold has_date. unfold lastupdt_str in Hs.
      destruct (lastupdt r) as [s |]; [exact Hs |].
      vm_compute in Hs. discriminate Hs. }
    split; [exact Hd |]. split.
    + unfold no_date. rewrite Hd. reflexivity.
    + apply has_date_not_bad. exact Hd.
Qed.

Lemma date_pattern_is_found_anywhere_witness :
  Re.search _DATE_RE ("at " ++ date_ymd "2024" "01" "05" "-" "-" ++ " 10:00")
  = true
  /\ Re.search _DATE_RE ("at " ++ date_mdy "1" "5" "2024" "/" "/" ++ " 10:00")
     = true.
Proof.
  destruct (date_pattern_is_found_anywhere "at " " 10:00" "2024" "01" "05"
              "-" "-") as [A _]; try reflexivity.
  destruct (date_pattern_is_found_anywhere "at " " 10:00" "2024" "1" "5"
              "/" "/") as [_ [B _]]; try reflexivity.
  split; [apply A; reflexivity | apply B; reflexivity].
Defined.
